(** * The multi-task trainer of snorkel.classification.training.trainer

    A shallow embedding of [Trainer] (trainer.py): the Python values it
    computes with, the attributes of [self], the calls it makes on its
    collaborators, and the methods themselves, followed by the properties
    of the training loop, the loss accumulators, the loader checks and the
    learning-rate schedule. *)

From Stdlib Require Import ZArith List String Ascii Bool Lia SpecFloat.
From Stdlib Require Import RelationClasses.
Import ListNotations.
Local Open Scope string_scope.
Local Open Scope Z_scope.

(** ** Python values *)

Module Py.

(** Exceptions.  A [ValueError] carries the text of the f-string that
    builds its message, with the interpolated values kept apart. *)
Inductive message : Type :=
| splits_must_be_one_of (all_splits : list string)
    (* "Dataloader splits must be one of {all_splits}" *)
| no_train_split (train_split : string)
    (* "Cannot find any dataloaders with split matching train split: ..." *)
| unrecognized_writer (writer : string)
| unrecognized_optimizer (opt : string)
| unrecognized_lr_scheduler (opt : string)
| warmup_steps_negative
    (* "warmup_steps much greater or equal than 0." *)
| bad_warmup_unit (warmup_unit : string)
| unrecognized_batch_scheduler
| float_nan_to_integer.
    (* int(nan) *)

Inductive exn : Type :=
| ValueError (msg : message)
| ZeroDivisionError
| OverflowError
| KeyError (key : string)
| StopIteration
| CollaboratorError (code : Z).
    (* whatever a collaborator outside this module raises *)

Inductive result (A : Type) : Type :=
| Ok (a : A)
| Raise (e : exn).
Arguments Ok {A} a.
Arguments Raise {A} e.

Definition rbind {A B} (r : result A) (k : A -> result B) : result B :=
  match r with
  | Ok a => k a
  | Raise e => Raise e
  end.

(** *** Numbers: [int] is unbounded, [float] is IEEE binary64. *)

Definition float : Type := spec_float.
Definition prec : Z := 53.
Definition emax : Z := 1024.

Definition fadd : float -> float -> float := SFadd prec emax.
Definition fmul : float -> float -> float := SFmul prec emax.
Definition fdiv : float -> float -> float := SFdiv prec emax.

Definition is_inf (f : float) : bool :=
  match f with S754_infinity _ => true | _ => false end.
Definition is_zero (f : float) : bool :=
  match f with S754_zero _ => true | _ => false end.

(** [float(z)]: round to nearest even; too large an int raises. *)
Definition float_of_int (z : Z) : result float :=
  let f := binary_normalize prec emax z 0 false in
  if is_inf f then Raise OverflowError else Ok f.

(** [int(f)]: truncation toward zero. *)
Definition int_of_float (f : float) : result Z :=
  match f with
  | S754_zero _ => Ok 0
  | S754_infinity _ => Raise OverflowError
  | S754_nan => Raise (ValueError float_nan_to_integer)
  | S754_finite s m e =>
      Ok (cond_Zopp s (if 0 <=? e then Zpos m * 2 ^ e else Zpos m / 2 ^ (- e)))
  end.

(** [a / b] on two ints: the correctly rounded quotient.  The dividend is
    scaled so that the integer quotient has at least 55 bits; the
    remainder only contributes a sticky bit. *)
Definition int_truediv (a b : Z) : result float :=
  if b =? 0 then Raise ZeroDivisionError
  else
    let neg := xorb (a <? 0) (b <? 0) in
    let n := Z.abs a in
    let d := Z.abs b in
    if n =? 0 then Ok (S754_zero neg)
    else
      let k := Z.max 0 (55 + Z.log2 d - Z.log2 n) in
      let q := (n * 2 ^ k) / d in
      let sticky := if (n * 2 ^ k) mod d =? 0 then 0 else 1 in
      let f := binary_normalize prec emax
                 (cond_Zopp neg (2 * q + sticky)) (- (k + 1)) false in
      if is_inf f then Raise OverflowError else Ok f.

Inductive num : Type :=
| Int (z : Z)
| Float (f : float).

(** Truth value of a number: zero is false, everything else (NaN too)
    is true. *)
Definition truthy (n : num) : bool :=
  match n with
  | Int z => negb (z =? 0)
  | Float f => negb (is_zero f)
  end.

(** Truth value of an optional number: [None] is false. *)
Definition truthy_opt (o : option num) : bool :=
  match o with
  | None => false
  | Some n => truthy n
  end.

(** The value itself when it is true, for a branch that goes on to use
    it. *)
Definition if_truthy (o : option num) : option num :=
  match o with
  | Some n => if truthy n then Some n else None
  | None => None
  end.

Definition to_float (n : num) : result float :=
  match n with
  | Int z => float_of_int z
  | Float f => Ok f
  end.

(** Comparison is exact, also between an int and a float; [None] when a
    NaN is involved. *)
Definition float_compare_int (f : float) (z : Z) : option comparison :=
  match f with
  | S754_nan => None
  | S754_infinity s => Some (if s then Lt else Gt)
  | S754_zero _ => Some (0 ?= z)
  | S754_finite s m e =>
      let v := cond_Zopp s (Zpos m) in
      Some (if 0 <=? e then v * 2 ^ e ?= z else v ?= z * 2 ^ (- e))
  end.

Definition compare (a b : num) : option comparison :=
  match a, b with
  | Int x, Int y => Some (x ?= y)
  | Float f, Int y => float_compare_int f y
  | Int x, Float g => option_map CompOpp (float_compare_int g x)
  | Float f, Float g => SFcompare f g
  end.

(** [a < b] *)
Definition lt (a b : num) : bool :=
  match compare a b with
  | Some Lt => true
  | _ => false
  end.

(** [a * b] *)
Definition mul (a b : num) : result num :=
  match a, b with
  | Int x, Int y => Ok (Int (x * y))
  | _, _ =>
      rbind (to_float a) (fun x =>
      rbind (to_float b) (fun y => Ok (Float (fmul x y))))
  end.

(** [a + b] *)
Definition add (a b : num) : result num :=
  match a, b with
  | Int x, Int y => Ok (Int (x + y))
  | _, _ =>
      rbind (to_float a) (fun x =>
      rbind (to_float b) (fun y => Ok (Float (fadd x y))))
  end.

(** [a / b]: true division; a zero divisor raises. *)
Definition truediv (a b : num) : result float :=
  match a, b with
  | Int x, Int y => int_truediv x y
  | _, _ =>
      rbind (to_float a) (fun x =>
      rbind (to_float b) (fun y =>
      if is_zero y then Raise ZeroDivisionError else Ok (fdiv x y)))
  end.

(** [int(a)] *)
Definition int (a : num) : result Z :=
  match a with
  | Int z => Ok z
  | Float f => int_of_float f
  end.

(** [sum(values)]: starts from the int 0 and adds from the left, one
    rounded addition after the other. *)
Fixpoint sum_from (acc : num) (values : list num) : result num :=
  match values with
  | [] => Ok acc
  | v :: rest => rbind (add acc v) (fun acc' => sum_from acc' rest)
  end.
Definition sum (values : list num) : result num := sum_from (Int 0) values.

(** *** Strings *)

(** [sub in s] on two strings: substring containment. *)
Fixpoint str_in (sub s : string) : bool :=
  String.prefix sub s
  || match s with
     | EmptyString => false
     | String _ s' => str_in sub s'
     end.

(** [x in l] on a list of strings. *)
Definition list_in (x : string) (l : list string) : bool :=
  existsb (String.eqb x) l.

(** *** Dictionaries keep their keys in insertion order. *)

Definition dict (V : Type) : Type := list (string * V).

Fixpoint get {V} (d : dict V) (k : string) : option V :=
  match d with
  | [] => None
  | (k', v) :: rest => if String.eqb k k' then Some v else get rest k
  end.

(** [d[k] = v]: an existing key keeps its place, a new one goes last. *)
Fixpoint set {V} (d : dict V) (k : string) (v : V) : dict V :=
  match d with
  | [] => [(k, v)]
  | (k', v') :: rest =>
      if String.eqb k k' then (k', v) :: rest else (k', v') :: set rest k v
  end.

Definition keys {V} (d : dict V) : list string := map fst d.
Definition values {V} (d : dict V) : list V := map snd d.

(** [d.update(other)] *)
Definition update {V} (d other : dict V) : dict V :=
  fold_left (fun acc kv => set acc (fst kv) (snd kv)) other d.

(** [d[k]] on a [defaultdict]: a missing key is first inserted with the
    default; the dictionary after the read is returned with the value. *)
Definition default_get {V} (default : V) (d : dict V) (k : string)
  : V * dict V :=
  match get d k with
  | Some v => (v, d)
  | None => (default, set d k default)
  end.

End Py.

(** ** The data the trainer works on *)

(** *** The configuration: [default_config] merged with the caller's
    options.  Only the keys the trainer reads are kept; the keyword
    dictionaries that are handed on to torch unread are [kwargs]. *)

Definition kwargs : Type := Py.dict Py.num.

Module optimizer_config.
Record t : Type := {
  optimizer : string;
  lr : Py.num;
  l2 : Py.num;
  grad_clip : option Py.num;
  sgd_config : kwargs;
  adam_config : kwargs;
  adamax_config : kwargs;
}.
End optimizer_config.

Module lr_scheduler_config.
Record t : Type := {
  lr_scheduler : string;
  warmup_steps : option Py.num;
  warmup_unit : string;
  warmup_percentage : option Py.num;
  min_lr : option Py.num;
  exponential_config : option kwargs;   (* read with .get(..., {}) *)
  step_config : option kwargs;
}.
End lr_scheduler_config.

Module config.
Record t : Type := {
  n_epochs : Z;
  train_split : string;
  valid_split : string;
  test_split : string;
  progress_bar : bool;
  logging : bool;
  writer : string;                      (* log_writer_config["writer"] *)
  checkpointing : bool;
  checkpoint_dir : option string;       (* checkpointer_config["checkpoint_dir"] *)
  optimizer_config : optimizer_config.t;
  lr_scheduler_config : lr_scheduler_config.t;
  batch_scheduler : string;
}.

Definition set_checkpoint_dir (c : t) (dir : option string) : t :=
  {| n_epochs := n_epochs c; train_split := train_split c;
     valid_split := valid_split c; test_split := test_split c;
     progress_bar := progress_bar c; logging := logging c;
     writer := writer c; checkpointing := checkpointing c;
     checkpoint_dir := dir;
     optimizer_config := optimizer_config c;
     lr_scheduler_config := lr_scheduler_config c;
     batch_scheduler := batch_scheduler c |}.
End config.

(** *** Loaders and batches.  Tensors are opaque to the trainer: of a label
    tensor it only takes the length. *)

Record Dataset : Type := {
  name : string;
  split : string;
}.

Record DictDataLoader : Type := {
  dataset : Dataset;
  len : nat;                              (* len(dataloader) *)
}.

Record Batch : Type := {
  X_dict : Py.dict Z;                     (* field name -> tensor handle *)
  Y_dict : Py.dict nat;                   (* task name -> len(labels) *)
}.

Definition Metrics : Type := Py.dict Py.num.

(** *** Learning-rate schedulers.  The two lambdas handed to [LambdaLR] are
    closures over [self]; they are kept as data and applied to the trainer
    they read [warmup_steps] from ([call_lr_lambda] below). *)

Inductive lr_lambda : Type :=
| linear_warmup_func
| linear_decay_func (total_steps : Z).

Inductive Scheduler : Type :=
| LambdaLR (f : lr_lambda)
| ExponentialLR (kw : kwargs)
| StepLR (kw : kwargs).

(** *** The calls the trainer makes on its collaborators, in order. *)

Inductive Event : Type :=
| new_LogWriter (writer : string)
| new_Checkpointer (checkpoint_dir : option string)
| new_LogManager (n_batches_per_epoch : Z)
| new_Optimizer (opt : string) (lr l2 : Py.num) (kw : kwargs)
| new_Scheduler (s : Scheduler)
| new_BatchScheduler (name : string)
| model_train
| model_eval
| get_batches (loaders : list DictDataLoader)
| scheduler_step (s : Scheduler)
| zero_grad
| model_calculate_loss (batch : Batch)
| loss_backward (losses : list Py.float)
| clip_grad_norm_ (max_norm : Py.num)
| optimizer_step
| log_manager_update (batch_size : Z)
| log_manager_trigger_evaluation
| log_manager_trigger_checkpointing
| model_score (loaders : list DictDataLoader)
| log_writer_add_scalar (metric_name : string) (metric_value : Py.num) (step : Z)
| checkpointer_checkpoint (unit_total : Z) (metric_dict : Metrics)
| log_manager_close.

(** *** The trainer object.  Besides the attributes of [self] the record
    carries [calls], the collaborator calls made so far.  An attribute that
    Python has not assigned yet holds a placeholder; [train_model] assigns
    each one before it is first read. *)

Record LogWriter : Type := {
  log_writer_kind : string;
  log_dir : string;
}.

Record Checkpointer : Type := {
  checkpointer_dir : option string;
}.

Record Optimizer : Type := {
  rule : string;
  param_group_lr : Py.num;                (* param_groups[0]["lr"] *)
}.

Record Trainer : Type := {
  config : config.t;
  trainer_name : string;
  n_batches_per_epoch : Z;
  log_writer : option LogWriter;
  checkpointer : option Checkpointer;
  optimizer : Optimizer;
  warmup_scheduler : option Scheduler;
  warmup_steps : Z;
  lr_scheduler : option Scheduler;
  batch_scheduler : string;
  metrics : Metrics;
  running_losses : Py.dict Py.float;
  running_counts : Py.dict Z;
  calls : list Event;
}.

(** [Trainer.__init__]; [cfg] is the merged configuration. *)
Definition Trainer_init (trainer_name : option string) (cfg : config.t) : Trainer :=
  {| config := cfg;
     trainer_name := match trainer_name with Some n => n | None => "Trainer" end;
     n_batches_per_epoch := 0;
     log_writer := None;
     checkpointer := None;
     optimizer := {| rule := ""; param_group_lr := Py.Int 0 |};
     warmup_scheduler := None;
     warmup_steps := 0;
     lr_scheduler := None;
     batch_scheduler := "";
     metrics := [];
     running_losses := [];
     running_counts := [];
     calls := [] |}.

(** Attribute assignment. *)
Section Assign.
Variable self : Trainer.

Definition with_config (v : config.t) : Trainer :=
  {| config := v; trainer_name := trainer_name self;
     n_batches_per_epoch := n_batches_per_epoch self;
     log_writer := log_writer self; checkpointer := checkpointer self;
     optimizer := optimizer self; warmup_scheduler := warmup_scheduler self;
     warmup_steps := warmup_steps self; lr_scheduler := lr_scheduler self;
     batch_scheduler := batch_scheduler self; metrics := metrics self;
     running_losses := running_losses self;
     running_counts := running_counts self; calls := calls self |}.

Definition with_n_batches_per_epoch (v : Z) : Trainer :=
  {| config := config self; trainer_name := trainer_name self;
     n_batches_per_epoch := v;
     log_writer := log_writer self; checkpointer := checkpointer self;
     optimizer := optimizer self; warmup_scheduler := warmup_scheduler self;
     warmup_steps := warmup_steps self; lr_scheduler := lr_scheduler self;
     batch_scheduler := batch_scheduler self; metrics := metrics self;
     running_losses := running_losses self;
     running_counts := running_counts self; calls := calls self |}.

Definition with_log_writer (v : option LogWriter) : Trainer :=
  {| config := config self; trainer_name := trainer_name self;
     n_batches_per_epoch := n_batches_per_epoch self;
     log_writer := v; checkpointer := checkpointer self;
     optimizer := optimizer self; warmup_scheduler := warmup_scheduler self;
     warmup_steps := warmup_steps self; lr_scheduler := lr_scheduler self;
     batch_scheduler := batch_scheduler self; metrics := metrics self;
     running_losses := running_losses self;
     running_counts := running_counts self; calls := calls self |}.

Definition with_checkpointer (v : option Checkpointer) : Trainer :=
  {| config := config self; trainer_name := trainer_name self;
     n_batches_per_epoch := n_batches_per_epoch self;
     log_writer := log_writer self; checkpointer := v;
     optimizer := optimizer self; warmup_scheduler := warmup_scheduler self;
     warmup_steps := warmup_steps self; lr_scheduler := lr_scheduler self;
     batch_scheduler := batch_scheduler self; metrics := metrics self;
     running_losses := running_losses self;
     running_counts := running_counts self; calls := calls self |}.

Definition with_optimizer (v : Optimizer) : Trainer :=
  {| config := config self; trainer_name := trainer_name self;
     n_batches_per_epoch := n_batches_per_epoch self;
     log_writer := log_writer self; checkpointer := checkpointer self;
     optimizer := v; warmup_scheduler := warmup_scheduler self;
     warmup_steps := warmup_steps self; lr_scheduler := lr_scheduler self;
     batch_scheduler := batch_scheduler self; metrics := metrics self;
     running_losses := running_losses self;
     running_counts := running_counts self; calls := calls self |}.

Definition with_warmup_scheduler (v : option Scheduler) : Trainer :=
  {| config := config self; trainer_name := trainer_name self;
     n_batches_per_epoch := n_batches_per_epoch self;
     log_writer := log_writer self; checkpointer := checkpointer self;
     optimizer := optimizer self; warmup_scheduler := v;
     warmup_steps := warmup_steps self; lr_scheduler := lr_scheduler self;
     batch_scheduler := batch_scheduler self; metrics := metrics self;
     running_losses := running_losses self;
     running_counts := running_counts self; calls := calls self |}.

Definition with_warmup_steps (v : Z) : Trainer :=
  {| config := config self; trainer_name := trainer_name self;
     n_batches_per_epoch := n_batches_per_epoch self;
     log_writer := log_writer self; checkpointer := checkpointer self;
     optimizer := optimizer self; warmup_scheduler := warmup_scheduler self;
     warmup_steps := v; lr_scheduler := lr_scheduler self;
     batch_scheduler := batch_scheduler self; metrics := metrics self;
     running_losses := running_losses self;
     running_counts := running_counts self; calls := calls self |}.

Definition with_lr_scheduler (v : option Scheduler) : Trainer :=
  {| config := config self; trainer_name := trainer_name self;
     n_batches_per_epoch := n_batches_per_epoch self;
     log_writer := log_writer self; checkpointer := checkpointer self;
     optimizer := optimizer self; warmup_scheduler := warmup_scheduler self;
     warmup_steps := warmup_steps self; lr_scheduler := v;
     batch_scheduler := batch_scheduler self; metrics := metrics self;
     running_losses := running_losses self;
     running_counts := running_counts self; calls := calls self |}.

Definition with_batch_scheduler (v : string) : Trainer :=
  {| config := config self; trainer_name := trainer_name self;
     n_batches_per_epoch := n_batches_per_epoch self;
     log_writer := log_writer self; checkpointer := checkpointer self;
     optimizer := optimizer self; warmup_scheduler := warmup_scheduler self;
     warmup_steps := warmup_steps self; lr_scheduler := lr_scheduler self;
     batch_scheduler := v; metrics := metrics self;
     running_losses := running_losses self;
     running_counts := running_counts self; calls := calls self |}.

Definition with_metrics (v : Metrics) : Trainer :=
  {| config := config self; trainer_name := trainer_name self;
     n_batches_per_epoch := n_batches_per_epoch self;
     log_writer := log_writer self; checkpointer := checkpointer self;
     optimizer := optimizer self; warmup_scheduler := warmup_scheduler self;
     warmup_steps := warmup_steps self; lr_scheduler := lr_scheduler self;
     batch_scheduler := batch_scheduler self; metrics := v;
     running_losses := running_losses self;
     running_counts := running_counts self; calls := calls self |}.

Definition with_running_losses (v : Py.dict Py.float) : Trainer :=
  {| config := config self; trainer_name := trainer_name self;
     n_batches_per_epoch := n_batches_per_epoch self;
     log_writer := log_writer self; checkpointer := checkpointer self;
     optimizer := optimizer self; warmup_scheduler := warmup_scheduler self;
     warmup_steps := warmup_steps self; lr_scheduler := lr_scheduler self;
     batch_scheduler := batch_scheduler self; metrics := metrics self;
     running_losses := v;
     running_counts := running_counts self; calls := calls self |}.

Definition with_running_counts (v : Py.dict Z) : Trainer :=
  {| config := config self; trainer_name := trainer_name self;
     n_batches_per_epoch := n_batches_per_epoch self;
     log_writer := log_writer self; checkpointer := checkpointer self;
     optimizer := optimizer self; warmup_scheduler := warmup_scheduler self;
     warmup_steps := warmup_steps self; lr_scheduler := lr_scheduler self;
     batch_scheduler := batch_scheduler self; metrics := metrics self;
     running_losses := running_losses self;
     running_counts := v; calls := calls self |}.

Definition with_calls (v : list Event) : Trainer :=
  {| config := config self; trainer_name := trainer_name self;
     n_batches_per_epoch := n_batches_per_epoch self;
     log_writer := log_writer self; checkpointer := checkpointer self;
     optimizer := optimizer self; warmup_scheduler := warmup_scheduler self;
     warmup_steps := warmup_steps self; lr_scheduler := lr_scheduler self;
     batch_scheduler := batch_scheduler self; metrics := metrics self;
     running_losses := running_losses self;
     running_counts := running_counts self; calls := v |}.
End Assign.

(** ** Methods run in a monad of state and exceptions: a method reads and
    assigns the attributes of [self]; an exception leaves [self] as it was
    when raised. *)

Definition M (A : Type) : Type := Trainer -> Py.result A * Trainer.

Definition ret {A} (a : A) : M A := fun self => (Py.Ok a, self).

Definition bind {A B} (m : M A) (k : A -> M B) : M B :=
  fun self =>
    match m self with
    | (Py.Ok a, self') => k a self'
    | (Py.Raise e, self') => (Py.Raise e, self')
    end.

Definition raise {A} (e : Py.exn) : M A := fun self => (Py.Raise e, self).

Definition lift {A} (r : Py.result A) : M A := fun self => (r, self).

Definition get_self : M Trainer := fun self => (Py.Ok self, self).

Definition assign (f : Trainer -> Trainer) : M unit :=
  fun self => (Py.Ok tt, f self).

Declare Scope trainer_scope.
Delimit Scope trainer_scope with trainer.
Notation "x <- m ;; k" := (bind m (fun x => k))
  (at level 61, m at next level, right associativity) : trainer_scope.
Notation "' p <- m ;; k" := (bind m (fun x => match x with p => k end))
  (at level 61, p pattern, m at next level, right associativity) : trainer_scope.
Notation "m ;; k" := (bind m (fun _ => k))
  (at level 61, right associativity) : trainer_scope.
Local Open Scope trainer_scope.

(** A [for] loop over a list whose body returns nothing. *)
Fixpoint for_each {A} (body : A -> M unit) (items : list A) : M unit :=
  match items with
  | [] => ret tt
  | x :: rest => body x ;; for_each body rest
  end.

(** [enumerate(items)] *)
Fixpoint enumerate_from {A} (i : Z) (items : list A) : list (Z * A) :=
  match items with
  | [] => []
  | x :: rest => (i, x) :: enumerate_from (i + 1) rest
  end.
Definition enumerate {A} (items : list A) : list (Z * A) := enumerate_from 0 items.

(** [range(n)] *)
Definition range (n : Z) : list Z := map Z.of_nat (seq 0 (Z.to_nat n)).

(** [sum] of a list of ints. *)
Definition int_sum (l : list Z) : Z := fold_left Z.add l 0.

(** Applying one of the two schedule lambdas: both read [self.warmup_steps]
    when they are called. *)
Definition call_lr_lambda (self : Trainer) (f : lr_lambda) (x : Z)
  : Py.result Py.float :=
  match f with
  | linear_warmup_func =>
      Py.truediv (Py.Int x) (Py.Int (warmup_steps self))
  | linear_decay_func total_steps =>
      Py.truediv (Py.Int (total_steps - warmup_steps self - x))
                 (Py.Int (total_steps - warmup_steps self))
  end.

(** ** Collaborators (torch, the model, the log manager, the batch
    scheduler, the writers).  The model is opaque: the trainer only passes
    it on.  What a call returns may depend on anything that happened
    before, so every answer is a function of the trainer, whose [calls]
    hold the history.  [raises] tells whether a call raises instead of
    returning. *)
Record Collaborators (SnorkelClassifier : Type) : Type := {
  raises : Event -> Trainer -> option Py.exn;
  LogWriter_log_dir : Trainer -> string;
  scheduled_lr : Scheduler -> Trainer -> Py.num;
      (* the rate a scheduler writes into param_groups[0] when it is built
         and at each step *)
  batch_schedulers : list string;
      (* the names in the table [batch_schedulers] *)
  scheduler_get_batches :
    list DictDataLoader -> Trainer -> list (Batch * DictDataLoader);
  calculate_loss : Batch -> Trainer -> Py.dict Py.float * Py.dict Z;
      (* loss_dict with each loss as its .item(), and count_dict *)
  score : list DictDataLoader -> Trainer -> Metrics;
  trigger_evaluation : Trainer -> bool;
  trigger_checkpointing : Trainer -> bool;
  point_total : Trainer -> Z;
  unit_total : Trainer -> Z;
  close : SnorkelClassifier -> Trainer -> SnorkelClassifier;
}.
Arguments raises {SnorkelClassifier} _ _ _.
Arguments LogWriter_log_dir {SnorkelClassifier} _ _.
Arguments scheduled_lr {SnorkelClassifier} _ _ _.
Arguments batch_schedulers {SnorkelClassifier} _.
Arguments scheduler_get_batches {SnorkelClassifier} _ _ _.
Arguments calculate_loss {SnorkelClassifier} _ _ _.
Arguments score {SnorkelClassifier} _ _ _.
Arguments trigger_evaluation {SnorkelClassifier} _ _.
Arguments trigger_checkpointing {SnorkelClassifier} _ _.
Arguments point_total {SnorkelClassifier} _ _.
Arguments unit_total {SnorkelClassifier} _ _.
Arguments close {SnorkelClassifier} _ _ _.

Section Methods.

Context {SnorkelClassifier : Type} (env : Collaborators SnorkelClassifier).

(** A call on a collaborator: it is recorded, then raises or answers. *)
Definition call {A} (ev : Event) (answer : Trainer -> A) : M A :=
  fun self =>
    let self' := with_calls self (calls self ++ [ev]) in
    match raises env ev self with
    | Some e => (Py.Raise e, self')
    | None => (Py.Ok (answer self), self')
    end.

Definition call_ (ev : Event) : M unit := call ev (fun _ => tt).

(** *** _check_dataloaders *)
Definition _check_dataloaders (dataloaders : list DictDataLoader) : M unit :=
  self <- get_self ;;
  let train_split := config.train_split (config self) in
  let valid_split := config.valid_split (config self) in
  let test_split := config.test_split (config self) in
  let all_splits := [train_split; valid_split; test_split] in
  if negb (forallb (fun d => Py.list_in (split (dataset d)) all_splits)
             dataloaders)
  then raise (Py.ValueError (Py.splits_must_be_one_of all_splits))
  else
    if negb (existsb (fun d => String.eqb (split (dataset d)) train_split)
               dataloaders)
    then raise (Py.ValueError
                  (Py.no_train_split (config.train_split (config self))))
    else ret tt.

(** *** _set_log_writer *)
Definition _set_log_writer : M unit :=
  self <- get_self ;;
  if config.logging (config self) then
    let w := config.writer (config self) in
    if String.eqb w "json" then
      dir <- call (new_LogWriter w) (LogWriter_log_dir env) ;;
      assign (fun s => with_log_writer s
                (Some {| log_writer_kind := w; log_dir := dir |}))
    else if String.eqb w "tensorboard" then
      dir <- call (new_LogWriter w) (LogWriter_log_dir env) ;;
      assign (fun s => with_log_writer s
                (Some {| log_writer_kind := w; log_dir := dir |}))
    else raise (Py.ValueError (Py.unrecognized_writer w))
  else assign (fun s => with_log_writer s None).

(** *** _set_checkpointer *)
Definition _set_checkpointer : M unit :=
  self <- get_self ;;
  if config.checkpointing (config self) then
    (match config.checkpoint_dir (config self), log_writer self with
     | None, Some lw =>
         assign (fun s => with_config s
                   (config.set_checkpoint_dir (config s) (Some (log_dir lw))))
     | _, _ => ret tt
     end) ;;
    self <- get_self ;;
    let dir := config.checkpoint_dir (config self) in
    call_ (new_Checkpointer dir) ;;
    assign (fun s => with_checkpointer s (Some {| checkpointer_dir := dir |}))
  else assign (fun s => with_checkpointer s None).

(** *** _set_log_manager.  The log manager keeps no data the trainer
    reads back except through calls, so [self.log_manager] has no field. *)
Definition _set_log_manager : M unit :=
  self <- get_self ;;
  call_ (new_LogManager (n_batches_per_epoch self)).

(** *** _set_optimizer *)
Definition _set_optimizer (model : SnorkelClassifier) : M unit :=
  self <- get_self ;;
  let oc := config.optimizer_config (config self) in
  let opt := optimizer_config.optimizer oc in
  let build (kw : kwargs) : M unit :=
    call_ (new_Optimizer opt (optimizer_config.lr oc) (optimizer_config.l2 oc) kw) ;;
    assign (fun s => with_optimizer s
              {| rule := opt; param_group_lr := optimizer_config.lr oc |}) in
  if String.eqb opt "sgd" then build (optimizer_config.sgd_config oc)
  else if String.eqb opt "adam" then build (optimizer_config.adam_config oc)
  else if String.eqb opt "adamax" then build (optimizer_config.adamax_config oc)
  else raise (Py.ValueError (Py.unrecognized_optimizer opt)).

(** Building a torch scheduler on [self.optimizer], and stepping it: both
    may rewrite the optimizer's rate. *)
Definition set_lr (v : Py.num) : M unit :=
  assign (fun s => with_optimizer s
            {| rule := rule (optimizer s); param_group_lr := v |}).

Definition build_scheduler (s : Scheduler) : M Scheduler :=
  v <- call (new_Scheduler s) (scheduled_lr env s) ;;
  set_lr v ;;
  ret s.

Definition step_scheduler (s : Scheduler) : M unit :=
  v <- call (scheduler_step s) (scheduled_lr env s) ;;
  set_lr v.

(** *** _set_warmup_scheduler.  [Py.if_truthy] is the test of an
    [if]/[elif] on a configuration value: it yields the value when the
    branch is taken. *)
Definition _set_warmup_scheduler : M unit :=
  self <- get_self ;;
  let lc := config.lr_scheduler_config (config self) in
  let build_warmup (steps : Z) : M unit :=
    assign (fun s => with_warmup_steps s steps) ;;
    warmup_scheduler <- build_scheduler (LambdaLR linear_warmup_func) ;;
    assign (fun s => with_warmup_scheduler s (Some warmup_scheduler)) in
  match Py.if_truthy (lr_scheduler_config.warmup_steps lc) with
  | Some warmup_steps =>
      if Py.lt warmup_steps (Py.Int 0) then
        raise (Py.ValueError Py.warmup_steps_negative)
      else
        let warmup_unit := lr_scheduler_config.warmup_unit lc in
        if String.eqb warmup_unit "epochs" then
          v <- lift (Py.mul warmup_steps (Py.Int (n_batches_per_epoch self))) ;;
          steps <- lift (Py.int v) ;;
          build_warmup steps
        else if String.eqb warmup_unit "batches" then
          steps <- lift (Py.int warmup_steps) ;;
          build_warmup steps
        else raise (Py.ValueError (Py.bad_warmup_unit warmup_unit))
  | None =>
      match Py.if_truthy (lr_scheduler_config.warmup_percentage lc) with
      | Some warmup_percentage =>
          v <- lift (Py.mul warmup_percentage
                       (Py.Int (config.n_epochs (config self)))) ;;
          v <- lift (Py.mul v (Py.Int (n_batches_per_epoch self))) ;;
          steps <- lift (Py.int v) ;;
          build_warmup steps
      | None =>
          assign (fun s => with_warmup_steps s 0) ;;
          assign (fun s => with_warmup_scheduler s None)
      end
  end.

(** *** _set_lr_scheduler *)
Definition _set_lr_scheduler : M unit :=
  _set_warmup_scheduler ;;
  self <- get_self ;;
  let lr_scheduler_config := config.lr_scheduler_config (config self) in
  let opt := lr_scheduler_config.lr_scheduler lr_scheduler_config in
  lr_scheduler <-
    (if String.eqb opt "constant" then ret None
     else if String.eqb opt "linear" then
       let total_steps :=
         n_batches_per_epoch self * config.n_epochs (config self) in
       s <- build_scheduler (LambdaLR (linear_decay_func total_steps)) ;;
       ret (Some s)
     else if String.eqb opt "exponential" then
       s <- build_scheduler
              (ExponentialLR
                 (match lr_scheduler_config.exponential_config
                          lr_scheduler_config with
                  | Some kw => kw
                  | None => []
                  end)) ;;
       ret (Some s)
     else if String.eqb opt "step" then
       s <- build_scheduler
              (StepLR
                 (match lr_scheduler_config.step_config lr_scheduler_config with
                  | Some kw => kw
                  | None => []
                  end)) ;;
       ret (Some s)
     else raise (Py.ValueError (Py.unrecognized_lr_scheduler opt))) ;;
  assign (fun s => with_lr_scheduler s lr_scheduler).

(** *** _update_lr_scheduler.  A scheduler object is always true, so
    [self.warmup_scheduler and ...] only tests that it is not [None]. *)
Definition _update_lr_scheduler (step : Z) : M unit :=
  self <- get_self ;;
  let decay : M unit :=
    match lr_scheduler self with
    | Some lr_scheduler =>
        step_scheduler lr_scheduler ;;
        self <- get_self ;;
        match Py.if_truthy
                (lr_scheduler_config.min_lr
                   (config.lr_scheduler_config (config self))) with
        | Some min_lr =>
            if Py.lt (param_group_lr (optimizer self)) min_lr
            then set_lr min_lr
            else ret tt
        | None => ret tt
        end
    | None => ret tt
    end in
  match warmup_scheduler self with
  | Some warmup_scheduler =>
      if step <? warmup_steps self
      then step_scheduler warmup_scheduler
      else decay
  | None => decay
  end.

(** *** _set_batch_scheduler *)
Definition _set_batch_scheduler : M unit :=
  self <- get_self ;;
  let name := config.batch_scheduler (config self) in
  if Py.list_in name (batch_schedulers env) then
    call_ (new_BatchScheduler name) ;;
    assign (fun s => with_batch_scheduler s name)
  else raise (Py.ValueError Py.unrecognized_batch_scheduler).

(** *** _evaluate *)
Definition evaluated_loaders (dataloaders : list DictDataLoader)
  (split_ : string) : list DictDataLoader :=
  filter (fun d => Py.str_in (split (dataset d)) split_) dataloaders.

Definition _evaluate (model : SnorkelClassifier)
  (dataloaders : list DictDataLoader) (split_ : string) : M Metrics :=
  let loaders := evaluated_loaders dataloaders split_ in
  call (model_score loaders) (score env loaders).

(** *** _reset_losses *)
Definition _reset_losses : M unit :=
  assign (fun s => with_running_losses s []) ;;
  assign (fun s => with_running_counts s []).

(** Reading the two [defaultdict]s: a missing key is inserted. *)
Definition read_running_losses (key : string) : M Py.float :=
  self <- get_self ;;
  let (v, d) := Py.default_get (S754_zero false) (running_losses self) key in
  assign (fun s => with_running_losses s d) ;;
  ret v.

Definition read_running_counts (key : string) : M Z :=
  self <- get_self ;;
  let (v, d) := Py.default_get 0 (running_counts self) key in
  assign (fun s => with_running_counts s d) ;;
  ret v.

(** *** _aggregate_losses *)
Fixpoint aggregate_task_losses (identifiers : list string)
  (metric_dict : Metrics) : M Metrics :=
  match identifiers with
  | [] => ret metric_dict
  | identifier :: rest =>
      count <- read_running_counts identifier ;;
      if count >? 0 then
        loss <- read_running_losses identifier ;;
        count <- read_running_counts identifier ;;
        v <- lift (Py.truediv (Py.Float loss) (Py.Int count)) ;;
        aggregate_task_losses rest (Py.set metric_dict identifier (Py.Float v))
      else aggregate_task_losses rest metric_dict
  end.

Definition _aggregate_losses : M Metrics :=
  self <- get_self ;;
  metric_dict <- aggregate_task_losses (Py.keys (running_losses self)) [] ;;
  self <- get_self ;;
  total_loss <- lift (Py.sum (map Py.Float (Py.values (running_losses self)))) ;;
  let total_count := int_sum (Py.values (running_counts self)) in
  metric_dict <-
    (if total_count >? 0 then
       v <- lift (Py.truediv total_loss (Py.Int total_count)) ;;
       ret (Py.set metric_dict "model/all/train/loss" (Py.Float v))
     else ret metric_dict) ;;
  ret (Py.set metric_dict "model/all/train/lr"
         (param_group_lr (optimizer self))).

(** *** _log_metrics *)
Definition _log_metrics (metric_dict : Metrics) : M unit :=
  self <- get_self ;;
  match log_writer self with
  | Some _ =>
      for_each
        (fun kv =>
           s <- get_self ;;
           call_ (log_writer_add_scalar (fst kv) (snd kv) (point_total env s)))
        metric_dict
  | None => ret tt
  end.

(** *** _checkpoint_model *)
Definition _checkpoint_model (model : SnorkelClassifier)
  (metric_dict : Metrics) : M unit :=
  self <- get_self ;;
  match checkpointer self with
  | Some _ => call_ (checkpointer_checkpoint (unit_total env self) metric_dict)
  | None => ret tt
  end.

(** *** _logging *)
Definition _logging (model : SnorkelClassifier)
  (dataloaders : list DictDataLoader) (batch_size : Z) : M Metrics :=
  call_ model_eval ;;
  call_ (log_manager_update batch_size) ;;
  losses <- _aggregate_losses ;;
  let metric_dict := Py.update [] losses in
  fire <- call log_manager_trigger_evaluation (trigger_evaluation env) ;;
  metric_dict <-
    (if fire : bool then
       self <- get_self ;;
       scores <- _evaluate model dataloaders (config.valid_split (config self)) ;;
       let metric_dict := Py.update metric_dict scores in
       _log_metrics metric_dict ;;
       _reset_losses ;;
       ret metric_dict
     else ret metric_dict) ;;
  fire <- call log_manager_trigger_checkpointing (trigger_checkpointing env) ;;
  (if fire : bool then
     _checkpoint_model model metric_dict ;;
     _reset_losses
   else ret tt) ;;
  call_ model_train ;;
  ret metric_dict.

(** *** train_model *)

(** Lines 98-111: the running loss and count of every task of the batch. *)
Fixpoint update_running (dataloader : DictDataLoader)
  (loss_dict : Py.dict Py.float) (count_dict : Py.dict Z)
  (task_names : list string) : M unit :=
  match task_names with
  | [] => ret tt
  | task_name :: rest =>
      let identifier :=
        String.concat "/"
          [task_name; name (dataset dataloader); split (dataset dataloader);
           "loss"] in
      running_loss <- read_running_losses identifier ;;
      loss <- lift (match Py.get loss_dict task_name with
                    | Some l => Py.Ok l
                    | None => Py.Raise (Py.KeyError task_name)
                    end) ;;
      count <- lift (match Py.get count_dict task_name with
                     | Some c => Py.Ok c
                     | None => Py.Raise (Py.KeyError task_name)
                     end) ;;
      count_f <- lift (Py.float_of_int count) ;;
      assign (fun s => with_running_losses s
                (Py.set (running_losses s) identifier
                   (Py.fadd running_loss (Py.fmul loss count_f)))) ;;
      running_count <- read_running_counts task_name ;;
      count <- lift (match Py.get count_dict task_name with
                     | Some c => Py.Ok c
                     | None => Py.Raise (Py.KeyError task_name)
                     end) ;;
      assign (fun s => with_running_counts s
                (Py.set (running_counts s) task_name (running_count + count))) ;;
      update_running dataloader loss_dict count_dict rest
  end.

(** The body of the inner loop, lines 84-135. *)
Definition train_batch (model : SnorkelClassifier)
  (dataloaders : list DictDataLoader) (epoch_num : Z)
  (item : Z * (Batch * DictDataLoader)) : M unit :=
  let '(batch_num, (batch, dataloader)) := item in
  self <- get_self ;;
  let total_batch_num := epoch_num * n_batches_per_epoch self + batch_num in
  batch_size <- lift (match Py.values (Y_dict batch) with
                      | y :: _ => Py.Ok (Z.of_nat y)
                      | [] => Py.Raise Py.StopIteration
                      end) ;;
  _update_lr_scheduler total_batch_num ;;
  call_ zero_grad ;;
  ' (loss_dict, count_dict) <-
    call (model_calculate_loss batch) (calculate_loss env batch) ;;
  update_running dataloader loss_dict count_dict (Py.keys loss_dict) ;;
  match loss_dict with
  | [] => ret tt                                     (* continue *)
  | _ :: _ =>
      call_ (loss_backward (Py.values loss_dict)) ;;
      self <- get_self ;;
      (match Py.if_truthy
               (optimizer_config.grad_clip
                  (config.optimizer_config (config self))) with
       | Some grad_clip => call_ (clip_grad_norm_ grad_clip)
       | None => ret tt
       end) ;;
      call_ optimizer_step ;;
      metric_dict <- _logging model dataloaders batch_size ;;
      assign (fun s => with_metrics s (Py.update (metrics s) metric_dict))
  end.

Definition train_dataloaders_of (self : Trainer)
  (dataloaders : list DictDataLoader) : list DictDataLoader :=
  filter (fun dl => String.eqb (split (dataset dl))
                      (config.train_split (config self)))
    dataloaders.

(** A Python function without [return] yields [None]: the result is an
    [Optional] model.  The progress bar (tqdm, with [set_postfix]) and
    [logging.info] only display; they are left out. *)
Definition train_model (model : SnorkelClassifier)
  (dataloaders : list DictDataLoader) : M (option SnorkelClassifier) :=
  _check_dataloaders dataloaders ;;
  self <- get_self ;;
  let train_dataloaders := train_dataloaders_of self dataloaders in
  assign (fun s => with_n_batches_per_epoch s
            (int_sum (map (fun dataloader => Z.of_nat (len dataloader))
                        train_dataloaders))) ;;
  _set_log_writer ;;
  _set_checkpointer ;;
  _set_log_manager ;;
  _set_optimizer model ;;
  _set_lr_scheduler ;;
  _set_batch_scheduler ;;
  call_ model_train ;;
  assign (fun s => with_metrics s []) ;;
  _reset_losses ;;
  for_each
    (fun epoch_num =>
       batches <- call (get_batches train_dataloaders)
                    (scheduler_get_batches env train_dataloaders) ;;
       for_each (train_batch model dataloaders epoch_num) (enumerate batches))
    (range (config.n_epochs (config self))) ;;
  model <- call log_manager_close (close env model) ;;
  ret None.

End Methods.

(** ** A small concrete setting, to run the methods on. *)

Module Sample.

(** The float nearest to [a / b]. *)
Definition ratio (a b : Z) : Py.float :=
  match Py.int_truediv a b with
  | Py.Ok f => f
  | Py.Raise _ => S754_nan
  end.

Definition optimizer_cfg : optimizer_config.t :=
  {| optimizer_config.optimizer := "adam";
     optimizer_config.lr := Py.Float (ratio 1 1000);
     optimizer_config.l2 := Py.Float (S754_zero false);
     optimizer_config.grad_clip := Some (Py.Float (ratio 1 1));
     optimizer_config.sgd_config := [("momentum", Py.Float (ratio 9 10))];
     optimizer_config.adam_config := [];
     optimizer_config.adamax_config := [] |}.

Definition schedule (lr_scheduler : string)
  (warmup_steps : option Py.num) (warmup_unit : string)
  (warmup_percentage min_lr : option Py.num) : lr_scheduler_config.t :=
  {| lr_scheduler_config.lr_scheduler := lr_scheduler;
     lr_scheduler_config.warmup_steps := warmup_steps;
     lr_scheduler_config.warmup_unit := warmup_unit;
     lr_scheduler_config.warmup_percentage := warmup_percentage;
     lr_scheduler_config.min_lr := min_lr;
     lr_scheduler_config.exponential_config := None;
     lr_scheduler_config.step_config := None |}.

Definition constant_schedule : lr_scheduler_config.t :=
  schedule "constant" None "batches" None (Some (Py.Float (S754_zero false))).

Definition cfg (lc : lr_scheduler_config.t) : config.t :=
  {| config.n_epochs := 1;
     config.train_split := "train";
     config.valid_split := "valid";
     config.test_split := "test";
     config.progress_bar := true;
     config.logging := false;
     config.writer := "tensorboard";
     config.checkpointing := false;
     config.checkpoint_dir := None;
     config.optimizer_config := optimizer_cfg;
     config.lr_scheduler_config := lc;
     config.batch_scheduler := "shuffled" |}.

Definition trainer (lc : lr_scheduler_config.t) : Trainer :=
  Trainer_init None (cfg lc).

Definition loader (name split : string) (len : nat) : DictDataLoader :=
  {| dataset := {| name := name; split := split |}; len := len |}.

Definition batch (tasks : list string) (size : nat) : Batch :=
  {| X_dict := [("data", 0)]; Y_dict := map (fun t => (t, size)) tasks |}.

(** Collaborators that raise only where torch does: [LambdaLR] calls its
    lambda at 0 when it is built, and what the lambda raises there the
    constructor raises.  A scheduler leaves the rate at [rate]; every
    loader yields [len] batches of four examples of task "t"; the model
    answers [loss]; nothing triggers evaluation or checkpointing; closing
    hands back another model. *)
Definition env (rate : Scheduler -> Trainer -> Py.num)
  (loss : Batch -> Py.dict Py.float * Py.dict Z) : Collaborators Z :=
  {| raises := fun ev self =>
       match ev with
       | new_Scheduler (LambdaLR f) =>
           match call_lr_lambda self f 0 with
           | Py.Raise e => Some e
           | Py.Ok _ => None
           end
       | _ => None
       end;
     LogWriter_log_dir := fun _ => "logs";
     scheduled_lr := rate;
     batch_schedulers := ["sequential"; "shuffled"];
     scheduler_get_batches := fun loaders _ =>
       flat_map (fun dl => repeat (batch ["t"] 4, dl) (len dl)) loaders;
     calculate_loss := fun b _ => loss b;
     score := fun _ _ => [];
     trigger_evaluation := fun _ => false;
     trigger_checkpointing := fun _ => false;
     point_total := fun self => Z.of_nat (List.length (calls self));
     unit_total := fun self => Z.of_nat (List.length (calls self));
     close := fun model _ => model + 1 |}.

Definition keep_rate (_ : Scheduler) (self : Trainer) : Py.num :=
  param_group_lr (optimizer self).

(** Every task of the batch has loss 2.0 over all its examples. *)
Definition loss_two (b : Batch) : Py.dict Py.float * Py.dict Z :=
  (map (fun ty => (fst ty, ratio 2 1)) (Y_dict b),
   map (fun ty => (fst ty, Z.of_nat (snd ty))) (Y_dict b)).

(** No task of the batch has labels. *)
Definition no_loss (_ : Batch) : Py.dict Py.float * Py.dict Z := ([], []).

End Sample.

(** ** Words for the properties *)

Local Open Scope list_scope.

(** What a method leaves related: [preserves R m] says that running [m],
    to a result or to an exception, takes every trainer to an [R]-related
    one. *)
Definition preserves (R : Trainer -> Trainer -> Prop) {A} (m : M A) : Prop :=
  forall s, R s (snd (m s)).

(** Relations to preserve: an attribute keeps its value; the calls grow by
    events of one kind; both at once. *)
Definition same_on {X} (f : Trainer -> X) (s s' : Trainer) : Prop := f s' = f s.

Definition grows (Q : Event -> Prop) (s s' : Trainer) : Prop :=
  exists evs, calls s' = calls s ++ evs /\ Forall Q evs.

Definition both (R1 R2 : Trainer -> Trainer -> Prop) (s s' : Trainer) : Prop :=
  R1 s s' /\ R2 s s'.

(** A method that raises, leaving a related trainer. *)
Definition fails_within {A} (R : Trainer -> Trainer -> Prop) (m : M A)
  (s : Trainer) : Prop :=
  exists e s', m s = (Py.Raise e, s') /\ R s s'.

(** The calls that build a collaborator. *)
Definition configuring (ev : Event) : Prop :=
  match ev with
  | new_LogWriter _ | new_Checkpointer _ | new_LogManager _
  | new_Optimizer _ _ _ _ | new_Scheduler _ | new_BatchScheduler _ => True
  | _ => False
  end.

(** While configuring, the schedule options stay as given and only
    collaborators are built. *)
Definition still_configuring : Trainer -> Trainer -> Prop :=
  both (same_on (fun s => config.lr_scheduler_config (config s)))
       (grows configuring).

(** The calls every batch starts with. *)
Definition batch_prologue (ev : Event) : Prop :=
  match ev with
  | scheduler_step _ | zero_grad | model_calculate_loss _ => True
  | _ => False
  end.

(** Only prologue calls are made; accumulators and metrics stay. *)
Definition nothing_learnt_or_logged : Trainer -> Trainer -> Prop :=
  both (grows batch_prologue)
    (both (same_on running_losses)
       (both (same_on running_counts) (same_on metrics))).


(** [int(warmup_steps * n_batches_per_epoch)] or [int(warmup_steps)], by
    [warmup_unit] *)
Definition explicit_steps (self : Trainer) (count : Py.num) : Py.result Z :=
  let warmup_unit :=
    lr_scheduler_config.warmup_unit (config.lr_scheduler_config (config self)) in
  if String.eqb warmup_unit "epochs" then
    Py.rbind (Py.mul count (Py.Int (n_batches_per_epoch self))) Py.int
  else if String.eqb warmup_unit "batches" then Py.int count
  else Py.Raise (Py.ValueError (Py.bad_warmup_unit warmup_unit)).

(** The accumulators as the training loop fills them when no task name
    contains a slash: every key of [running_losses] has one, no key of
    [running_counts] with a positive count has one. *)
Definition keyed_apart (s : Trainer) : Prop :=
  (forall k, In k (Py.keys (running_losses s)) -> Py.str_in "/" k = true)
  /\ (forall k c, Py.get (running_counts s) k = Some c -> 0 < c ->
                  Py.str_in "/" k = false).

Section Branches.
Context {SnorkelClassifier : Type} (env : Collaborators SnorkelClassifier).

(** The decay branch of [_update_lr_scheduler] (lines 315-319): the step
    of the decay scheduler, if there is one, then the floor. *)
Definition decay_branch (self : Trainer) : Py.result unit * Trainer :=
  match lr_scheduler self with
  | Some lr_scheduler =>
      (step_scheduler env lr_scheduler ;;
       self <- get_self ;;
       match Py.if_truthy
               (lr_scheduler_config.min_lr
                  (config.lr_scheduler_config (config self))) with
       | Some min_lr =>
           if Py.lt (param_group_lr (optimizer self)) min_lr
           then set_lr min_lr
           else ret tt
       | None => ret tt
       end) self
  | None => (Py.Ok tt, self)
  end.

(** Lines 289-293 and 308 (the same as 299-303 and 308): the warmup
    scheduler is built after [warmup_steps] is assigned. *)
Definition build_warmup (steps : Z) : M unit :=
  assign (fun s => with_warmup_steps s steps) ;;
  warmup_scheduler <- build_scheduler env (LambdaLR linear_warmup_func) ;;
  assign (fun s => with_warmup_scheduler s (Some warmup_scheduler)).



End Branches.

(** More trainers to run the methods on. *)

(** A trainer five steps of warmup long, with an exponential decay after
    it and a floor of 0.001 on the rate. *)
Definition scheduled_trainer : Trainer :=
  with_warmup_steps
    (with_warmup_scheduler
       (with_lr_scheduler
          (Sample.trainer
             (Sample.schedule "exponential" (Some (Py.Int 5)) "batches" None
                (Some (Py.Float (Sample.ratio 1 1000)))))
          (Some (ExponentialLR [])))
       (Some (LambdaLR linear_warmup_func)))
    5.

(** Schedulers that drive the rate down to 0.0001. *)
Definition low_rate (_ : Scheduler) (_ : Trainer) : Py.num :=
  Py.Float (Sample.ratio 1 10000).






(** An explicit count of minus one batch. *)
Definition negative_count_trainer : Trainer :=
  Sample.trainer
    (Sample.schedule "constant" (Some (Py.Int (-1))) "batches" None None).


(** More configurations to run the methods on. *)

(** Any rule, with or without clipping. *)
Definition optimizer_with (rule : string) (grad_clip : option Py.num)
  : optimizer_config.t :=
  {| optimizer_config.optimizer := rule;
     optimizer_config.lr := Py.Float (Sample.ratio 1 1000);
     optimizer_config.l2 := Py.Float (S754_zero false);
     optimizer_config.grad_clip := grad_clip;
     optimizer_config.sgd_config := [("momentum", Py.Float (Sample.ratio 9 10))];
     optimizer_config.adam_config := [("amsgrad", Py.Int 0)];
     optimizer_config.adamax_config := [] |}.

(** Two epochs, with the writer and the checkpointer on. *)
Definition logged_cfg (writer : string) (checkpoint_dir : option string)
  (oc : optimizer_config.t) (lc : lr_scheduler_config.t)
  (batch_scheduler : string) : config.t :=
  {| config.n_epochs := 2;
     config.train_split := "train";
     config.valid_split := "valid";
     config.test_split := "test";
     config.progress_bar := false;
     config.logging := true;
     config.writer := writer;
     config.checkpointing := true;
     config.checkpoint_dir := checkpoint_dir;
     config.optimizer_config := oc;
     config.lr_scheduler_config := lc;
     config.batch_scheduler := batch_scheduler |}.

Definition logged_trainer (writer : string) (checkpoint_dir : option string)
  : Trainer :=
  Trainer_init None
    (logged_cfg writer checkpoint_dir Sample.optimizer_cfg
       Sample.constant_schedule "shuffled").

(** The floats 0.0 and 1.0. *)
Definition zero : Py.float := S754_zero false.
Definition one : Py.float := S754_finite false 4503599627370496 (-52).

(** The [add_scalar] calls that write the metrics of a dictionary, one
    after the other, at the given steps. *)
Definition scalars_written (metric_dict : Metrics) (steps : list Z)
  : list Event :=
  map (fun kvs => log_writer_add_scalar (fst (fst kvs)) (snd (fst kvs)) (snd kvs))
    (combine metric_dict steps).

(** The count a key has after [_aggregate_losses] has looked up every
    identifier: its own, or the 0 the lookup has left. *)
Definition count_after_lookup (counts : Py.dict Z) (identifiers : list string)
  (k : string) : option Z :=
  match Py.get counts k with
  | Some c => Some c
  | None => if Py.list_in k identifiers then Some 0 else None
  end.

(** A trainer after two batches of four examples of task "t" with loss
    2.0, on the loader "d" of the training split. *)
Definition accumulated_trainer : Trainer :=
  with_running_counts
    (with_running_losses
       (with_optimizer (Sample.trainer Sample.constant_schedule)
          {| rule := "adam"; param_group_lr := Py.Float (Sample.ratio 1 1000) |})
       [("t/d/train/loss", Sample.ratio 16 1)])
    [("t", 8)].

(** A property of the trainer that a method hands on. *)
Definition carries (P : Trainer -> Prop) (s s' : Trainer) : Prop := P s -> P s'.

(** The running accumulators are empty. *)
Definition accumulators_empty (s : Trainer) : Prop :=
  running_losses s = [] /\ running_counts s = [].

(** Any call at all. *)
Definition any_call (_ : Event) : Prop := True.

(** What a run has returned, or [default] if it has raised. *)
Definition returned {A} (default : A) (r : Py.result A) : A :=
  match r with
  | Py.Ok a => a
  | Py.Raise _ => default
  end.

(** The collaborators of [Sample.env], with a log manager that answers
    its two triggers as told and a model that scores 0.75. *)
Definition triggering_env (evaluate checkpoint : bool) : Collaborators Z :=
  let base := Sample.env Sample.keep_rate Sample.loss_two in
  {| raises := raises base;
     LogWriter_log_dir := LogWriter_log_dir base;
     scheduled_lr := scheduled_lr base;
     batch_schedulers := batch_schedulers base;
     scheduler_get_batches := scheduler_get_batches base;
     calculate_loss := calculate_loss base;
     score := fun _ _ => [("t/d/valid/accuracy", Py.Float (Sample.ratio 3 4))];
     trigger_evaluation := fun _ => evaluate;
     trigger_checkpointing := fun _ => checkpoint;
     point_total := point_total base;
     unit_total := unit_total base;
     close := close base |}.

(** The key a task's loss on a loader is kept under (lines 99-106). *)
Definition loss_identifier (task_name : string) (dataloader : DictDataLoader)
  : string :=
  String.concat "/"
    [task_name; name (dataset dataloader); split (dataset dataloader); "loss"].

(** What a [defaultdict] holds under a key: the value, or the default. *)
Definition held {V} (default : V) (d : Py.dict V) (k : string) : V :=
  fst (Py.default_get default d k).

(** [preserves] under an invariant: from every trainer that satisfies
    [I], running [m] leads to an [R]-related one. *)
Definition maintains (I : Trainer -> Prop) (R : Trainer -> Trainer -> Prop)
  {A} (m : M A) : Prop :=
  forall s, I s -> R s (snd (m s)).

(** [R] hands the invariant on. *)
Class Stable (I : Trainer -> Prop) (R : Trainer -> Trainer -> Prop) : Prop :=
  stable : forall s s', I s -> R s s' -> I s'.

(** What the calls of [train_model] owe to the configuration [c] it was
    started with and to the loaders it was given.  [batches_from] is the
    list of loaders batches may be asked from, if they may be asked at
    all. *)
Definition within_policy (c : config.t) (dataloaders : list DictDataLoader)
  (batches_from : option (list DictDataLoader)) (ev : Event) : Prop :=
  match ev with
  | new_LogWriter w => config.logging c = true /\ w = config.writer c
  | new_Checkpointer _ => config.checkpointing c = true
  | new_Optimizer opt lr l2 _ =>
      opt = optimizer_config.optimizer (config.optimizer_config c)
      /\ lr = optimizer_config.lr (config.optimizer_config c)
      /\ l2 = optimizer_config.l2 (config.optimizer_config c)
  | new_BatchScheduler name => name = config.batch_scheduler c
  | get_batches loaders => batches_from = Some loaders
  | model_score loaders =>
      loaders = evaluated_loaders dataloaders (config.valid_split c)
  | clip_grad_norm_ max_norm =>
      Py.if_truthy (optimizer_config.grad_clip (config.optimizer_config c)) =
      Some max_norm
  | log_writer_add_scalar _ _ _ => config.logging c = true
  | checkpointer_checkpoint _ _ => config.checkpointing c = true
  | _ => True
  end.

(** The trainer still goes by the configuration [c]: the options the
    loop reads are those of [c], and a writer or a checkpointer is only
    there if [c] switches it on. *)
Definition goes_by (c : config.t) (s : Trainer) : Prop :=
  config.valid_split (config s) = config.valid_split c
  /\ config.optimizer_config (config s) = config.optimizer_config c
  /\ config.batch_scheduler (config s) = config.batch_scheduler c
  /\ config.n_epochs (config s) = config.n_epochs c
  /\ (log_writer s <> None -> config.logging c = true)
  /\ (checkpointer s <> None -> config.checkpointing c = true).

(** The attributes [goes_by] looks at. *)
Definition governed (s : Trainer)
  : config.t * option LogWriter * option Checkpointer :=
  (config s, log_writer s, checkpointer s).

(** Calls within the policy, by a trainer that keeps what governs it. *)
Definition by_the_policy (c : config.t) (dataloaders : list DictDataLoader)
  (batches_from : option (list DictDataLoader)) : Trainer -> Trainer -> Prop :=
  both (same_on governed) (grows (within_policy c dataloaders batches_from)).

(** * Properties *)

(** ** Python values *)

Module PyFacts.



(** A number below zero is true. *)
Lemma lt_zero_truthy (n : Py.num) :
  Py.lt n (Py.Int 0) = true -> Py.truthy n = true.
Proof.
  unfold Py.lt. destruct n as [z | f]; simpl.
  - destruct (Z.compare_spec z 0); try discriminate.
    intros _. apply negb_true_iff, Z.eqb_neq. lia.
  - destruct f; simpl; try reflexivity. discriminate.
Qed.

Lemma if_truthy_Some (o : option Py.num) (n : Py.num) :
  o = Some n -> Py.truthy n = true -> Py.if_truthy o = Some n.
Proof. intros -> H. simpl. now rewrite H. Qed.

Lemma if_truthy_inv (o : option Py.num) (n : Py.num) :
  Py.if_truthy o = Some n -> o = Some n /\ Py.truthy n = true.
Proof.
  destruct o as [m |]; simpl; try discriminate.
  destruct (Py.truthy m) eqn:E; try discriminate.
  intros [= <-]. auto.
Qed.


(** [String.prefix] and [Py.str_in] against concatenation. *)
Lemma prefix_app (sub s : string) :
  String.prefix sub s = true <-> exists post, s = (sub ++ post)%string.
Proof.
  revert s. induction sub as [| a sub IH]; intros s.
  - split; [intros _; now exists s | intros _; now destruct s].
  - destruct s as [| b s]; simpl.
    + split; [discriminate | intros [post H]; discriminate].
    + destruct (ascii_dec a b) as [-> | Hab].
      * rewrite IH. split; intros [post H]; exists post.
        -- now rewrite H.
        -- now injection H.
      * split; [discriminate | intros [post H]; injection H; congruence].
Qed.

Lemma str_in_app (sub s : string) :
  Py.str_in sub s = true <->
  exists pre post, s = (pre ++ sub ++ post)%string.
Proof.
  induction s as [| b s IH]; cbn [Py.str_in]; rewrite orb_true_iff.
  - split.
    + intros [H | H]; [| discriminate].
      apply prefix_app in H as [post H]. now exists "", post.
    + intros [pre [post H]]. left. apply prefix_app.
      destruct pre; simpl in H; [now exists post | discriminate].
  - rewrite IH. split.
    + intros [H | [pre [post H]]].
      * apply (prefix_app sub (String b s)) in H as [post H].
        now exists "", post.
      * exists (String b pre), post. simpl. now rewrite H.
    + intros [pre [post H]]. destruct pre as [| c pre]; simpl in H.
      * left. apply (prefix_app sub (String b s)). now exists post.
      * right. exists pre, post. now injection H.
Qed.

Lemma list_in_In (x : string) (l : list string) :
  Py.list_in x l = true <-> In x l.
Proof.
  unfold Py.list_in. rewrite existsb_exists. split.
  - intros [y [Hy E]]. apply String.eqb_eq in E. now subst.
  - intros H. exists x. split; [assumption | apply String.eqb_refl].
Qed.

End PyFacts.

(** ** Running methods *)


Lemma bind_Ok {A B} (m : M A) (k : A -> M B) (s s1 : Trainer) (a : A) :
  m s = (Py.Ok a, s1) -> bind m k s = k a s1.
Proof. unfold bind. now intros ->. Qed.

Lemma bind_Raise {A B} (m : M A) (k : A -> M B) (s s1 : Trainer) (e : Py.exn) :
  m s = (Py.Raise e, s1) -> bind m k s = (Py.Raise e, s1).
Proof. unfold bind. now intros ->. Qed.

Lemma bind_Ok_inv {A B} (m : M A) (k : A -> M B) (s s' : Trainer) (b : B) :
  bind m k s = (Py.Ok b, s') ->
  exists a s1, m s = (Py.Ok a, s1) /\ k a s1 = (Py.Ok b, s').
Proof.
  unfold bind. destruct (m s) as [[a | e] s1]; [eauto | discriminate].
Qed.

Section Frame.
Variable R : Trainer -> Trainer -> Prop.
Context {R_preorder : PreOrder R}.

Lemma preserves_ret {A} (a : A) : preserves R (ret a).
Proof. intros s. reflexivity. Qed.

Lemma preserves_raise {A} (e : Py.exn) : preserves R (@raise A e).
Proof. intros s. reflexivity. Qed.

Lemma preserves_lift {A} (r : Py.result A) : preserves R (lift r).
Proof. intros s. reflexivity. Qed.

Lemma preserves_get_self : preserves R get_self.
Proof. intros s. reflexivity. Qed.

Lemma preserves_assign (f : Trainer -> Trainer) :
  (forall s, R s (f s)) -> preserves R (assign f).
Proof. intros H s. apply H. Qed.

Lemma preserves_bind {A B} (m : M A) (k : A -> M B) :
  preserves R m -> (forall a, preserves R (k a)) -> preserves R (bind m k).
Proof.
  intros Hm Hk s. unfold bind. specialize (Hm s).
  destruct (m s) as [[a | e] s1]; simpl in *; [| assumption].
  transitivity s1; [assumption | apply Hk].
Qed.

Lemma preserves_for_each {A} (body : A -> M unit) (items : list A) :
  (forall x, preserves R (body x)) -> preserves R (for_each body items).
Proof.
  intros Hb. induction items as [| x rest IH]; simpl.
  - apply preserves_ret.
  - apply preserves_bind; [apply Hb | intros _; apply IH].
Qed.

Lemma preserves_call {SnorkelClassifier A}
  (env : Collaborators SnorkelClassifier) (ev : Event) (answer : Trainer -> A) :
  (forall s, R s (with_calls s (calls s ++ [ev]))) ->
  preserves R (call env ev answer).
Proof.
  intros H s. unfold call. destruct (raises env ev s); simpl; apply H.
Qed.
End Frame.

#[local] Instance same_on_preorder {X} (f : Trainer -> X) : PreOrder (same_on f).
Proof.
  split; unfold same_on.
  - intros s. reflexivity.
  - intros a b c H1 H2. congruence.
Qed.

#[local] Instance grows_preorder (Q : Event -> Prop) : PreOrder (grows Q).
Proof.
  split; unfold grows.
  - intros s. exists []. now rewrite app_nil_r.
  - intros a b c [e1 [H1 Q1]] [e2 [H2 Q2]]. exists (e1 ++ e2). split.
    + now rewrite H2, H1, app_assoc.
    + apply Forall_app. auto.
Qed.

#[local] Instance both_preorder (R1 R2 : Trainer -> Trainer -> Prop)
  {P1 : PreOrder R1} {P2 : PreOrder R2} : PreOrder (both R1 R2).
Proof.
  split; unfold both.
  - intros s. split; reflexivity.
  - intros a b c [H1 H2] [H3 H4]. split; etransitivity; eassumption.
Qed.

Lemma grows_same (Q : Event -> Prop) (s s' : Trainer) :
  calls s' = calls s -> grows Q s s'.
Proof. intros H. exists []. now rewrite app_nil_r. Qed.

Lemma grows_one (Q : Event -> Prop) (s s' : Trainer) (ev : Event) :
  calls s' = calls s ++ [ev] -> Q ev -> grows Q s s'.
Proof. intros H HQ. exists [ev]. auto. Qed.

(** Taking a method apart along its binds, branches and loops; [side]
    closes what an assignment or a call has to respect. *)
Create HintDb frame.

Ltac frame_step side :=
  cbv beta;
  lazymatch goal with
  | |- preserves ?R (ret _) => exact (preserves_ret R _)
  | |- preserves ?R (raise _) => exact (preserves_raise R _)
  | |- preserves ?R (lift _) => exact (preserves_lift R _)
  | |- preserves ?R get_self => exact (preserves_get_self R)
  | |- preserves ?R (bind ?m ?k) =>
      refine (preserves_bind R m k _ _); [| intros ?]
  | |- preserves ?R (for_each ?body ?items) =>
      refine (preserves_for_each R body items _); intros ?
  | |- preserves ?R (assign ?f) =>
      refine (preserves_assign R f _); intros ?; side
  | |- preserves ?R (call ?env ?ev ?answer) =>
      refine (preserves_call R env ev answer _); intros ?; side
  | |- preserves _ (match ?x with _ => _ end) => destruct x
  | |- preserves _ _ => solve [eauto with frame]
  end.

Ltac frame_with side := repeat frame_step side.

Ltac side_same := reflexivity.
Ltac side_grows :=
  first [ apply grows_same; reflexivity
        | eapply grows_one; [reflexivity | simpl; auto] ].
Ltac side_both s1 s2 := split; [s1 | s2].

(** ** What the methods leave alone *)

Section Untouched.
Context {SnorkelClassifier : Type} (env : Collaborators SnorkelClassifier).

(** Nothing but line 56 of [train_model] assigns [n_batches_per_epoch]. *)
#[local] Abbreviation keeps_n := (preserves (same_on n_batches_per_epoch)).

Lemma _check_dataloaders_keeps_n dataloaders :
  keeps_n (_check_dataloaders dataloaders).
Proof. unfold _check_dataloaders. frame_with side_same. Qed.

Lemma _set_log_writer_keeps_n : keeps_n (_set_log_writer env).
Proof. unfold _set_log_writer. frame_with side_same. Qed.

Lemma _set_checkpointer_keeps_n : keeps_n (_set_checkpointer env).
Proof. unfold _set_checkpointer, call_. frame_with side_same. Qed.

Lemma _set_log_manager_keeps_n : keeps_n (_set_log_manager env).
Proof. unfold _set_log_manager, call_. frame_with side_same. Qed.

Lemma _set_optimizer_keeps_n model : keeps_n (_set_optimizer env model).
Proof. unfold _set_optimizer, call_. frame_with side_same. Qed.

Lemma build_scheduler_keeps_n s : keeps_n (build_scheduler env s).
Proof. unfold build_scheduler, set_lr. frame_with side_same. Qed.

Lemma step_scheduler_keeps_n s : keeps_n (step_scheduler env s).
Proof. unfold step_scheduler, set_lr. frame_with side_same. Qed.

Hint Resolve build_scheduler_keeps_n step_scheduler_keeps_n : frame.

Lemma _set_warmup_scheduler_keeps_n : keeps_n (_set_warmup_scheduler env).
Proof. unfold _set_warmup_scheduler. frame_with side_same. Qed.

Hint Resolve _set_warmup_scheduler_keeps_n : frame.

Lemma _set_lr_scheduler_keeps_n : keeps_n (_set_lr_scheduler env).
Proof. unfold _set_lr_scheduler. frame_with side_same. Qed.

Lemma _update_lr_scheduler_keeps_n step :
  keeps_n (_update_lr_scheduler env step).
Proof. unfold _update_lr_scheduler, set_lr. frame_with side_same. Qed.

Lemma _set_batch_scheduler_keeps_n : keeps_n (_set_batch_scheduler env).
Proof. unfold _set_batch_scheduler, call_. frame_with side_same. Qed.

Lemma _reset_losses_keeps_n : keeps_n _reset_losses.
Proof. unfold _reset_losses. frame_with side_same. Qed.

Lemma read_running_losses_keeps_n key : keeps_n (read_running_losses key).
Proof. unfold read_running_losses. frame_with side_same. Qed.

Lemma read_running_counts_keeps_n key : keeps_n (read_running_counts key).
Proof. unfold read_running_counts. frame_with side_same. Qed.

Hint Resolve _reset_losses_keeps_n read_running_losses_keeps_n
  read_running_counts_keeps_n : frame.

Lemma aggregate_task_losses_keeps_n identifiers metric_dict :
  keeps_n (aggregate_task_losses identifiers metric_dict).
Proof.
  revert metric_dict.
  induction identifiers as [| identifier rest IH]; intros metric_dict;
    simpl; frame_with side_same.
Qed.

Hint Resolve aggregate_task_losses_keeps_n : frame.

Lemma _aggregate_losses_keeps_n : keeps_n _aggregate_losses.
Proof. unfold _aggregate_losses. frame_with side_same. Qed.

Lemma _evaluate_keeps_n model dataloaders split_ :
  keeps_n (_evaluate env model dataloaders split_).
Proof. unfold _evaluate. frame_with side_same. Qed.

Lemma _log_metrics_keeps_n metric_dict : keeps_n (_log_metrics env metric_dict).
Proof. unfold _log_metrics, call_. frame_with side_same. Qed.

Lemma _checkpoint_model_keeps_n model metric_dict :
  keeps_n (_checkpoint_model env model metric_dict).
Proof. unfold _checkpoint_model, call_. frame_with side_same. Qed.

Hint Resolve _aggregate_losses_keeps_n _evaluate_keeps_n _log_metrics_keeps_n
  _checkpoint_model_keeps_n : frame.

Lemma _logging_keeps_n model dataloaders batch_size :
  keeps_n (_logging env model dataloaders batch_size).
Proof. unfold _logging, call_. frame_with side_same. Qed.

Lemma update_running_keeps_n dataloader loss_dict count_dict task_names :
  keeps_n (update_running dataloader loss_dict count_dict task_names).
Proof.
  induction task_names as [| task_name rest IH]; simpl; frame_with side_same.
Qed.

Hint Resolve _logging_keeps_n update_running_keeps_n
  _update_lr_scheduler_keeps_n : frame.

Lemma train_batch_keeps_n model dataloaders epoch_num item :
  keeps_n (train_batch env model dataloaders epoch_num item).
Proof.
  destruct item as [batch_num [batch dataloader]].
  unfold train_batch, call_. frame_with side_same.
Qed.

Hint Resolve _set_log_writer_keeps_n _set_checkpointer_keeps_n
  _set_log_manager_keeps_n _set_optimizer_keeps_n _set_lr_scheduler_keeps_n
  _set_batch_scheduler_keeps_n train_batch_keeps_n : frame.

(** Everything [train_model] does after line 58. *)
Lemma train_model_rest_keeps_n model dataloaders train_dataloaders n_epochs :
  keeps_n
    (_set_log_writer env ;;
     _set_checkpointer env ;;
     _set_log_manager env ;;
     _set_optimizer env model ;;
     _set_lr_scheduler env ;;
     _set_batch_scheduler env ;;
     call_ env model_train ;;
     assign (fun s => with_metrics s []) ;;
     _reset_losses ;;
     for_each
       (fun epoch_num =>
          batches <- call env (get_batches train_dataloaders)
                       (scheduler_get_batches env train_dataloaders) ;;
          for_each (train_batch env model dataloaders epoch_num)
            (enumerate batches))
       (range n_epochs) ;;
     model <- call env log_manager_close (close env model) ;;
     ret (@None SnorkelClassifier)).
Proof. unfold call_. frame_with side_same. Qed.
End Untouched.

(** ** The loaders: validation and the batches of an epoch *)

Lemma fold_add_from (l : list Z) (a : Z) :
  fold_left Z.add l a = a + fold_left Z.add l 0.
Proof.
  revert a. induction l as [| y l IH]; intros a; simpl; [lia |].
  rewrite (IH (a + y)), (IH y). lia.
Qed.

Lemma int_sum_cons (x : Z) (l : list Z) : int_sum (x :: l) = x + int_sum l.
Proof. unfold int_sum. simpl. apply fold_add_from. Qed.

(** Summing over the training loaders is summing over all loaders with
    the others counted as zero. *)
Lemma train_lengths_sum (train_split : string) (dataloaders : list DictDataLoader) :
  int_sum
    (map (fun dataloader => Z.of_nat (len dataloader))
       (filter (fun dl => String.eqb (split (dataset dl)) train_split)
          dataloaders)) =
  int_sum
    (map (fun dl => if String.eqb (split (dataset dl)) train_split
                    then Z.of_nat (len dl) else 0)
       dataloaders).
Proof.
  induction dataloaders as [| dl rest IH]; simpl; [reflexivity |].
  destruct (String.eqb (split (dataset dl)) train_split); simpl;
    rewrite !int_sum_cons, IH; reflexivity.
Qed.

(** The checks never touch the trainer. *)
Lemma _check_dataloaders_state (dataloaders : list DictDataLoader) (self : Trainer) :
  snd (_check_dataloaders dataloaders self) = self.
Proof.
  unfold _check_dataloaders, bind, get_self.
  destruct (negb (forallb _ dataloaders)); [reflexivity |].
  destruct (negb (existsb _ dataloaders)); reflexivity.
Qed.

(** C5: once the loaders pass the checks, [train_model] leaves in
    [n_batches_per_epoch] the sum of the lengths of the loaders whose split
    is [train_split]: over all loaders, every other one counts for zero,
    whatever its length. *)
Theorem n_batches_per_epoch_counts_training_loaders
  {SnorkelClassifier : Type} (env : Collaborators SnorkelClassifier)
  (model : SnorkelClassifier) (dataloaders : list DictDataLoader)
  (self : Trainer) :
  fst (_check_dataloaders dataloaders self) = Py.Ok tt ->
  n_batches_per_epoch (snd (train_model env model dataloaders self)) =
  int_sum
    (map (fun dl => if String.eqb (split (dataset dl))
                         (config.train_split (config self))
                    then Z.of_nat (len dl) else 0)
       dataloaders).
Proof.
  intros Hcheck.
  pose proof (_check_dataloaders_state dataloaders self) as Hstate.
  destruct (_check_dataloaders dataloaders self) as [r s1] eqn:E.
  simpl in Hcheck, Hstate. subst r s1.
  unfold train_model. rewrite (bind_Ok _ _ _ _ _ E).
  unfold bind at 1, get_self at 1. unfold bind at 1, assign at 1.
  rewrite (train_model_rest_keeps_n env model dataloaders _ _ _).
  simpl. unfold train_dataloaders_of. apply train_lengths_sum.
Qed.

Lemma n_batches_per_epoch_counts_training_loaders_witness :
  n_batches_per_epoch
    (snd (train_model (Sample.env Sample.keep_rate Sample.loss_two) 5
            [Sample.loader "d" "train" 2; Sample.loader "d" "valid" 3;
             Sample.loader "e" "train" 4]
            (Sample.trainer Sample.constant_schedule))) = 6.
Proof.
  rewrite (n_batches_per_epoch_counts_training_loaders
             (Sample.env Sample.keep_rate Sample.loss_two) 5
             [Sample.loader "d" "train" 2; Sample.loader "d" "valid" 3;
              Sample.loader "e" "train" 4]
             (Sample.trainer Sample.constant_schedule) eq_refl).
  reflexivity.
Defined.

Section CheckDataloaders.
Variable self : Trainer.

Let all_splits : list string :=
  [config.train_split (config self); config.valid_split (config self);
   config.test_split (config self)].

Lemma _check_dataloaders_bad_split (dataloaders : list DictDataLoader) :
  (exists d, In d dataloaders /\ ~ In (split (dataset d)) all_splits) ->
  _check_dataloaders dataloaders self =
  (Py.Raise (Py.ValueError (Py.splits_must_be_one_of all_splits)), self).
Proof.
  intros [d [Hd Hbad]]. unfold _check_dataloaders, bind, get_self.
  replace (forallb _ dataloaders) with false; [reflexivity |].
  symmetry. apply not_true_is_false. intros Hall.
  rewrite forallb_forall in Hall. apply Hbad.
  apply PyFacts.list_in_In, (Hall d Hd).
Qed.

Lemma _check_dataloaders_no_train (dataloaders : list DictDataLoader) :
  (forall d, In d dataloaders -> In (split (dataset d)) all_splits) ->
  (forall d, In d dataloaders ->
             split (dataset d) <> config.train_split (config self)) ->
  _check_dataloaders dataloaders self =
  (Py.Raise (Py.ValueError (Py.no_train_split (config.train_split (config self)))),
   self).
Proof.
  intros Hall Hnone. unfold _check_dataloaders, bind, get_self.
  replace (forallb _ dataloaders) with true.
  - replace (existsb _ dataloaders) with false; [reflexivity |].
    symmetry. apply not_true_is_false. intros Hex.
    apply existsb_exists in Hex as [d [Hd E]].
    apply String.eqb_eq in E. exact (Hnone d Hd E).
  - symmetry. apply forallb_forall. intros d Hd.
    apply PyFacts.list_in_In, (Hall d Hd).
Qed.
End CheckDataloaders.

(** C4, as the code has it: a loader whose split is none of the three
    configured ones makes [train_model] raise the ValueError "Dataloader
    splits must be one of ..."; when every split is one of the three and
    none is [train_split], it raises the ValueError "Cannot find any
    dataloaders with split matching train split".  Either way the trainer
    is exactly as before the call: no attribute assigned, no collaborator
    called. *)
Theorem invalid_loaders_abort_before_any_effect
  {SnorkelClassifier : Type} (env : Collaborators SnorkelClassifier)
  (model : SnorkelClassifier) (dataloaders : list DictDataLoader)
  (self : Trainer) :
  let all_splits :=
    [config.train_split (config self); config.valid_split (config self);
     config.test_split (config self)] in
  ((exists d, In d dataloaders /\ ~ In (split (dataset d)) all_splits) ->
   train_model env model dataloaders self =
   (Py.Raise (Py.ValueError (Py.splits_must_be_one_of all_splits)), self))
  /\
  ((forall d, In d dataloaders -> In (split (dataset d)) all_splits) ->
   (forall d, In d dataloaders ->
              split (dataset d) <> config.train_split (config self)) ->
   train_model env model dataloaders self =
   (Py.Raise (Py.ValueError (Py.no_train_split (config.train_split (config self)))),
    self)).
Proof.
  intros all_splits. split.
  - intros H. unfold train_model.
    apply bind_Raise, _check_dataloaders_bad_split, H.
  - intros Hall Hnone. unfold train_model.
    apply bind_Raise, _check_dataloaders_no_train; assumption.
Qed.

Lemma invalid_loaders_abort_before_any_effect_witness :
  train_model (Sample.env Sample.keep_rate Sample.loss_two) 5
    [Sample.loader "d" "train" 2; Sample.loader "d" "bogus" 1]
    (Sample.trainer Sample.constant_schedule) =
  (Py.Raise (Py.ValueError (Py.splits_must_be_one_of ["train"; "valid"; "test"])),
   Sample.trainer Sample.constant_schedule)
  /\
  train_model (Sample.env Sample.keep_rate Sample.loss_two) 5
    [Sample.loader "d" "valid" 3]
    (Sample.trainer Sample.constant_schedule) =
  (Py.Raise (Py.ValueError (Py.no_train_split "train")),
   Sample.trainer Sample.constant_schedule).
Proof.
  split.
  - apply (proj1 (invalid_loaders_abort_before_any_effect
                    (Sample.env Sample.keep_rate Sample.loss_two) 5
                    [Sample.loader "d" "train" 2; Sample.loader "d" "bogus" 1]
                    (Sample.trainer Sample.constant_schedule))).
    exists (Sample.loader "d" "bogus" 1). split.
    + simpl. auto.
    + simpl. intros [H | [H | [H | []]]]; discriminate H.
  - apply (proj2 (invalid_loaders_abort_before_any_effect
                    (Sample.env Sample.keep_rate Sample.loss_two) 5
                    [Sample.loader "d" "valid" 3]
                    (Sample.trainer Sample.constant_schedule))).
    + intros d [<- | []]. simpl. auto.
    + intros d [<- | []]. simpl. discriminate.
Defined.

(** C4 as stated fails where both conditions meet: a single loader with an
    unknown split is no training loader, yet the error is the one about
    the splits, not the one about the missing training data. *)
Lemma no_train_loader_yet_split_error :
  (forall d, In d [Sample.loader "d" "bogus" 1] -> split (dataset d) <> "train")
  /\
  fst (train_model (Sample.env Sample.keep_rate Sample.loss_two) 5
         [Sample.loader "d" "bogus" 1]
         (Sample.trainer Sample.constant_schedule)) <>
  Py.Raise (Py.ValueError (Py.no_train_split "train")).
Proof.
  split.
  - intros d [<- | []]. simpl. discriminate.
  - vm_compute. discriminate.
Qed.

(** ** The learning-rate schedule at each batch *)

Section UpdateLrScheduler.
Context {SnorkelClassifier : Type} (env : Collaborators SnorkelClassifier).

(** Stepping a scheduler is one call on it, whether it returns or raises. *)
Lemma step_scheduler_calls (s : Scheduler) (self : Trainer) :
  calls (snd (step_scheduler env s self)) = calls self ++ [scheduler_step s].
Proof.
  unfold step_scheduler, bind, call, set_lr, assign.
  destruct (raises env (scheduler_step s) self); reflexivity.
Qed.

Lemma step_scheduler_returns (s : Scheduler) (self : Trainer) :
  raises env (scheduler_step s) self = None ->
  step_scheduler env s self =
  (Py.Ok tt,
   with_optimizer (with_calls self (calls self ++ [scheduler_step s]))
     {| rule := rule (optimizer self);
        param_group_lr := scheduled_lr env s self |}).
Proof.
  intros H. unfold step_scheduler, bind, call, set_lr, assign.
  now rewrite H.
Qed.

(** While warming up, the update is the step of the warmup scheduler. *)
Lemma _update_lr_scheduler_warmup (step : Z) (self : Trainer) (w : Scheduler) :
  warmup_scheduler self = Some w -> step < warmup_steps self ->
  _update_lr_scheduler env step self = step_scheduler env w self.
Proof.
  intros Hw Hlt. unfold _update_lr_scheduler, bind at 1, get_self at 1.
  rewrite Hw. apply Z.ltb_lt in Hlt. now rewrite Hlt.
Qed.

Lemma _update_lr_scheduler_decay (step : Z) (self : Trainer) :
  warmup_scheduler self = None \/ warmup_steps self <= step ->
  _update_lr_scheduler env step self = decay_branch env self.
Proof.
  intros H. unfold _update_lr_scheduler, bind at 1, get_self at 1, decay_branch.
  destruct (warmup_scheduler self) as [w |].
  - destruct H as [H | H]; [discriminate |].
    apply Z.ltb_ge in H. rewrite H. destruct (lr_scheduler self); reflexivity.
  - destruct (lr_scheduler self); reflexivity.
Qed.

Lemma decay_branch_calls (self : Trainer) (d : Scheduler) :
  lr_scheduler self = Some d ->
  calls (snd (decay_branch env self)) = calls self ++ [scheduler_step d].
Proof.
  intros Hd. unfold decay_branch. rewrite Hd.
  pose proof (step_scheduler_calls d self) as Hc.
  unfold bind at 1. destruct (step_scheduler env d self) as [[[] | e] s1];
    simpl in Hc |- *; [| exact Hc].
  unfold bind, get_self.
  destruct (Py.if_truthy _) as [m |]; [| exact Hc].
  destruct (Py.lt _ m); exact Hc.
Qed.

(** C6: at every call of [_update_lr_scheduler] exactly one branch runs.
    With a warmup scheduler and [step < warmup_steps] the only scheduler
    stepped is the warmup one; otherwise the only scheduler stepped is the
    decay one, and none at all when there is no decay scheduler.  In no
    case are two schedulers stepped. *)
Theorem warmup_and_decay_never_both (step : Z) (self : Trainer) :
  let after := snd (_update_lr_scheduler env step self) in
  (forall w, warmup_scheduler self = Some w -> step < warmup_steps self ->
             calls after = calls self ++ [scheduler_step w])
  /\
  (forall d, warmup_scheduler self = None \/ warmup_steps self <= step ->
             lr_scheduler self = Some d ->
             calls after = calls self ++ [scheduler_step d])
  /\
  (warmup_scheduler self = None \/ warmup_steps self <= step ->
   lr_scheduler self = None ->
   calls after = calls self).
Proof.
  intros after. subst after. repeat split.
  - intros w Hw Hlt. rewrite (_update_lr_scheduler_warmup step self w Hw Hlt).
    apply step_scheduler_calls.
  - intros d Hcold Hd. rewrite (_update_lr_scheduler_decay step self Hcold).
    now apply decay_branch_calls.
  - intros Hcold Hd. rewrite (_update_lr_scheduler_decay step self Hcold).
    unfold decay_branch. now rewrite Hd.
Qed.

End UpdateLrScheduler.

(** The two schedulers [_set_lr_scheduler] leaves in the trainer are never
    the same one, so a [scheduler_step] call tells which of them stepped. *)
Lemma _set_lr_scheduler_distinct
  {SnorkelClassifier : Type} (env : Collaborators SnorkelClassifier)
  (self after : Trainer) :
  _set_lr_scheduler env self = (Py.Ok tt, after) ->
  forall w d, warmup_scheduler after = Some w -> lr_scheduler after = Some d ->
              w = LambdaLR linear_warmup_func /\ w <> d.
Proof.
  unfold _set_lr_scheduler, _set_warmup_scheduler, build_scheduler, set_lr,
    bind, get_self, assign, lift, call, ret, raise.
  intros H w d.
  repeat match type of H with
         | context [match ?x with _ => _ end] =>
             lazymatch x with
             | context [match _ with _ => _ end] => fail
             | _ => destruct x; simpl in H
             end
         end;
    try discriminate H;
    injection H as <-; simpl; intros Hw Hd;
    try discriminate Hw; try discriminate Hd;
    injection Hw as <-; injection Hd as <-;
    (split; [reflexivity | discriminate]).
Qed.

Lemma warmup_and_decay_never_both_witness :
  calls (snd (_update_lr_scheduler (Sample.env low_rate Sample.loss_two) 2
                scheduled_trainer)) =
  [scheduler_step (LambdaLR linear_warmup_func)]
  /\
  calls (snd (_update_lr_scheduler (Sample.env low_rate Sample.loss_two) 5
                scheduled_trainer)) =
  [scheduler_step (ExponentialLR [])].
Proof.
  split.
  - apply (proj1 (warmup_and_decay_never_both
                    (Sample.env low_rate Sample.loss_two) 2 scheduled_trainer)
             (LambdaLR linear_warmup_func)).
    + reflexivity.
    + simpl. lia.
  - apply (proj1 (proj2 (warmup_and_decay_never_both
                           (Sample.env low_rate Sample.loss_two) 5
                           scheduled_trainer))
             (ExponentialLR [])).
    + right. simpl. lia.
    + reflexivity.
Defined.



(** ** Evaluation *)

(** The loaders scored are those whose split occurs inside the split
    asked for. *)
Lemma evaluated_loaders_In (dataloaders : list DictDataLoader) (split_ : string)
  (d : DictDataLoader) :
  In d (evaluated_loaders dataloaders split_) <->
  In d dataloaders /\
  exists pre post, split_ = (pre ++ split (dataset d) ++ post)%string.
Proof.
  unfold evaluated_loaders. rewrite filter_In, PyFacts.str_in_app. reflexivity.
Qed.

(** C9: [_evaluate] scores exactly the loaders whose split label is a
    substring of the split it is given: the one call it makes is
    [model.score] on those loaders, so a loader is scored as soon as its
    label occurs inside [split_], equal to it or not. *)
Theorem _evaluate_selects_by_substring
  {SnorkelClassifier : Type} (env : Collaborators SnorkelClassifier)
  (model : SnorkelClassifier) (dataloaders : list DictDataLoader)
  (split_ : string) (self : Trainer) :
  exists loaders,
    calls (snd (_evaluate env model dataloaders split_ self)) =
    calls self ++ [model_score loaders]
    /\ forall d,
         In d loaders <->
         In d dataloaders /\
         exists pre post, split_ = (pre ++ split (dataset d) ++ post)%string.
Proof.
  exists (evaluated_loaders dataloaders split_). split.
  - unfold _evaluate, call.
    destruct (raises env (model_score _) self); reflexivity.
  - intros d. apply evaluated_loaders_In.
Qed.

(** An instance: with [valid_split] "valid", a loader
    labelled "val" is scored with the validation loaders. *)
Lemma val_loader_scored_as_valid :
  "val" <> "valid" /\
  calls (snd (_evaluate (Sample.env Sample.keep_rate Sample.loss_two) 5
                [Sample.loader "d" "train" 2; Sample.loader "d" "val" 1;
                 Sample.loader "d" "valid" 3]
                (config.valid_split (config (Sample.trainer Sample.constant_schedule)))
                (Sample.trainer Sample.constant_schedule))) =
  [model_score [Sample.loader "d" "val" 1; Sample.loader "d" "valid" 3]].
Proof. split; [discriminate | reflexivity]. Qed.

(** ** The warmup schedule *)

Section SetWarmupScheduler.
Context {SnorkelClassifier : Type} (env : Collaborators SnorkelClassifier).

Lemma build_warmup_spec (steps : Z) (self : Trainer) :
  let after := snd (build_warmup env steps self) in
  warmup_steps after = steps
  /\ calls after = calls self ++ [new_Scheduler (LambdaLR linear_warmup_func)]
  /\ (raises env (new_Scheduler (LambdaLR linear_warmup_func))
        (with_warmup_steps self steps) = None ->
      warmup_scheduler after = Some (LambdaLR linear_warmup_func)).
Proof.
  unfold build_warmup, build_scheduler, bind, assign, call, set_lr, ret.
  cbn [calls with_warmup_steps].
  destruct (raises env _ (with_warmup_steps self steps)); simpl.
  - repeat split. discriminate.
  - repeat split.
Qed.


Lemma _set_warmup_scheduler_explicit (self : Trainer) (count : Py.num) (steps : Z) :
  Py.if_truthy
    (lr_scheduler_config.warmup_steps (config.lr_scheduler_config (config self))) =
  Some count ->
  Py.lt count (Py.Int 0) = false ->
  explicit_steps self count = Py.Ok steps ->
  _set_warmup_scheduler env self = build_warmup env steps self.
Proof.
  intros Hs Hpos Hsteps.
  unfold _set_warmup_scheduler, bind at 1, get_self at 1.
  rewrite Hs, Hpos. unfold explicit_steps in Hsteps.
  destruct (String.eqb _ "epochs").
  - unfold bind at 1, lift at 1.
    destruct (Py.mul count _) as [v | e]; [| discriminate]. simpl in Hsteps.
    unfold bind at 1, lift at 1. rewrite Hsteps. reflexivity.
  - destruct (String.eqb _ "batches"); [| discriminate].
    unfold bind at 1, lift at 1. rewrite Hsteps. reflexivity.
Qed.



(** C8, for the method: a negative explicit count is rejected with the
    ValueError "warmup_steps much greater or equal than 0." and the trainer
    is left as it was. *)
Lemma _set_warmup_scheduler_negative (self : Trainer) (count : Py.num) :
  lr_scheduler_config.warmup_steps (config.lr_scheduler_config (config self)) =
  Some count ->
  Py.lt count (Py.Int 0) = true ->
  _set_warmup_scheduler env self =
  (Py.Raise (Py.ValueError Py.warmup_steps_negative), self).
Proof.
  intros Hcount Hneg.
  unfold _set_warmup_scheduler, bind at 1, get_self at 1.
  rewrite (PyFacts.if_truthy_Some _ count Hcount (PyFacts.lt_zero_truthy _ Hneg)).
  now rewrite Hneg.
Qed.
End SetWarmupScheduler.




(** ** Configuring: everything [train_model] does before the first epoch *)

#[local] Instance still_configuring_preorder : PreOrder still_configuring.
Proof. unfold still_configuring. typeclasses eauto. Qed.

Lemma fails_within_bind {A B} (R : Trainer -> Trainer -> Prop)
  {R_preorder : PreOrder R} (m : M A) (k : A -> M B) (s : Trainer) :
  preserves R m ->
  (forall a s1, R s s1 -> exists e s', k a s1 = (Py.Raise e, s') /\ R s1 s') ->
  fails_within R (bind m k) s.
Proof.
  intros Hm Hk. unfold fails_within, bind. specialize (Hm s).
  destruct (m s) as [[a | e] s1]; simpl in Hm.
  - destruct (Hk a s1 Hm) as [e [s' [E HR]]]. exists e, s'. split; [exact E |].
    transitivity s1; assumption.
  - exists e, s1. auto.
Qed.

Section Configuring.
Context {SnorkelClassifier : Type} (env : Collaborators SnorkelClassifier).

Ltac side_configuring := side_both side_same side_grows.

Lemma _check_dataloaders_configuring dataloaders :
  preserves still_configuring (_check_dataloaders dataloaders).
Proof. unfold _check_dataloaders. frame_with side_configuring. Qed.

Lemma _set_log_writer_configuring : preserves still_configuring (_set_log_writer env).
Proof. unfold _set_log_writer. frame_with side_configuring. Qed.

Lemma _set_checkpointer_configuring :
  preserves still_configuring (_set_checkpointer env).
Proof. unfold _set_checkpointer, call_. frame_with side_configuring. Qed.

Lemma _set_log_manager_configuring :
  preserves still_configuring (_set_log_manager env).
Proof. unfold _set_log_manager, call_. frame_with side_configuring. Qed.

Lemma _set_optimizer_configuring model :
  preserves still_configuring (_set_optimizer env model).
Proof. unfold _set_optimizer, call_. frame_with side_configuring. Qed.

(** C8: whenever the configured explicit count [warmup_steps] is below
    zero, building the warmup schedule, and so the whole schedule, raises
    the ValueError "warmup_steps much greater or equal than 0." and changes
    nothing; and [train_model] on such a trainer always ends in an
    exception, having made no call but the ones that build collaborators:
    no batch is asked for, no loss computed, no optimizer step taken. *)
Theorem negative_warmup_steps_rejected_while_configuring
  (self : Trainer) (count : Py.num) :
  lr_scheduler_config.warmup_steps (config.lr_scheduler_config (config self)) =
  Some count ->
  Py.lt count (Py.Int 0) = true ->
  _set_warmup_scheduler env self =
  (Py.Raise (Py.ValueError Py.warmup_steps_negative), self)
  /\
  _set_lr_scheduler env self =
  (Py.Raise (Py.ValueError Py.warmup_steps_negative), self)
  /\
  forall model dataloaders,
  exists e after evs,
    train_model env model dataloaders self = (Py.Raise e, after)
    /\ calls after = calls self ++ evs
    /\ Forall configuring evs.
Proof.
  intros Hcount Hneg. split; [| split].
  - now apply _set_warmup_scheduler_negative with count.
  - unfold _set_lr_scheduler. apply bind_Raise.
    now apply _set_warmup_scheduler_negative with count.
  - intros model dataloaders.
    assert (H : fails_within still_configuring
                  (train_model env model dataloaders) self).
    { unfold train_model.
      apply fails_within_bind; [typeclasses eauto | apply _check_dataloaders_configuring |].
      intros _ s1 [Hcfg1 _]. unfold bind at 1, get_self at 1.
      apply fails_within_bind; [typeclasses eauto | |].
      { frame_with side_configuring. }
      intros _ s2 R2.
      apply fails_within_bind; [typeclasses eauto | apply _set_log_writer_configuring |].
      intros _ s3 R3.
      apply fails_within_bind; [typeclasses eauto | apply _set_checkpointer_configuring |].
      intros _ s4 R4.
      apply fails_within_bind; [typeclasses eauto | apply _set_log_manager_configuring |].
      intros _ s5 R5.
      apply fails_within_bind; [typeclasses eauto | apply _set_optimizer_configuring |].
      intros _ s6 R6.
      assert (Hcfg : config.lr_scheduler_config (config s6) =
                     config.lr_scheduler_config (config self)).
      { destruct R2 as [E2 _], R3 as [E3 _], R4 as [E4 _], R5 as [E5 _],
          R6 as [E6 _]. unfold same_on in *. congruence. }
      exists (Py.ValueError Py.warmup_steps_negative), s6. split.
      - apply bind_Raise. unfold _set_lr_scheduler. apply bind_Raise.
        apply _set_warmup_scheduler_negative with count; [| exact Hneg].
        now rewrite Hcfg.
      - reflexivity. }
    destruct H as [e [after [E [_ [evs [Hc HQ]]]]]].
    exists e, after, evs. auto.
Qed.
End Configuring.

Lemma negative_warmup_steps_rejected_while_configuring_witness :
  _set_warmup_scheduler (Sample.env Sample.keep_rate Sample.loss_two)
    negative_count_trainer =
  (Py.Raise (Py.ValueError Py.warmup_steps_negative), negative_count_trainer).
Proof.
  exact (proj1 (negative_warmup_steps_rejected_while_configuring
                  (Sample.env Sample.keep_rate Sample.loss_two)
                  negative_count_trainer (Py.Int (-1)) eq_refl eq_refl)).
Defined.

(** ** The result of [train_model] *)

Ltac peel_bind H :=
  apply bind_Ok_inv in H; destruct H as [? [? [_ H]]]; cbv beta in H.

(** C3, as the code has it: a call of [train_model] that returns, returns
    [None].  Its last act is the call of the log manager's [close]; the
    model that call answers is bound to the local name [model] and dropped. *)
Theorem train_model_returns_None
  {SnorkelClassifier : Type} (env : Collaborators SnorkelClassifier)
  (model : SnorkelClassifier) (dataloaders : list DictDataLoader)
  (self after : Trainer) (result : option SnorkelClassifier) :
  train_model env model dataloaders self = (Py.Ok result, after) ->
  result = None
  /\ exists evs, calls after = evs ++ [log_manager_close].
Proof.
  intros H. unfold train_model in H.
  do 13 peel_bind H.
  apply bind_Ok_inv in H. destruct H as [closed [s1 [Hclose Hret]]].
  unfold ret in Hret. injection Hret as <- <-.
  split; [reflexivity |].
  unfold call in Hclose.
  destruct (raises env log_manager_close _); [discriminate |].
  injection Hclose as _ <-. eexists. reflexivity.
Qed.

Lemma train_model_returns_None_witness :
  let run :=
    train_model (Sample.env Sample.keep_rate Sample.loss_two) 5
      [Sample.loader "d" "train" 2; Sample.loader "d" "valid" 3]
      (Sample.trainer Sample.constant_schedule) in
  run = (Py.Ok None, snd run)
  /\ exists evs, calls (snd run) = evs ++ [log_manager_close].
Proof.
  intros run.
  assert (E : run = (Py.Ok None, snd run)) by (vm_compute; reflexivity).
  split; [exact E |].
  exact (proj2 (train_model_returns_None
                  (Sample.env Sample.keep_rate Sample.loss_two) 5
                  [Sample.loader "d" "train" 2; Sample.loader "d" "valid" 3]
                  (Sample.trainer Sample.constant_schedule) (snd run) None E)).
Defined.

(** C3 as stated fails: in this run [close] hands back the model 6, and
    [train_model] returns [None], not that model. *)
Lemma train_model_drops_closed_model :
  let run :=
    train_model (Sample.env Sample.keep_rate Sample.loss_two) 5
      [Sample.loader "d" "train" 2; Sample.loader "d" "valid" 3]
      (Sample.trainer Sample.constant_schedule) in
  last (calls (snd run)) zero_grad = log_manager_close
  /\ (forall s, close (Sample.env Sample.keep_rate Sample.loss_two) 5 s = 6)
  /\ fst run = Py.Ok None
  /\ fst run <> Py.Ok (Some 6).
Proof.
  vm_compute. repeat split. discriminate.
Qed.

(** ** A batch without losses *)

#[local] Instance nothing_learnt_or_logged_preorder :
  PreOrder nothing_learnt_or_logged.
Proof. unfold nothing_learnt_or_logged. typeclasses eauto. Qed.

Ltac side_prologue :=
  side_both side_grows
    ltac:(side_both side_same ltac:(side_both side_same side_same)).

Section EmptyLossDict.
Context {SnorkelClassifier : Type} (env : Collaborators SnorkelClassifier).

Lemma _update_lr_scheduler_prologue (step : Z) :
  preserves nothing_learnt_or_logged (_update_lr_scheduler env step).
Proof.
  unfold _update_lr_scheduler, step_scheduler, set_lr.
  frame_with side_prologue.
Qed.

Hint Resolve _update_lr_scheduler_prologue : frame.

(** A call whose answer is known to satisfy [P]. *)
Lemma preserves_bind_call {A B} (R : Trainer -> Trainer -> Prop)
  {R_preorder : PreOrder R} (ev : Event) (answer : Trainer -> A)
  (k : A -> M B) (P : A -> Prop) :
  (forall s, R s (with_calls s (calls s ++ [ev]))) ->
  (forall s, P (answer s)) ->
  (forall a, P a -> preserves R (k a)) ->
  preserves R (bind (call env ev answer) k).
Proof.
  intros Hcall HP Hk s. unfold bind, call.
  destruct (raises env ev s); simpl; [apply Hcall |].
  transitivity (with_calls s (calls s ++ [ev])); [apply Hcall |].
  apply Hk, HP.
Qed.

(** C1, as the code has it: a batch for which [calculate_loss] answers an
    empty [loss_dict] makes no call but the step of a scheduler,
    [zero_grad] and [calculate_loss] itself, and leaves the running
    accumulators and the metrics as they were.  So there is no backward
    pass, no clipping and no optimizer step, and [_logging] is not run for
    that batch either: [continue] skips it with the rest of the body. *)
Theorem empty_loss_dict_skips_update_and_logging
  (model : SnorkelClassifier) (dataloaders : list DictDataLoader)
  (epoch_num batch_num : Z) (batch : Batch) (dataloader : DictDataLoader)
  (self : Trainer) :
  (forall s, fst (calculate_loss env batch s) = []) ->
  let after :=
    snd (train_batch env model dataloaders epoch_num
           (batch_num, (batch, dataloader)) self) in
  (exists evs, calls after = calls self ++ evs /\ Forall batch_prologue evs)
  /\ running_losses after = running_losses self
  /\ running_counts after = running_counts self
  /\ metrics after = metrics self.
Proof.
  intros Hempty after.
  assert (H : preserves nothing_learnt_or_logged
                (train_batch env model dataloaders epoch_num
                   (batch_num, (batch, dataloader)))).
  { unfold train_batch, call_. cbv beta iota.
    do 4 (frame_step side_prologue; [solve [frame_with side_prologue] |]).
    apply preserves_bind_call with (P := fun a => fst a = []).
    - typeclasses eauto.
    - intros s. side_prologue.
    - intros s. apply Hempty.
    - intros [loss_dict count_dict] E. simpl in E. subst loss_dict.
      cbn [Py.keys map update_running].
      frame_with side_prologue. }
  specialize (H self). fold after in H.
  destruct H as [Hcalls [Hl [Hc Hm]]]. auto.
Qed.
End EmptyLossDict.

Lemma empty_loss_dict_skips_update_and_logging_witness :
  let after :=
    snd (train_batch (Sample.env Sample.keep_rate Sample.no_loss) 5
           [Sample.loader "d" "train" 1] 0
           (0, (Sample.batch ["t"] 4, Sample.loader "d" "train" 1))
           (Sample.trainer Sample.constant_schedule)) in
  running_losses after = [] /\ running_counts after = [] /\ metrics after = [].
Proof.
  intros after.
  destruct (empty_loss_dict_skips_update_and_logging
              (Sample.env Sample.keep_rate Sample.no_loss) 5
              [Sample.loader "d" "train" 1] 0 0 (Sample.batch ["t"] 4)
              (Sample.loader "d" "train" 1)
              (Sample.trainer Sample.constant_schedule)
              (fun s => eq_refl))
    as [_ [Hl [Hc Hm]]].
  auto.
Defined.

(** C1 as stated fails on its last clause: for this batch without losses
    the body returns normally after [zero_grad] and [calculate_loss], and
    neither [model.eval()] nor [log_manager.update(batch_size)], the first
    two calls of [_logging], was made. *)
Lemma empty_loss_dict_is_not_logged :
  let run :=
    train_batch (Sample.env Sample.keep_rate Sample.no_loss) 5
      [Sample.loader "d" "train" 1] 0
      (0, (Sample.batch ["t"] 4, Sample.loader "d" "train" 1))
      (Sample.trainer Sample.constant_schedule) in
  (forall s, fst (calculate_loss (Sample.env Sample.keep_rate Sample.no_loss)
                    (Sample.batch ["t"] 4) s) = [])
  /\ fst run = Py.Ok tt
  /\ calls (snd run) = [zero_grad; model_calculate_loss (Sample.batch ["t"] 4)]
  /\ ~ In model_eval (calls (snd run))
  /\ ~ In (log_manager_update 4) (calls (snd run)).
Proof.
  vm_compute. repeat split.
  - intros [H | [H | []]]; discriminate H.
  - intros [H | [H | []]]; discriminate H.
Qed.

(** The same batch with a loss is logged. *)
Lemma batch_with_loss_is_logged :
  calls
    (snd (train_batch (Sample.env Sample.keep_rate Sample.loss_two) 5
            [Sample.loader "d" "train" 1] 0
            (0, (Sample.batch ["t"] 4, Sample.loader "d" "train" 1))
            (Sample.trainer Sample.constant_schedule))) =
  [zero_grad; model_calculate_loss (Sample.batch ["t"] 4);
   loss_backward [Sample.ratio 2 1];
   clip_grad_norm_ (Py.Float (Sample.ratio 1 1)); optimizer_step;
   model_eval; log_manager_update 4; log_manager_trigger_evaluation;
   log_manager_trigger_checkpointing; model_train].
Proof. vm_compute. reflexivity. Qed.

(** ** The running losses and their averages *)

(** Dictionaries. *)

Module DictFacts.

Lemma get_set {V} (d : Py.dict V) (k : string) (v : V) :
  Py.get (Py.set d k v) k = Some v.
Proof.
  induction d as [| [k' v'] d IH]; simpl.
  - now rewrite String.eqb_refl.
  - destruct (String.eqb k k') eqn:E; simpl; rewrite E; [reflexivity | exact IH].
Qed.

Lemma get_set_other {V} (d : Py.dict V) (k k' : string) (v : V) :
  k <> k' -> Py.get (Py.set d k v) k' = Py.get d k'.
Proof.
  intros Hne. induction d as [| [k0 v0] d IH]; simpl.
  - destruct (String.eqb_spec k' k); [congruence | reflexivity].
  - destruct (String.eqb_spec k k0) as [-> | Hk]; simpl.
    + destruct (String.eqb_spec k' k0); [congruence | reflexivity].
    + destruct (String.eqb k' k0); [reflexivity | exact IH].
Qed.

Lemma keys_set {V} (d : Py.dict V) (k k' : string) (v : V) :
  In k' (Py.keys (Py.set d k v)) -> k' = k \/ In k' (Py.keys d).
Proof.
  unfold Py.keys. induction d as [| [k0 v0] d IH]; simpl.
  - intros [<- | []]. now left.
  - destruct (String.eqb k k0); simpl; [tauto |].
    intros [<- | H]; [tauto |]. destruct (IH H); tauto.
Qed.

Lemma default_get_other {V} (z : V) (d : Py.dict V) (k k' : string) :
  k <> k' -> Py.get (snd (Py.default_get z d k)) k' = Py.get d k'.
Proof.
  intros Hne. unfold Py.default_get.
  destruct (Py.get d k); simpl; [reflexivity | now apply get_set_other].
Qed.

Lemma default_get_keys {V} (z : V) (d : Py.dict V) (k k' : string) :
  In k' (Py.keys (snd (Py.default_get z d k))) -> k' = k \/ In k' (Py.keys d).
Proof.
  unfold Py.default_get. destruct (Py.get d k); simpl; [tauto | apply keys_set].
Qed.

Lemma default_get_same {V} (z : V) (d : Py.dict V) (k : string) :
  Py.get (snd (Py.default_get z d k)) k = Some (fst (Py.default_get z d k)).
Proof.
  unfold Py.default_get. destruct (Py.get d k) eqn:E; simpl;
    [exact E | apply get_set].
Qed.

Lemma default_get_value {V} (z : V) (d : Py.dict V) (k : string) :
  Py.get d k = Some (fst (Py.default_get z d k))
  \/ fst (Py.default_get z d k) = z.
Proof.
  unfold Py.default_get. destruct (Py.get d k) eqn:E; simpl; auto.
Qed.

End DictFacts.

Lemma identifier_has_slash (task_name dataset_name split_ : string) :
  Py.str_in "/" (String.concat "/" [task_name; dataset_name; split_; "loss"]) = true.
Proof.
  apply PyFacts.str_in_app.
  exists task_name, (dataset_name ++ "/" ++ split_ ++ "/" ++ "loss")%string.
  reflexivity.
Qed.

Lemma read_running_losses_run (key : string) (s : Trainer) :
  read_running_losses key s =
  (Py.Ok (fst (Py.default_get (S754_zero false) (running_losses s) key)),
   with_running_losses s
     (snd (Py.default_get (S754_zero false) (running_losses s) key))).
Proof.
  unfold read_running_losses, bind, get_self.
  destruct (Py.default_get (S754_zero false) (running_losses s) key);
    reflexivity.
Qed.

Lemma read_running_counts_run (key : string) (s : Trainer) :
  read_running_counts key s =
  (Py.Ok (fst (Py.default_get 0 (running_counts s) key)),
   with_running_counts s (snd (Py.default_get 0 (running_counts s) key))).
Proof.
  unfold read_running_counts, bind, get_self.
  destruct (Py.default_get 0 (running_counts s) key); reflexivity.
Qed.

Lemma keyed_apart_reset (s : Trainer) :
  keyed_apart (snd (_reset_losses s)).
Proof. split; simpl; [intros k [] | intros k c H; discriminate H]. Qed.

Ltac run_bind H a s1 Hm :=
  apply bind_Ok_inv in H; destruct H as [a [s1 [Hm H]]]; cbv beta in H.

Lemma update_running_keyed_apart (dataloader : DictDataLoader)
  (loss_dict : Py.dict Py.float) (count_dict : Py.dict Z)
  (task_names : list string) (s s' : Trainer) :
  (forall t, In t task_names -> Py.str_in "/" t = false) ->
  keyed_apart s ->
  update_running dataloader loss_dict count_dict task_names s = (Py.Ok tt, s') ->
  keyed_apart s'.
Proof.
  revert s. induction task_names as [| t rest IH]; intros s Hnames Hs H.
  - simpl in H. unfold ret in H. now injection H as <-.
  - cbn [update_running] in H.
    run_bind H l0 s1 H1. rewrite read_running_losses_run in H1.
    injection H1 as <- <-.
    run_bind H l s2 H2. unfold lift in H2. injection H2 as _ <-.
    run_bind H c s3 H3. unfold lift in H3. injection H3 as _ <-.
    run_bind H cf s4 H4. unfold lift in H4. injection H4 as _ <-.
    run_bind H u s5 H5. unfold assign in H5. injection H5 as _ <-.
    run_bind H c0 s6 H6. rewrite read_running_counts_run in H6.
    injection H6 as <- <-.
    run_bind H c' s7 H7. unfold lift in H7. injection H7 as _ <-.
    run_bind H u' s8 H8. unfold assign in H8. injection H8 as _ <-.
    apply IH in H; [exact H | intros t' Ht'; apply Hnames; now right |].
    destruct Hs as [Hl Hc]. split; simpl.
    + intros k Hk. apply DictFacts.keys_set in Hk as [-> | Hk];
        [apply identifier_has_slash |].
      apply DictFacts.default_get_keys in Hk as [-> | Hk];
        [apply identifier_has_slash | now apply Hl].
    + intros k c1 Hk Hpos. destruct (string_dec t k) as [<- | Hne].
      * apply Hnames. now left.
      * rewrite DictFacts.get_set_other, DictFacts.default_get_other in Hk
          by assumption.
        now apply (Hc k c1).
Qed.

Lemma aggregate_task_losses_skips (identifiers : list string)
  (metric_dict : Metrics) (s : Trainer) :
  (forall k, In k identifiers -> Py.str_in "/" k = true) ->
  (forall k c, Py.get (running_counts s) k = Some c -> 0 < c ->
               Py.str_in "/" k = false) ->
  exists s',
    aggregate_task_losses identifiers metric_dict s = (Py.Ok metric_dict, s')
    /\ running_losses s' = running_losses s
    /\ optimizer s' = optimizer s
    /\ (forall k c, Py.get (running_counts s') k = Some c -> 0 < c ->
                    Py.str_in "/" k = false).
Proof.
  revert s. induction identifiers as [| id rest IH]; intros s Hids Hc.
  - exists s. simpl. auto.
  - cbn [aggregate_task_losses].
    rewrite (bind_Ok _ _ _ _ _ (read_running_counts_run id s)).
    assert (Hslash : Py.str_in "/" id = true) by (apply Hids; now left).
    assert (Hle : (fst (Py.default_get 0 (running_counts s) id) >? 0) = false).
    { rewrite Z.gtb_ltb. apply Z.ltb_ge.
      destruct (DictFacts.default_get_value 0 (running_counts s) id) as [E | E];
        [| rewrite E; lia].
      destruct (Z.lt_ge_cases 0 (fst (Py.default_get 0 (running_counts s) id)))
        as [Hpos | Hle]; [| exact Hle].
      rewrite (Hc _ _ E Hpos) in Hslash. discriminate. }
    rewrite Hle.
    destruct (IH (with_running_counts s
                    (snd (Py.default_get 0 (running_counts s) id))))
      as [s' [Hrun [Hl [Ho Hc']]]].
    + intros k Hk. apply Hids. now right.
    + simpl. intros k c Hk Hpos. destruct (string_dec id k) as [<- | Hne].
      * rewrite DictFacts.default_get_same in Hk. injection Hk as <-.
        rewrite Z.gtb_ltb in Hle. apply Z.ltb_ge in Hle. lia.
      * rewrite DictFacts.default_get_other in Hk by assumption.
        now apply (Hc k c).
    + exists s'. auto.
Qed.

(** Whatever the losses and counts, as long as the accumulators are keyed
    apart [_aggregate_losses] emits no task-specific average: the only
    metrics are the overall loss and the rate. *)
Lemma _aggregate_losses_keyed_apart (s s' : Trainer) (metric_dict : Metrics) :
  keyed_apart s ->
  _aggregate_losses s = (Py.Ok metric_dict, s') ->
  keyed_apart s'
  /\ forall k, In k (Py.keys metric_dict) ->
               k = "model/all/train/loss" \/ k = "model/all/train/lr".
Proof.
  intros [Hl Hc] H. unfold _aggregate_losses in H.
  unfold bind at 1, get_self at 1 in H.
  destruct (aggregate_task_losses_skips (Py.keys (running_losses s)) [] s Hl Hc)
    as [s1 [Hrun [Hl1 [Ho1 Hc1]]]].
  rewrite (bind_Ok _ _ _ _ _ Hrun) in H.
  unfold bind at 1, get_self at 1 in H.
  run_bind H total s2 H2. unfold lift in H2. injection H2 as _ <-.
  run_bind H md s3 H3.
  unfold ret in H. injection H as <- <-.
  assert (Hmd : s3 = s1 /\ forall k, In k (Py.keys md) -> k = "model/all/train/loss").
  { destruct (int_sum (Py.values (running_counts s1)) >? 0).
    - run_bind H3 v s5 H5. unfold lift in H5. injection H5 as _ <-.
      unfold ret in H3. injection H3 as <- <-. split; [reflexivity |].
      intros k [<- | []]. reflexivity.
    - unfold ret in H3. injection H3 as <- <-. split; [reflexivity |].
      intros k []. }
  destruct Hmd as [-> Hmd]. split.
  - split; [now rewrite Hl1 | exact Hc1].
  - intros k Hk. apply DictFacts.keys_set in Hk as [-> | Hk]; [now right |].
    left. now apply Hmd.
Qed.

(** C2 fails on the code: [train_model] adds a task's count under the task
    name, and [_aggregate_losses] looks the count up under the identifier
    "task/dataset/split/loss".  After two batches of four examples of task
    "t" with loss 2.0, the accumulators hold 16.0 for "t/d/train/loss" and
    8 for "t", yet the metrics have no entry "t/d/train/loss" (it should be
    16.0 / 8 = 2.0); the lookup has left a count of 0 under the identifier.
    Only the overall average and the rate are there, as
    [_aggregate_losses_keyed_apart] says they must be. *)
Lemma per_task_average_is_never_emitted :
  let after :=
    snd (train_model (Sample.env Sample.keep_rate Sample.loss_two) 5
           [Sample.loader "d" "train" 2; Sample.loader "d" "valid" 3]
           (Sample.trainer Sample.constant_schedule)) in
  Py.get (running_losses after) "t/d/train/loss" = Some (Sample.ratio 16 1)
  /\ Py.get (running_counts after) "t" = Some 8
  /\ Py.get (running_counts after) "t/d/train/loss" = Some 0
  /\ Py.get (metrics after) "t/d/train/loss" = None
  /\ metrics after =
     [("model/all/train/loss", Py.Float (Sample.ratio 2 1));
      ("model/all/train/lr", Py.Float (Sample.ratio 1 1000))]
  /\ fst (_aggregate_losses after) = Py.Ok (metrics after).
Proof. vm_compute. repeat split. Qed.

(** * More of the trainer *)

(** ** The collaborators [train_model] builds *)

Section SetLogWriter.
Context {SnorkelClassifier : Type} (env : Collaborators SnorkelClassifier).

(** X1: with logging on, a writer name other than "json" and "tensorboard"
    makes [_set_log_writer] raise the ValueError "Unrecognized writer
    option" for that name; no writer is built and the trainer is left as it
    was. *)
Theorem _set_log_writer_rejects_unknown_writer (self : Trainer) :
  config.logging (config self) = true ->
  config.writer (config self) <> "json" ->
  config.writer (config self) <> "tensorboard" ->
  _set_log_writer env self =
  (Py.Raise (Py.ValueError (Py.unrecognized_writer (config.writer (config self)))),
   self).
Proof.
  intros Hl Hj Ht. unfold _set_log_writer, bind, get_self. rewrite Hl.
  apply String.eqb_neq in Hj, Ht. rewrite Hj, Ht. reflexivity.
Qed.

(** X2: when [_set_log_writer] returns, either logging is off, no writer
    was built whatever the writer name says, and [log_writer] is [None]; or
    logging is on, the name is one of the two known ones, exactly one
    writer of that kind was built, and [log_writer] holds it with the
    directory the constructor chose. *)
Theorem _set_log_writer_returns (self after : Trainer) :
  _set_log_writer env self = (Py.Ok tt, after) ->
  (config.logging (config self) = false
   /\ log_writer after = None
   /\ calls after = calls self)
  \/
  (config.logging (config self) = true
   /\ (config.writer (config self) = "json"
       \/ config.writer (config self) = "tensorboard")
   /\ calls after = calls self ++ [new_LogWriter (config.writer (config self))]
   /\ log_writer after =
      Some {| log_writer_kind := config.writer (config self);
              log_dir := LogWriter_log_dir env self |}).
Proof.
  unfold _set_log_writer, bind, get_self, call, assign, raise.
  destruct (config.logging (config self)).
  - intros H. right. split; [reflexivity |].
    destruct (String.eqb_spec (config.writer (config self)) "json") as [Ej | Ej].
    + destruct (raises env _ self); [discriminate |].
      injection H as <-. repeat split. now left.
    + destruct (String.eqb_spec (config.writer (config self)) "tensorboard")
        as [Et | Et]; [| discriminate].
      destruct (raises env _ self); [discriminate |].
      injection H as <-. repeat split. now right.
  - intros H. injection H as <-. left. repeat split.
Qed.

End SetLogWriter.

Lemma _set_log_writer_rejects_unknown_writer_witness :
  _set_log_writer (Sample.env Sample.keep_rate Sample.loss_two)
    (logged_trainer "csv" None) =
  (Py.Raise (Py.ValueError (Py.unrecognized_writer "csv")),
   logged_trainer "csv" None).
Proof.
  apply (_set_log_writer_rejects_unknown_writer
           (Sample.env Sample.keep_rate Sample.loss_two)
           (logged_trainer "csv" None)).
  - reflexivity.
  - simpl. discriminate.
  - simpl. discriminate.
Defined.

Lemma _set_log_writer_returns_witness :
  log_writer
    (snd (_set_log_writer (Sample.env Sample.keep_rate Sample.loss_two)
            (logged_trainer "json" None))) =
  Some {| log_writer_kind := "json"; log_dir := "logs" |}.
Proof.
  destruct (_set_log_writer_returns
              (Sample.env Sample.keep_rate Sample.loss_two)
              (logged_trainer "json" None)
              (snd (_set_log_writer (Sample.env Sample.keep_rate Sample.loss_two)
                      (logged_trainer "json" None)))
              eq_refl) as [[H _] | [_ [_ [_ H]]]].
  - discriminate H.
  - exact H.
Defined.

Section SetCheckpointer.
Context {SnorkelClassifier : Type} (env : Collaborators SnorkelClassifier).

(** X3: with checkpointing on, the checkpointer is built on the configured
    [checkpoint_dir]; only when none is configured does it take the log
    writer's directory, and without a writer it gets [None].  The choice is
    written back into the configuration. *)
Theorem _set_checkpointer_directory (self after : Trainer) :
  config.checkpointing (config self) = true ->
  _set_checkpointer env self = (Py.Ok tt, after) ->
  let dir :=
    match config.checkpoint_dir (config self), log_writer self with
    | Some d, _ => Some d
    | None, Some lw => Some (log_dir lw)
    | None, None => None
    end in
  calls after = calls self ++ [new_Checkpointer dir]
  /\ checkpointer after = Some {| checkpointer_dir := dir |}
  /\ config.checkpoint_dir (config after) = dir.
Proof.
  intros Hon. unfold _set_checkpointer, bind at 1, get_self at 1. rewrite Hon.
  unfold call_, call, bind, get_self, assign, ret.
  destruct (config.checkpoint_dir (config self)) as [d |] eqn:Ed.
  - cbn [fst snd config calls]. rewrite Ed.
    destruct (raises env _ self); [discriminate |].
    intros H. injection H as <-. simpl. rewrite Ed. repeat split.
  - destruct (log_writer self) as [lw |];
      cbn [config calls with_config config.set_checkpoint_dir
             config.checkpoint_dir].
    + destruct (raises env _ _); [discriminate |].
      intros H. injection H as <-. repeat split.
    + rewrite Ed. destruct (raises env _ _); [discriminate |].
      intros H. injection H as <-. simpl. rewrite Ed. repeat split.
Qed.

End SetCheckpointer.

Lemma _set_checkpointer_directory_witness :
  let env := Sample.env Sample.keep_rate Sample.loss_two in
  let written := snd (_set_log_writer env (logged_trainer "json" None)) in
  checkpointer (snd (_set_checkpointer env written)) =
  Some {| checkpointer_dir := Some "logs" |}.
Proof.
  intros env written.
  exact (proj1 (proj2 (_set_checkpointer_directory env written
                         (snd (_set_checkpointer env written))
                         eq_refl eq_refl))).
Defined.

Section SetOptimizer.
Context {SnorkelClassifier : Type} (env : Collaborators SnorkelClassifier).

(** X4: an optimizer name other than "sgd", "adam" and "adamax" makes
    [_set_optimizer] raise the ValueError "Unrecognized optimizer option"
    for that name before anything is built: the trainer is left as it
    was. *)
Theorem _set_optimizer_rejects_unknown_rule (model : SnorkelClassifier)
  (self : Trainer) :
  let opt := optimizer_config.optimizer (config.optimizer_config (config self)) in
  ~ In opt ["sgd"; "adam"; "adamax"] ->
  _set_optimizer env model self =
  (Py.Raise (Py.ValueError (Py.unrecognized_optimizer opt)), self).
Proof.
  intros opt Hnot. unfold _set_optimizer, bind at 1, get_self at 1. fold opt.
  destruct (String.eqb_spec opt "sgd") as [E | _];
    [exfalso; apply Hnot; simpl; auto |].
  destruct (String.eqb_spec opt "adam") as [E | _];
    [exfalso; apply Hnot; simpl; auto |].
  destruct (String.eqb_spec opt "adamax") as [E | _];
    [exfalso; apply Hnot; simpl; auto |].
  reflexivity.
Qed.

(** X5: when [_set_optimizer] returns it has built exactly one optimizer:
    of the configured rule, with the configured rate and weight decay, and
    with the keyword settings of that rule and of no other.  The rate the
    trainer then reads from the optimizer is the configured one. *)
Theorem _set_optimizer_returns (model : SnorkelClassifier)
  (self after : Trainer) :
  _set_optimizer env model self = (Py.Ok tt, after) ->
  let oc := config.optimizer_config (config self) in
  let opt := optimizer_config.optimizer oc in
  exists kw,
    calls after =
    calls self ++
    [new_Optimizer opt (optimizer_config.lr oc) (optimizer_config.l2 oc) kw]
    /\ (opt = "sgd" /\ kw = optimizer_config.sgd_config oc
        \/ opt = "adam" /\ kw = optimizer_config.adam_config oc
        \/ opt = "adamax" /\ kw = optimizer_config.adamax_config oc)
    /\ optimizer after =
       {| rule := opt; param_group_lr := optimizer_config.lr oc |}.
Proof.
  intros H oc opt. unfold _set_optimizer, bind at 1, get_self at 1 in H.
  fold oc opt in H. unfold call_, call, bind, assign, raise in H.
  destruct (String.eqb_spec opt "sgd") as [E | _].
  { destruct (raises env _ self); [discriminate |]. injection H as <-.
    exists (optimizer_config.sgd_config oc). repeat split. now left. }
  destruct (String.eqb_spec opt "adam") as [E | _].
  { destruct (raises env _ self); [discriminate |]. injection H as <-.
    exists (optimizer_config.adam_config oc). repeat split. right. now left. }
  destruct (String.eqb_spec opt "adamax") as [E | _]; [| discriminate].
  destruct (raises env _ self); [discriminate |]. injection H as <-.
  exists (optimizer_config.adamax_config oc). repeat split. right. now right.
Qed.

End SetOptimizer.

Lemma _set_optimizer_rejects_unknown_rule_witness :
  _set_optimizer (Sample.env Sample.keep_rate Sample.loss_two) 5
    (Trainer_init None
       (logged_cfg "json" None (optimizer_with "rmsprop" None)
          Sample.constant_schedule "shuffled")) =
  (Py.Raise (Py.ValueError (Py.unrecognized_optimizer "rmsprop")),
   Trainer_init None
     (logged_cfg "json" None (optimizer_with "rmsprop" None)
        Sample.constant_schedule "shuffled")).
Proof.
  apply (_set_optimizer_rejects_unknown_rule
           (Sample.env Sample.keep_rate Sample.loss_two) 5
           (Trainer_init None
              (logged_cfg "json" None (optimizer_with "rmsprop" None)
                 Sample.constant_schedule "shuffled"))).
  simpl. intros [H | [H | [H | []]]]; discriminate H.
Defined.

Lemma _set_optimizer_returns_witness :
  exists kw,
    calls
      (snd (_set_optimizer (Sample.env Sample.keep_rate Sample.loss_two) 5
              (Trainer_init None
                 (logged_cfg "json" None (optimizer_with "sgd" None)
                    Sample.constant_schedule "shuffled")))) =
    [new_Optimizer "sgd" (Py.Float (Sample.ratio 1 1000))
       (Py.Float (S754_zero false)) kw]
    /\ kw = [("momentum", Py.Float (Sample.ratio 9 10))].
Proof.
  destruct (_set_optimizer_returns
              (Sample.env Sample.keep_rate Sample.loss_two) 5
              (Trainer_init None
                 (logged_cfg "json" None (optimizer_with "sgd" None)
                    Sample.constant_schedule "shuffled"))
              (snd (_set_optimizer (Sample.env Sample.keep_rate Sample.loss_two) 5
                      (Trainer_init None
                         (logged_cfg "json" None (optimizer_with "sgd" None)
                            Sample.constant_schedule "shuffled"))))
              eq_refl) as [kw [Hc [Hk _]]].
  exists kw. split; [exact Hc |].
  destruct Hk as [[_ Hk] | [[H _] | [H _]]]; [exact Hk | |]; discriminate H.
Defined.

Section SetBatchScheduler.
Context {SnorkelClassifier : Type} (env : Collaborators SnorkelClassifier).

(** X6: a batch scheduler name that is not in the table of batch
    schedulers makes [_set_batch_scheduler] raise the ValueError
    "Unrecognized batch scheduler option", with nothing built and the
    trainer left as it was; a name of the table builds that one scheduler
    and is what [batch_scheduler] holds when the method returns. *)
Theorem _set_batch_scheduler_by_name (self : Trainer) :
  let name := config.batch_scheduler (config self) in
  (~ In name (batch_schedulers env) ->
   _set_batch_scheduler env self =
   (Py.Raise (Py.ValueError Py.unrecognized_batch_scheduler), self))
  /\
  (In name (batch_schedulers env) ->
   calls (snd (_set_batch_scheduler env self)) =
   calls self ++ [new_BatchScheduler name]
   /\ forall after, _set_batch_scheduler env self = (Py.Ok tt, after) ->
                    batch_scheduler after = name).
Proof.
  intros name. split.
  - intros Hnot. unfold _set_batch_scheduler, bind at 1, get_self at 1.
    fold name. destruct (Py.list_in name (batch_schedulers env)) eqn:E;
      [| reflexivity].
    apply PyFacts.list_in_In in E. contradiction.
  - intros Hin. apply PyFacts.list_in_In in Hin.
    unfold _set_batch_scheduler, call_, call, bind, get_self, assign.
    fold name. rewrite Hin.
    destruct (raises env _ self); simpl.
    + split; [reflexivity | discriminate].
    + split; [reflexivity |]. intros after H. now injection H as <-.
Qed.

End SetBatchScheduler.

Lemma _set_batch_scheduler_by_name_witness :
  _set_batch_scheduler (Sample.env Sample.keep_rate Sample.loss_two)
    (Trainer_init None
       (logged_cfg "json" None Sample.optimizer_cfg Sample.constant_schedule
          "random")) =
  (Py.Raise (Py.ValueError Py.unrecognized_batch_scheduler),
   Trainer_init None
     (logged_cfg "json" None Sample.optimizer_cfg Sample.constant_schedule
        "random"))
  /\
  calls (snd (_set_batch_scheduler (Sample.env Sample.keep_rate Sample.loss_two)
                (logged_trainer "json" None))) =
  [new_BatchScheduler "shuffled"].
Proof.
  split.
  - apply (proj1 (_set_batch_scheduler_by_name
                    (Sample.env Sample.keep_rate Sample.loss_two)
                    (Trainer_init None
                       (logged_cfg "json" None Sample.optimizer_cfg
                          Sample.constant_schedule "random")))).
    simpl. intros [H | [H | []]]; discriminate H.
  - apply (proj2 (_set_batch_scheduler_by_name
                    (Sample.env Sample.keep_rate Sample.loss_two)
                    (logged_trainer "json" None))).
    simpl. auto.
Defined.

(** ** The schedule of the learning rate *)

Lemma one_is_one : Py.float_of_int 1 = Py.Ok one.
Proof. reflexivity. Qed.

(** [n / n] is exactly 1.0, whatever the size of [n]. *)
Lemma int_truediv_same (n : Z) : n <> 0 -> Py.int_truediv n n = Py.Ok one.
Proof.
  intros Hn. unfold Py.int_truediv.
  destruct (Z.eqb_spec n 0) as [E | _]; [contradiction |].
  destruct (Z.eqb_spec (Z.abs n) 0) as [E | Habs]; [lia |].
  rewrite xorb_nilpotent.
  replace (55 + Z.log2 (Z.abs n) - Z.log2 (Z.abs n)) with 55 by lia.
  change (Z.max 0 55) with 55.
  rewrite (Z.mul_comm (Z.abs n)), Z.div_mul, Z.mod_mul by assumption.
  reflexivity.
Qed.

(** [0 / n] is a zero. *)
Lemma int_truediv_zero (n : Z) :
  n <> 0 -> exists z, Py.int_truediv 0 n = Py.Ok z /\ Py.is_zero z = true.
Proof.
  intros Hn. unfold Py.int_truediv.
  destruct (Z.eqb_spec n 0) as [E | _]; [contradiction |].
  simpl. eexists. split; reflexivity.
Qed.

(** X7: the two multipliers at their ends.  With [warmup_steps] not zero,
    the warmup multiplier [x / warmup_steps] is a zero at [x = 0] and
    exactly 1.0 at [x = warmup_steps].  The decay multiplier
    [(total_steps - warmup_steps - x) / (total_steps - warmup_steps)] is
    exactly 1.0 at [x = 0] and a zero at [x = total_steps - warmup_steps];
    and when the warmup covers all of [total_steps] it divides by zero at
    every [x]. *)
Theorem lr_lambdas_at_their_ends (self : Trainer) (total_steps : Z) :
  (warmup_steps self <> 0 ->
   (exists z, call_lr_lambda self linear_warmup_func 0 = Py.Ok z
              /\ Py.is_zero z = true)
   /\ call_lr_lambda self linear_warmup_func (warmup_steps self) = Py.Ok one)
  /\
  (total_steps <> warmup_steps self ->
   call_lr_lambda self (linear_decay_func total_steps) 0 = Py.Ok one
   /\ exists z, call_lr_lambda self (linear_decay_func total_steps)
                  (total_steps - warmup_steps self) = Py.Ok z
                /\ Py.is_zero z = true)
  /\
  (total_steps = warmup_steps self ->
   forall x, call_lr_lambda self (linear_decay_func total_steps) x =
             Py.Raise Py.ZeroDivisionError).
Proof.
  unfold call_lr_lambda, Py.truediv. split; [| split].
  - intros Hw. split; [now apply int_truediv_zero | now apply int_truediv_same].
  - intros Hne. rewrite Z.sub_0_r, Z.sub_diag.
    split; [apply int_truediv_same | apply int_truediv_zero]; lia.
  - intros -> x. rewrite Z.sub_diag. unfold Py.int_truediv. reflexivity.
Qed.

Lemma lr_lambdas_at_their_ends_witness :
  call_lr_lambda scheduled_trainer linear_warmup_func 5 = Py.Ok one
  /\ call_lr_lambda scheduled_trainer (linear_decay_func 20) 0 = Py.Ok one
  /\ call_lr_lambda scheduled_trainer (linear_decay_func 5) 3 =
     Py.Raise Py.ZeroDivisionError.
Proof.
  split; [| split].
  - apply (proj1 (lr_lambdas_at_their_ends scheduled_trainer 20)).
    simpl. lia.
  - apply (proj1 (proj2 (lr_lambdas_at_their_ends scheduled_trainer 20))).
    simpl. lia.
  - apply (proj2 (proj2 (lr_lambdas_at_their_ends scheduled_trainer 5))).
    reflexivity.
Defined.

Section SetLrScheduler.
Context {SnorkelClassifier : Type} (env : Collaborators SnorkelClassifier).

(** Building the warmup schedule leaves the configuration and the number
    of batches of an epoch as they are. *)
Lemma _set_warmup_scheduler_keeps_config :
  preserves (same_on (fun s => (config s, n_batches_per_epoch s)))
    (_set_warmup_scheduler env).
Proof.
  unfold _set_warmup_scheduler, build_scheduler, set_lr.
  frame_with side_same.
Qed.

(** X8: the decay policy is looked at only after the warmup schedule is in
    place.  A policy other than "constant", "linear", "exponential" and
    "step" raises the ValueError "Unrecognized lr scheduler option" for
    that name, and the trainer it leaves is the one [_set_warmup_scheduler]
    has left: a warmup scheduler that was built stays built. *)
Theorem _set_lr_scheduler_rejects_unknown_policy_after_warmup
  (self warmed : Trainer) :
  let policy :=
    lr_scheduler_config.lr_scheduler (config.lr_scheduler_config (config self)) in
  ~ In policy ["constant"; "linear"; "exponential"; "step"] ->
  _set_warmup_scheduler env self = (Py.Ok tt, warmed) ->
  _set_lr_scheduler env self =
  (Py.Raise (Py.ValueError (Py.unrecognized_lr_scheduler policy)), warmed).
Proof.
  intros policy Hnot Hwarm.
  pose proof (_set_warmup_scheduler_keeps_config self) as Hcfg.
  rewrite Hwarm in Hcfg. unfold same_on in Hcfg. simpl in Hcfg.
  injection Hcfg as Hcfg _.
  unfold _set_lr_scheduler. rewrite (bind_Ok _ _ _ _ _ Hwarm).
  unfold bind at 1, get_self at 1. rewrite Hcfg. fold policy.
  destruct (String.eqb_spec policy "constant") as [E | _];
    [exfalso; apply Hnot; simpl; auto |].
  destruct (String.eqb_spec policy "linear") as [E | _];
    [exfalso; apply Hnot; simpl; auto |].
  destruct (String.eqb_spec policy "exponential") as [E | _];
    [exfalso; apply Hnot; simpl; auto |].
  destruct (String.eqb_spec policy "step") as [E | _];
    [exfalso; apply Hnot; simpl; auto 6 |].
  reflexivity.
Qed.

(** X9: with the "linear" policy, the decay scheduler [_set_lr_scheduler]
    leaves in the trainer is the lambda scheduler over
    [n_batches_per_epoch * n_epochs] steps, the values the trainer had
    when the method was called. *)
Theorem _set_lr_scheduler_linear_total_steps (self after : Trainer) :
  lr_scheduler_config.lr_scheduler (config.lr_scheduler_config (config self)) =
  "linear" ->
  _set_lr_scheduler env self = (Py.Ok tt, after) ->
  lr_scheduler after =
  Some (LambdaLR
          (linear_decay_func
             (n_batches_per_epoch self * config.n_epochs (config self)))).
Proof.
  intros Hpolicy H. unfold _set_lr_scheduler in H.
  run_bind H u warmed Hwarm.
  pose proof (_set_warmup_scheduler_keeps_config self) as Hcfg.
  rewrite Hwarm in Hcfg. unfold same_on in Hcfg. simpl in Hcfg.
  injection Hcfg as Hcfg Hn.
  unfold bind at 1, get_self at 1 in H. rewrite Hcfg, Hn, Hpolicy in H.
  cbn [String.eqb Ascii.eqb Bool.eqb] in H.
  unfold build_scheduler, set_lr, bind, call, assign, ret in H.
  destruct (raises env _ warmed); [discriminate |].
  now injection H as <-.
Qed.

(** X10: with the "constant" policy and neither a warmup count nor a
    warmup percentage in force, [_set_lr_scheduler] builds no scheduler at
    all and leaves the optimizer alone; and on the trainer it leaves,
    [_update_lr_scheduler] does nothing at any step: the trainer stays
    as it is, the rate with it. *)
Theorem constant_policy_without_warmup_never_updates (self : Trainer) :
  let lc := config.lr_scheduler_config (config self) in
  lr_scheduler_config.lr_scheduler lc = "constant" ->
  Py.if_truthy (lr_scheduler_config.warmup_steps lc) = None ->
  Py.if_truthy (lr_scheduler_config.warmup_percentage lc) = None ->
  let after := snd (_set_lr_scheduler env self) in
  fst (_set_lr_scheduler env self) = Py.Ok tt
  /\ calls after = calls self
  /\ optimizer after = optimizer self
  /\ forall step, _update_lr_scheduler env step after = (Py.Ok tt, after).
Proof.
  intros lc Hpolicy Hsteps Hpct after.
  assert (E : _set_lr_scheduler env self =
              (Py.Ok tt,
               with_lr_scheduler
                 (with_warmup_scheduler (with_warmup_steps self 0) None) None)).
  { unfold _set_lr_scheduler, _set_warmup_scheduler, bind, get_self, assign, ret.
    fold lc. rewrite Hsteps, Hpct.
    cbn [config with_warmup_scheduler with_warmup_steps]. fold lc.
    rewrite Hpolicy. reflexivity. }
  subst after. rewrite E. repeat split.
Qed.

End SetLrScheduler.

Lemma _set_lr_scheduler_rejects_unknown_policy_after_warmup_witness :
  let env := Sample.env Sample.keep_rate Sample.loss_two in
  let self :=
    Sample.trainer (Sample.schedule "cosine" (Some (Py.Int 3)) "batches" None None) in
  fst (_set_lr_scheduler env self) =
  Py.Raise (Py.ValueError (Py.unrecognized_lr_scheduler "cosine"))
  /\ calls (snd (_set_lr_scheduler env self)) =
     [new_Scheduler (LambdaLR linear_warmup_func)]
  /\ warmup_steps (snd (_set_lr_scheduler env self)) = 3.
Proof.
  intros env self.
  assert (Hnot : ~ In "cosine" ["constant"; "linear"; "exponential"; "step"]).
  { simpl. intros [H | [H | [H | [H | []]]]]; discriminate H. }
  rewrite (_set_lr_scheduler_rejects_unknown_policy_after_warmup env self
             (snd (_set_warmup_scheduler env self)) Hnot eq_refl).
  repeat split.
Defined.

Lemma _set_lr_scheduler_linear_total_steps_witness :
  lr_scheduler
    (snd (_set_lr_scheduler (Sample.env Sample.keep_rate Sample.loss_two)
            (with_n_batches_per_epoch
               (Sample.trainer (Sample.schedule "linear" None "batches" None None))
               7))) =
  Some (LambdaLR (linear_decay_func 7)).
Proof.
  exact (_set_lr_scheduler_linear_total_steps
           (Sample.env Sample.keep_rate Sample.loss_two)
           (with_n_batches_per_epoch
              (Sample.trainer (Sample.schedule "linear" None "batches" None None))
              7)
           (snd (_set_lr_scheduler (Sample.env Sample.keep_rate Sample.loss_two)
                   (with_n_batches_per_epoch
                      (Sample.trainer
                         (Sample.schedule "linear" None "batches" None None))
                      7)))
           eq_refl eq_refl).
Defined.

Lemma constant_policy_without_warmup_never_updates_witness :
  _update_lr_scheduler (Sample.env low_rate Sample.loss_two) 4
    (snd (_set_lr_scheduler (Sample.env low_rate Sample.loss_two)
            (Sample.trainer Sample.constant_schedule))) =
  (Py.Ok tt,
   snd (_set_lr_scheduler (Sample.env low_rate Sample.loss_two)
          (Sample.trainer Sample.constant_schedule))).
Proof.
  apply (constant_policy_without_warmup_never_updates
           (Sample.env low_rate Sample.loss_two)
           (Sample.trainer Sample.constant_schedule) eq_refl eq_refl eq_refl).
Defined.

Section WarmupOptions.
Context {SnorkelClassifier : Type} (env : Collaborators SnorkelClassifier).

(** X11: a whole, positive explicit count decides the warmup alone,
    whatever [warmup_percentage] says: counted in "batches" it is
    [warmup_steps] itself, counted in "epochs" it is multiplied by
    [n_batches_per_epoch]; and one warmup scheduler is built. *)
Theorem explicit_warmup_count_in_its_unit (self : Trainer) (n : Z) :
  let lc := config.lr_scheduler_config (config self) in
  lr_scheduler_config.warmup_steps lc = Some (Py.Int n) ->
  0 < n ->
  let after := snd (_set_warmup_scheduler env self) in
  (lr_scheduler_config.warmup_unit lc = "batches" -> warmup_steps after = n)
  /\ (lr_scheduler_config.warmup_unit lc = "epochs" ->
      warmup_steps after = n * n_batches_per_epoch self)
  /\ (lr_scheduler_config.warmup_unit lc = "batches"
      \/ lr_scheduler_config.warmup_unit lc = "epochs" ->
      calls after = calls self ++ [new_Scheduler (LambdaLR linear_warmup_func)]).
Proof.
  intros lc Hcount Hpos after.
  assert (Htrue : Py.if_truthy (lr_scheduler_config.warmup_steps lc) =
                  Some (Py.Int n)).
  { rewrite Hcount. simpl. destruct (Z.eqb_spec n 0); [lia | reflexivity]. }
  assert (Hnonneg : Py.lt (Py.Int n) (Py.Int 0) = false).
  { unfold Py.lt, Py.compare. destruct (Z.compare_spec n 0); try reflexivity. lia. }
  assert (Hb : lr_scheduler_config.warmup_unit lc = "batches" ->
               _set_warmup_scheduler env self = build_warmup env n self).
  { intros Hu. apply _set_warmup_scheduler_explicit with (Py.Int n);
      [exact Htrue | exact Hnonneg |].
    unfold explicit_steps. fold lc. rewrite Hu. reflexivity. }
  assert (He : lr_scheduler_config.warmup_unit lc = "epochs" ->
               _set_warmup_scheduler env self =
               build_warmup env (n * n_batches_per_epoch self) self).
  { intros Hu. apply _set_warmup_scheduler_explicit with (Py.Int n);
      [exact Htrue | exact Hnonneg |].
    unfold explicit_steps. fold lc. rewrite Hu. reflexivity. }
  subst after. split; [| split].
  - intros Hu. rewrite (Hb Hu). apply build_warmup_spec.
  - intros Hu. rewrite (He Hu). apply build_warmup_spec.
  - intros [Hu | Hu]; [rewrite (Hb Hu) | rewrite (He Hu)];
      apply build_warmup_spec.
Qed.

(** X12: an explicit count that is in force and not negative, with a
    [warmup_unit] other than "epochs" and "batches", makes
    [_set_warmup_scheduler] raise the ValueError that names the unit;
    nothing is built and the trainer is left as it was. *)
Theorem _set_warmup_scheduler_rejects_unknown_unit (self : Trainer)
  (count : Py.num) :
  let lc := config.lr_scheduler_config (config self) in
  Py.if_truthy (lr_scheduler_config.warmup_steps lc) = Some count ->
  Py.lt count (Py.Int 0) = false ->
  lr_scheduler_config.warmup_unit lc <> "epochs" ->
  lr_scheduler_config.warmup_unit lc <> "batches" ->
  _set_warmup_scheduler env self =
  (Py.Raise (Py.ValueError
               (Py.bad_warmup_unit (lr_scheduler_config.warmup_unit lc))),
   self).
Proof.
  intros lc Hcount Hnonneg He Hb.
  unfold _set_warmup_scheduler, bind at 1, get_self at 1. fold lc.
  rewrite Hcount, Hnonneg.
  apply String.eqb_neq in He, Hb. rewrite He, Hb. reflexivity.
Qed.

(** X13: the floor [min_lr] is not applied on a warmup step.  With a
    warmup scheduler and [step < warmup_steps], the rate the update leaves
    at the optimizer is the one the warmup scheduler has written, also
    when it is below [min_lr]. *)
Theorem warmup_step_ignores_min_lr (step : Z) (self : Trainer) (w : Scheduler) :
  warmup_scheduler self = Some w ->
  step < warmup_steps self ->
  raises env (scheduler_step w) self = None ->
  _update_lr_scheduler env step self =
  (Py.Ok tt,
   with_optimizer (with_calls self (calls self ++ [scheduler_step w]))
     {| rule := rule (optimizer self);
        param_group_lr := scheduled_lr env w self |}).
Proof.
  intros Hw Hlt Hret.
  rewrite (_update_lr_scheduler_warmup env step self w Hw Hlt).
  now apply step_scheduler_returns.
Qed.

End WarmupOptions.

Lemma explicit_warmup_count_in_its_unit_witness :
  warmup_steps
    (snd (_set_warmup_scheduler (Sample.env Sample.keep_rate Sample.loss_two)
            (with_n_batches_per_epoch
               (Sample.trainer
                  (Sample.schedule "constant" (Some (Py.Int 2)) "epochs"
                     (Some (Py.Float (Sample.ratio 1 2))) None))
               10))) = 20.
Proof.
  apply (proj1 (proj2 (explicit_warmup_count_in_its_unit
                         (Sample.env Sample.keep_rate Sample.loss_two)
                         (with_n_batches_per_epoch
                            (Sample.trainer
                               (Sample.schedule "constant" (Some (Py.Int 2))
                                  "epochs"
                                  (Some (Py.Float (Sample.ratio 1 2))) None))
                            10)
                         2 eq_refl eq_refl))).
  reflexivity.
Defined.

Lemma _set_warmup_scheduler_rejects_unknown_unit_witness :
  _set_warmup_scheduler (Sample.env Sample.keep_rate Sample.loss_two)
    (Sample.trainer
       (Sample.schedule "constant" (Some (Py.Int 2)) "steps" None None)) =
  (Py.Raise (Py.ValueError (Py.bad_warmup_unit "steps")),
   Sample.trainer
     (Sample.schedule "constant" (Some (Py.Int 2)) "steps" None None)).
Proof.
  apply (_set_warmup_scheduler_rejects_unknown_unit
           (Sample.env Sample.keep_rate Sample.loss_two)
           (Sample.trainer
              (Sample.schedule "constant" (Some (Py.Int 2)) "steps" None None))
           (Py.Int 2) eq_refl eq_refl).
  - simpl. discriminate.
  - simpl. discriminate.
Defined.

Lemma warmup_step_ignores_min_lr_witness :
  Py.lt (low_rate (LambdaLR linear_warmup_func) scheduled_trainer)
    (Py.Float (Sample.ratio 1 1000)) = true
  /\ param_group_lr
       (optimizer
          (snd (_update_lr_scheduler (Sample.env low_rate Sample.loss_two) 2
                  scheduled_trainer))) =
     Py.Float (Sample.ratio 1 10000).
Proof.
  split; [reflexivity |].
  assert (Hlt : 2 < warmup_steps scheduled_trainer) by (simpl; lia).
  rewrite (warmup_step_ignores_min_lr (Sample.env low_rate Sample.loss_two) 2
             scheduled_trainer (LambdaLR linear_warmup_func)
             eq_refl Hlt eq_refl).
  reflexivity.
Defined.

(** ** Writing the metrics *)

Section LogMetrics.
Context {SnorkelClassifier : Type} (env : Collaborators SnorkelClassifier).

Lemma add_scalars_run (metric_dict : Metrics) (s s' : Trainer) :
  for_each
    (fun kv =>
       s <- get_self ;;
       call_ env (log_writer_add_scalar (fst kv) (snd kv) (point_total env s)))
    metric_dict s = (Py.Ok tt, s') ->
  exists steps,
    List.length steps = List.length metric_dict
    /\ calls s' = calls s ++ scalars_written metric_dict steps.
Proof.
  revert s. induction metric_dict as [| kv rest IH]; intros s H.
  - simpl in H. unfold ret in H. injection H as <-.
    exists []. split; [reflexivity |]. simpl. now rewrite app_nil_r.
  - cbn [for_each] in H. run_bind H u s1 H1.
    unfold bind, get_self, call_, call in H1.
    destruct (raises env _ s); [discriminate |]. injection H1 as _ <-.
    destruct (IH _ H) as [steps [Hlen Hcalls]].
    exists (point_total env s :: steps). split; [simpl; now rewrite Hlen |].
    rewrite Hcalls. cbn [calls with_calls]. rewrite <- app_assoc. reflexivity.
Qed.

(** X14: [_log_metrics] that returns has, with a log writer, written every
    metric of the dictionary once, in the order of the dictionary, each
    under its own name and with its own value, and made no other call;
    without a log writer it has done nothing. *)
Theorem _log_metrics_writes_every_metric_in_order (metric_dict : Metrics)
  (self after : Trainer) :
  _log_metrics env metric_dict self = (Py.Ok tt, after) ->
  (log_writer self = None -> after = self)
  /\ (log_writer self <> None ->
      exists steps,
        List.length steps = List.length metric_dict
        /\ calls after = calls self ++ scalars_written metric_dict steps).
Proof.
  unfold _log_metrics, bind at 1, get_self at 1.
  destruct (log_writer self) as [lw |]; intros H.
  - split; [discriminate |]. intros _. now apply add_scalars_run.
  - unfold ret in H. injection H as <-. split; [reflexivity |].
    intros Hne. now contradiction Hne.
Qed.

End LogMetrics.

Lemma _log_metrics_writes_every_metric_in_order_witness :
  exists steps,
    calls
      (snd (_log_metrics (Sample.env Sample.keep_rate Sample.loss_two)
              [("a", Py.Int 1); ("b", Py.Int 2)]
              (with_log_writer (logged_trainer "json" None)
                 (Some {| log_writer_kind := "json"; log_dir := "logs" |})))) =
    scalars_written [("a", Py.Int 1); ("b", Py.Int 2)] steps.
Proof.
  destruct (_log_metrics_writes_every_metric_in_order
              (Sample.env Sample.keep_rate Sample.loss_two)
              [("a", Py.Int 1); ("b", Py.Int 2)]
              (with_log_writer (logged_trainer "json" None)
                 (Some {| log_writer_kind := "json"; log_dir := "logs" |}))
              (snd (_log_metrics (Sample.env Sample.keep_rate Sample.loss_two)
                      [("a", Py.Int 1); ("b", Py.Int 2)]
                      (with_log_writer (logged_trainer "json" None)
                         (Some {| log_writer_kind := "json";
                                  log_dir := "logs" |}))))
              eq_refl) as [_ H].
  destruct H as [steps [_ H]]; [discriminate |].
  exists steps. exact H.
Defined.

(** ** What [_aggregate_losses] reads and what it leaves behind *)

Lemma with_running_losses_same (s : Trainer) :
  with_running_losses s (running_losses s) = s.
Proof. destruct s; reflexivity. Qed.

Lemma with_running_counts_same (s : Trainer) :
  with_running_counts s (running_counts s) = s.
Proof. destruct s; reflexivity. Qed.

Lemma get_present {V} (d : Py.dict V) (k : string) :
  In k (Py.keys d) -> exists v, Py.get d k = Some v.
Proof.
  unfold Py.keys. induction d as [| [k' v'] d IH]; simpl; [intros [] |].
  intros [-> | H].
  - rewrite String.eqb_refl. eauto.
  - destruct (String.eqb k k'); eauto.
Qed.

Lemma default_get_present {V} (z : V) (d : Py.dict V) (k : string) (v : V) :
  Py.get d k = Some v -> Py.default_get z d k = (v, d).
Proof. intros H. unfold Py.default_get. now rewrite H. Qed.

(** The 0 a lookup leaves does not change the sum of the counts. *)
Lemma int_sum_set_zero (d : Py.dict Z) (k : string) :
  Py.get d k = None ->
  int_sum (Py.values (Py.set d k 0)) = int_sum (Py.values d).
Proof.
  unfold Py.values. induction d as [| [k' v'] d IH]; simpl; [reflexivity |].
  destruct (String.eqb k k'); [discriminate |]. intros H. simpl.
  rewrite !int_sum_cons, (IH H). reflexivity.
Qed.

Lemma int_sum_default_get (d : Py.dict Z) (k : string) :
  int_sum (Py.values (snd (Py.default_get 0 d k))) = int_sum (Py.values d).
Proof.
  unfold Py.default_get. destruct (Py.get d k) eqn:E; simpl;
    [reflexivity | now apply int_sum_set_zero].
Qed.

Lemma count_after_lookup_step (counts : Py.dict Z) (identifier : string)
  (rest : list string) (k : string) :
  count_after_lookup (snd (Py.default_get 0 counts identifier)) rest k =
  count_after_lookup counts (identifier :: rest) k.
Proof.
  unfold count_after_lookup. cbn [Py.list_in existsb].
  destruct (String.eqb_spec k identifier) as [-> | Hne].
  - rewrite DictFacts.default_get_same. unfold Py.default_get.
    destruct (Py.get counts identifier); reflexivity.
  - rewrite DictFacts.default_get_other by congruence. reflexivity.
Qed.

(** The loop over the identifiers only touches [running_counts]: the sum
    of the counts stays, and when the loop ends every identifier has a
    count. *)
Lemma aggregate_task_losses_run (identifiers : list string)
  (metric_dict : Metrics) (s : Trainer) :
  (forall k, In k identifiers -> In k (Py.keys (running_losses s))) ->
  exists counts,
    snd (aggregate_task_losses identifiers metric_dict s) =
    with_running_counts s counts
    /\ int_sum (Py.values counts) = int_sum (Py.values (running_counts s))
    /\ forall metrics,
         fst (aggregate_task_losses identifiers metric_dict s) = Py.Ok metrics ->
         forall k, Py.get counts k =
                   count_after_lookup (running_counts s) identifiers k.
Proof.
  revert metric_dict s.
  induction identifiers as [| id rest IH]; intros metric_dict s Hids.
  - exists (running_counts s). simpl. split; [| split].
    + symmetry. apply with_running_counts_same.
    + reflexivity.
    + intros _ _ k. unfold count_after_lookup.
      destruct (Py.get (running_counts s) k); reflexivity.
  - cbn [aggregate_task_losses].
    rewrite (bind_Ok _ _ _ _ _ (read_running_counts_run id s)).
    set (c := fst (Py.default_get 0 (running_counts s) id)).
    set (d1 := snd (Py.default_get 0 (running_counts s) id)).
    set (s1 := with_running_counts s d1).
    assert (Hrest : forall k, In k rest -> In k (Py.keys (running_losses s1)))
      by (intros k Hk; apply Hids; now right).
    assert (Hsum : int_sum (Py.values d1) =
                   int_sum (Py.values (running_counts s)))
      by apply int_sum_default_get.
    assert (Hstep : forall metric_dict',
              exists counts,
                snd (aggregate_task_losses rest metric_dict' s1) =
                with_running_counts s counts
                /\ int_sum (Py.values counts) =
                   int_sum (Py.values (running_counts s))
                /\ forall metrics,
                     fst (aggregate_task_losses rest metric_dict' s1) =
                     Py.Ok metrics ->
                     forall k, Py.get counts k =
                               count_after_lookup (running_counts s)
                                 (id :: rest) k).
    { intros metric_dict'.
      destruct (IH metric_dict' s1 Hrest) as [counts [Hs [Hi Hk]]].
      exists counts. split; [rewrite Hs; reflexivity |].
      split; [now rewrite Hi |].
      intros metrics Hok k. rewrite (Hk metrics Hok k).
      apply count_after_lookup_step. }
    destruct (c >? 0); [| apply Hstep].
    destruct (get_present (running_losses s) id) as [l Hl];
      [apply Hids; now left |].
    assert (Hread : read_running_losses id s1 = (Py.Ok l, s1)).
    { rewrite read_running_losses_run. cbn [running_losses s1 with_running_counts].
      rewrite (default_get_present _ _ _ _ Hl). cbn [fst snd].
      exact (f_equal (pair (Py.Ok l)) (with_running_losses_same s1)). }
    rewrite (bind_Ok _ _ _ _ _ Hread).
    assert (Hagain : read_running_counts id s1 = (Py.Ok c, s1)).
    { rewrite read_running_counts_run. cbn [running_counts s1 with_running_counts].
      rewrite (default_get_present _ _ _ c (DictFacts.default_get_same 0 _ id)).
      cbn [fst snd].
      exact (f_equal (pair (Py.Ok c)) (with_running_counts_same s1)). }
    rewrite (bind_Ok _ _ _ _ _ Hagain).
    unfold bind at 1, lift at 1.
    destruct (Py.truediv (Py.Float l) (Py.Int c)) as [v | e]; [apply Hstep |].
    exists d1. split; [reflexivity |]. split; [exact Hsum |].
    intros metrics Hok. discriminate Hok.
Qed.

Lemma _aggregate_losses_run (self after : Trainer) (metric_dict : Metrics) :
  _aggregate_losses self = (Py.Ok metric_dict, after) ->
  exists counts tasks total,
    after = with_running_counts self counts
    /\ int_sum (Py.values counts) = int_sum (Py.values (running_counts self))
    /\ (forall k, Py.get counts k =
                  count_after_lookup (running_counts self)
                    (Py.keys (running_losses self)) k)
    /\ Py.sum (map Py.Float (Py.values (running_losses self))) = Py.Ok total
    /\ (if int_sum (Py.values (running_counts self)) >? 0
        then exists v,
               Py.truediv total
                 (Py.Int (int_sum (Py.values (running_counts self)))) = Py.Ok v
               /\ metric_dict =
                  Py.set (Py.set tasks "model/all/train/loss" (Py.Float v))
                    "model/all/train/lr" (param_group_lr (optimizer self))
        else metric_dict =
             Py.set tasks "model/all/train/lr" (param_group_lr (optimizer self))).
Proof.
  intros H. unfold _aggregate_losses in H.
  unfold bind at 1, get_self at 1 in H.
  destruct (aggregate_task_losses_run (Py.keys (running_losses self)) [] self)
    as [counts [Hs [Hsum Hk]]]; [auto |].
  run_bind H tasks s1 H1.
  rewrite H1 in Hs, Hk. simpl in Hs. subst s1.
  specialize (Hk tasks eq_refl).
  unfold bind at 1, get_self at 1 in H.
  cbn [running_losses running_counts optimizer with_running_counts] in H.
  run_bind H total s2 H2. unfold lift in H2. injection H2 as H2 <-.
  rewrite Hsum in H.
  exists counts, tasks, total.
  split; [| split; [exact Hsum | split; [exact Hk | split; [exact H2 |]]]].
  - destruct (int_sum (Py.values (running_counts self)) >? 0).
    + run_bind H md s3 H3. run_bind H3 v s4 H4.
      unfold lift in H4. injection H4 as _ <-.
      unfold ret in H3, H. injection H3 as _ <-. now injection H as _ <-.
    + unfold bind, ret in H. now injection H as _ <-.
  - destruct (int_sum (Py.values (running_counts self)) >? 0).
    + run_bind H md s3 H3. run_bind H3 v s4 H4.
      unfold lift in H4. injection H4 as H4 <-.
      unfold ret in H3, H. injection H3 as <- <-. injection H as <- _.
      exists v. split; [exact H4 | reflexivity].
    + unfold bind, ret in H. now injection H as <- _.
Qed.

(** X15: the metrics [_aggregate_losses] returns always hold the rate:
    under "model/all/train/lr" stands the rate the optimizer has. *)
Theorem _aggregate_losses_reports_the_rate (self after : Trainer)
  (metric_dict : Metrics) :
  _aggregate_losses self = (Py.Ok metric_dict, after) ->
  Py.get metric_dict "model/all/train/lr" =
  Some (param_group_lr (optimizer self)).
Proof.
  intros H.
  destruct (_aggregate_losses_run _ _ _ H)
    as [counts [tasks [total [_ [_ [_ [_ Hmd]]]]]]].
  destruct (int_sum (Py.values (running_counts self)) >? 0).
  - destruct Hmd as [v [_ ->]]. apply DictFacts.get_set.
  - rewrite Hmd. apply DictFacts.get_set.
Qed.

(** X16: the overall loss is a micro-average.  When the counts sum to
    more than zero, "model/all/train/loss" is the sum of all running
    losses, added up from the left starting at the int 0, divided by the
    sum of all counts, whatever the keys the losses and the counts are
    stored under. *)
Theorem _aggregate_losses_overall_average (self after : Trainer)
  (metric_dict : Metrics) :
  _aggregate_losses self = (Py.Ok metric_dict, after) ->
  0 < int_sum (Py.values (running_counts self)) ->
  exists total v,
    Py.sum (map Py.Float (Py.values (running_losses self))) = Py.Ok total
    /\ Py.truediv total (Py.Int (int_sum (Py.values (running_counts self)))) =
       Py.Ok v
    /\ Py.get metric_dict "model/all/train/loss" = Some (Py.Float v).
Proof.
  intros H Hpos.
  destruct (_aggregate_losses_run _ _ _ H)
    as [counts [tasks [total [_ [_ [_ [Htotal Hmd]]]]]]].
  apply Z.gt_lt_iff, Z.gtb_gt in Hpos. rewrite Hpos in Hmd.
  destruct Hmd as [v [Hv ->]]. exists total, v.
  split; [exact Htotal | split; [exact Hv |]].
  rewrite DictFacts.get_set_other by discriminate. apply DictFacts.get_set.
Qed.

(** X17: reading the averages writes to the trainer.  [_aggregate_losses]
    that returns has changed nothing but [running_counts], and there only
    this: every key of [running_losses] that had no count now has the
    count 0.  The counts that were there stay, and so does their sum. *)
Theorem _aggregate_losses_leaves_zero_counts (self after : Trainer)
  (metric_dict : Metrics) :
  _aggregate_losses self = (Py.Ok metric_dict, after) ->
  after = with_running_counts self (running_counts after)
  /\ (forall k, Py.get (running_counts after) k =
                count_after_lookup (running_counts self)
                  (Py.keys (running_losses self)) k)
  /\ int_sum (Py.values (running_counts after)) =
     int_sum (Py.values (running_counts self)).
Proof.
  intros H.
  destruct (_aggregate_losses_run _ _ _ H)
    as [counts [tasks [total [-> [Hsum [Hk _]]]]]].
  simpl. auto.
Qed.

Lemma _aggregate_losses_reports_the_rate_witness :
  Py.get
    (match fst (_aggregate_losses accumulated_trainer) with
     | Py.Ok metric_dict => metric_dict
     | Py.Raise _ => []
     end) "model/all/train/lr" =
  Some (Py.Float (Sample.ratio 1 1000)).
Proof.
  exact (_aggregate_losses_reports_the_rate accumulated_trainer
           (snd (_aggregate_losses accumulated_trainer))
           (match fst (_aggregate_losses accumulated_trainer) with
            | Py.Ok metric_dict => metric_dict
            | Py.Raise _ => []
            end)
           eq_refl).
Defined.

Lemma _aggregate_losses_overall_average_witness :
  exists total v,
    Py.sum (map Py.Float (Py.values (running_losses accumulated_trainer))) =
    Py.Ok total
    /\ Py.truediv total (Py.Int 8) = Py.Ok v
    /\ Py.get
         (match fst (_aggregate_losses accumulated_trainer) with
          | Py.Ok metric_dict => metric_dict
          | Py.Raise _ => []
          end) "model/all/train/loss" = Some (Py.Float v).
Proof.
  assert (Hpos : 0 < int_sum (Py.values (running_counts accumulated_trainer)))
    by (vm_compute; reflexivity).
  exact (_aggregate_losses_overall_average accumulated_trainer
           (snd (_aggregate_losses accumulated_trainer))
           (match fst (_aggregate_losses accumulated_trainer) with
            | Py.Ok metric_dict => metric_dict
            | Py.Raise _ => []
            end)
           eq_refl Hpos).
Defined.

Lemma _aggregate_losses_leaves_zero_counts_witness :
  Py.get (running_counts (snd (_aggregate_losses accumulated_trainer)))
    "t/d/train/loss" = Some 0
  /\ Py.get (running_counts (snd (_aggregate_losses accumulated_trainer))) "t" =
     Some 8.
Proof.
  destruct (_aggregate_losses_leaves_zero_counts accumulated_trainer
              (snd (_aggregate_losses accumulated_trainer))
              (match fst (_aggregate_losses accumulated_trainer) with
               | Py.Ok metric_dict => metric_dict
               | Py.Raise _ => []
               end)
              eq_refl) as [_ [Hk _]].
  rewrite !Hk. split; reflexivity.
Defined.

(** ** [_logging] *)

#[local] Instance carries_preorder (P : Trainer -> Prop) : PreOrder (carries P).
Proof.
  split.
  - intros s H. exact H.
  - intros s1 s2 s3 H12 H23 H. exact (H23 (H12 H)).
Qed.

Ltac side_carries := intros [? ?]; split; simpl; auto.
Ltac side_any :=
  first [ apply grows_same; reflexivity
        | eapply grows_one; [reflexivity | exact I] ].

Lemma call_Ok_inv {SnorkelClassifier A} (env : Collaborators SnorkelClassifier)
  (ev : Event) (answer : Trainer -> A) (s s' : Trainer) (a : A) :
  call env ev answer s = (Py.Ok a, s') ->
  a = answer s /\ s' = with_calls s (calls s ++ [ev]).
Proof.
  unfold call. destruct (raises env ev s); [discriminate |].
  intros H. injection H as <- <-. auto.
Qed.

(** From a run that returned to what a frame says of it. *)
Lemma preserves_run {A} (R : Trainer -> Trainer -> Prop) (m : M A)
  (s s' : Trainer) (r : Py.result A) :
  preserves R m -> m s = (r, s') -> R s s'.
Proof. intros Hm E. specialize (Hm s). now rewrite E in Hm. Qed.

Section Logging.
Context {SnorkelClassifier : Type} (env : Collaborators SnorkelClassifier).

Lemma _reset_losses_empties (s s' : Trainer) (u : unit) :
  _reset_losses s = (Py.Ok u, s') -> accumulators_empty s'.
Proof.
  unfold _reset_losses, bind, assign. intros H. injection H as _ <-.
  split; reflexivity.
Qed.

Lemma evaluation_branch_calls (model : SnorkelClassifier)
  (dataloaders : list DictDataLoader) (metric_dict : Metrics) (fire : bool) :
  preserves (both (same_on config) (grows any_call))
    (if fire then
       self <- get_self ;;
       scores <- _evaluate env model dataloaders (config.valid_split (config self)) ;;
       let metric_dict := Py.update metric_dict scores in
       _log_metrics env metric_dict ;;
       _reset_losses ;;
       ret metric_dict
     else ret metric_dict).
Proof.
  unfold _evaluate, _log_metrics, _reset_losses, call_.
  destruct fire; frame_with ltac:(side_both side_same side_any).
Qed.

Lemma checkpoint_branch_calls (model : SnorkelClassifier)
  (metric_dict : Metrics) (fire : bool) :
  preserves (both (same_on config) (grows any_call))
    (if fire then _checkpoint_model env model metric_dict ;; _reset_losses
     else ret tt).
Proof.
  unfold _checkpoint_model, _reset_losses, call_.
  destruct fire; frame_with ltac:(side_both side_same side_any).
Qed.

Lemma checkpoint_branch_carries (model : SnorkelClassifier)
  (metric_dict : Metrics) (fire : bool) :
  preserves (carries accumulators_empty)
    (if fire then _checkpoint_model env model metric_dict ;; _reset_losses
     else ret tt).
Proof.
  unfold _checkpoint_model, _reset_losses, call_.
  destruct fire; frame_with side_carries.
Qed.

(** The calls of [_logging] when it returns: the same-named triggers are
    asked in between, and whatever they set off. *)
Lemma _logging_calls (model : SnorkelClassifier)
  (dataloaders : list DictDataLoader) (batch_size : Z) (self after : Trainer)
  (metric_dict : Metrics) :
  _logging env model dataloaders batch_size self = (Py.Ok metric_dict, after) ->
  config after = config self
  /\ exists evaluated checkpointed,
       calls after =
       calls self ++ [model_eval; log_manager_update batch_size]
         ++ ([log_manager_trigger_evaluation] ++ evaluated
               ++ [log_manager_trigger_checkpointing] ++ checkpointed)
         ++ [model_train].
Proof.
  intros H. unfold _logging in H.
  run_bind H u1 s1 H1. apply call_Ok_inv in H1 as [_ ->].
  run_bind H u2 s2 H2. apply call_Ok_inv in H2 as [_ ->].
  run_bind H losses s3 H3.
  destruct (_aggregate_losses_run _ _ _ H3) as [counts [_ [_ [-> _]]]].
  run_bind H fire s4 H4. apply call_Ok_inv in H4 as [_ ->].
  run_bind H md s5 H5.
  apply (preserves_run (both (same_on config) (grows any_call))) in H5;
    [| apply evaluation_branch_calls].
  destruct H5 as [C5 [evs5 [E5 _]]].
  run_bind H fire' s6 H6. apply call_Ok_inv in H6 as [_ ->].
  run_bind H u7 s7 H7.
  apply (preserves_run (both (same_on config) (grows any_call))) in H7;
    [| apply checkpoint_branch_calls].
  destruct H7 as [C7 [evs7 [E7 _]]].
  run_bind H u8 s8 H8. apply call_Ok_inv in H8 as [_ ->].
  unfold ret in H. injection H as _ <-.
  split.
  - unfold same_on in C5, C7.
    cbn [config with_calls with_running_counts] in *. congruence.
  - exists evs5, evs7.
    cbn [calls with_calls with_running_counts] in *.
    rewrite E7. cbn [calls with_calls]. rewrite E5. cbn [calls with_calls].
    rewrite <- !app_assoc. reflexivity.
Qed.

(** X18: [_logging] that returns has put the model in evaluation mode
    with its first call, told the log manager the batch size with its
    second, and put the model back in training mode with its last. *)
Theorem _logging_brackets_in_eval_mode (model : SnorkelClassifier)
  (dataloaders : list DictDataLoader) (batch_size : Z) (self after : Trainer)
  (metric_dict : Metrics) :
  _logging env model dataloaders batch_size self = (Py.Ok metric_dict, after) ->
  exists middle,
    calls after =
    calls self ++ [model_eval; log_manager_update batch_size] ++ middle
      ++ [model_train].
Proof.
  intros H. apply _logging_calls in H as [_ [evaluated [checkpointed H]]].
  eexists. exact H.
Qed.

(** X19: when the log manager triggers neither evaluation nor
    checkpointing, [_logging] that returns has made five calls and no
    other: no scoring, no scalar written, no checkpoint.  The running
    losses are as they were, and the metrics it returns are the averages
    of [_aggregate_losses]. *)
Theorem _logging_without_triggers (model : SnorkelClassifier)
  (dataloaders : list DictDataLoader) (batch_size : Z) (self after : Trainer)
  (metric_dict : Metrics) :
  (forall s, trigger_evaluation env s = false) ->
  (forall s, trigger_checkpointing env s = false) ->
  _logging env model dataloaders batch_size self = (Py.Ok metric_dict, after) ->
  calls after =
  calls self ++
  [model_eval; log_manager_update batch_size; log_manager_trigger_evaluation;
   log_manager_trigger_checkpointing; model_train]
  /\ running_losses after = running_losses self
  /\ exists losses,
       fst (_aggregate_losses
              (with_calls self
                 (calls self ++ [model_eval; log_manager_update batch_size]))) =
       Py.Ok losses
       /\ metric_dict = Py.update [] losses.
Proof.
  intros Heval Hckpt H. unfold _logging in H.
  run_bind H u1 s1 H1. apply call_Ok_inv in H1 as [_ ->].
  run_bind H u2 s2 H2. apply call_Ok_inv in H2 as [_ ->].
  run_bind H losses s3 H3.
  cbn [calls with_calls] in H3. rewrite <- app_assoc in H3. cbn [app] in H3.
  destruct (_aggregate_losses_run _ _ _ H3) as [counts [_ [_ [E3 _]]]].
  subst s3.
  run_bind H fire s4 H4. apply call_Ok_inv in H4 as [-> ->].
  rewrite Heval in H.
  run_bind H md s5 H5. unfold ret in H5. injection H5 as <- <-.
  run_bind H fire' s6 H6. apply call_Ok_inv in H6 as [-> ->].
  rewrite Hckpt in H.
  run_bind H u7 s7 H7. unfold ret in H7. injection H7 as _ <-.
  run_bind H u8 s8 H8. apply call_Ok_inv in H8 as [_ ->].
  unfold ret in H. injection H as <- <-.
  split; [| split].
  - cbn [calls with_calls with_running_counts]. rewrite <- !app_assoc.
    reflexivity.
  - reflexivity.
  - exists losses. split; [exact (f_equal fst H3) | reflexivity].
Qed.

(** X20: when the log manager triggers evaluation, or triggers
    checkpointing, [_logging] that returns leaves both running
    accumulators empty: the averages start afresh. *)
Theorem _logging_resets_after_a_trigger (model : SnorkelClassifier)
  (dataloaders : list DictDataLoader) (batch_size : Z) (self after : Trainer)
  (metric_dict : Metrics) :
  (forall s, trigger_evaluation env s = true)
  \/ (forall s, trigger_checkpointing env s = true) ->
  _logging env model dataloaders batch_size self = (Py.Ok metric_dict, after) ->
  running_losses after = [] /\ running_counts after = [].
Proof.
  intros Hfire H. unfold _logging in H.
  run_bind H u1 s1 H1. run_bind H u2 s2 H2. run_bind H losses s3 H3.
  run_bind H fire s4 H4. apply call_Ok_inv in H4 as [-> E4].
  run_bind H md s5 H5.
  run_bind H fire' s6 H6. apply call_Ok_inv in H6 as [-> E6].
  run_bind H u7 s7 H7.
  run_bind H u8 s8 H8. apply call_Ok_inv in H8 as [_ E8].
  unfold ret in H. injection H as _ <-.
  change (accumulators_empty s8).
  assert (H78 : carries accumulators_empty s7 s8)
    by (subst s8; side_carries).
  apply H78. destruct Hfire as [Heval | Hckpt].
  - rewrite Heval in H5.
    assert (H67 : carries accumulators_empty s6 s7)
      by (apply (preserves_run _ _ _ _ _ (checkpoint_branch_carries _ _ _) H7)).
    apply H67.
    assert (H56 : carries accumulators_empty s5 s6)
      by (subst s6; side_carries).
    apply H56.
    do 3 peel_bind H5. run_bind H5 u sr Hreset.
    unfold ret in H5. injection H5 as _ <-.
    now apply _reset_losses_empties in Hreset.
  - rewrite Hckpt in H7. run_bind H7 u sr Hreset.
    now apply _reset_losses_empties in H7.
Qed.

End Logging.

Lemma _logging_brackets_in_eval_mode_witness :
  exists middle,
    calls (snd (_logging (triggering_env true true) 5
                  [Sample.loader "d" "valid" 3] 4 accumulated_trainer)) =
    [model_eval; log_manager_update 4] ++ middle ++ [model_train].
Proof.
  assert (Hrun : _logging (triggering_env true true) 5
                   [Sample.loader "d" "valid" 3] 4 accumulated_trainer =
                 (Py.Ok
                    (returned []
                       (fst (_logging (triggering_env true true) 5
                               [Sample.loader "d" "valid" 3] 4
                               accumulated_trainer))),
                  snd (_logging (triggering_env true true) 5
                         [Sample.loader "d" "valid" 3] 4 accumulated_trainer)))
    by (vm_compute; reflexivity).
  exact (_logging_brackets_in_eval_mode _ _ _ _ _ _ _ Hrun).
Defined.

Lemma _logging_without_triggers_witness :
  calls (snd (_logging (triggering_env false false) 5
                [Sample.loader "d" "valid" 3] 4 accumulated_trainer)) =
  [model_eval; log_manager_update 4; log_manager_trigger_evaluation;
   log_manager_trigger_checkpointing; model_train].
Proof.
  assert (Hrun : _logging (triggering_env false false) 5
                   [Sample.loader "d" "valid" 3] 4 accumulated_trainer =
                 (Py.Ok
                    (returned []
                       (fst (_logging (triggering_env false false) 5
                               [Sample.loader "d" "valid" 3] 4
                               accumulated_trainer))),
                  snd (_logging (triggering_env false false) 5
                         [Sample.loader "d" "valid" 3] 4 accumulated_trainer)))
    by (vm_compute; reflexivity).
  exact (proj1 (_logging_without_triggers (triggering_env false false) _ _ _ _ _ _
                  (fun _ => eq_refl) (fun _ => eq_refl) Hrun)).
Defined.

Lemma _logging_resets_after_a_trigger_witness :
  running_losses accumulated_trainer <> []
  /\ running_losses
       (snd (_logging (triggering_env false true) 5
               [Sample.loader "d" "valid" 3] 4 accumulated_trainer)) = [].
Proof.
  split; [discriminate |].
  assert (Hrun : _logging (triggering_env false true) 5
                   [Sample.loader "d" "valid" 3] 4 accumulated_trainer =
                 (Py.Ok
                    (returned []
                       (fst (_logging (triggering_env false true) 5
                               [Sample.loader "d" "valid" 3] 4
                               accumulated_trainer))),
                  snd (_logging (triggering_env false true) 5
                         [Sample.loader "d" "valid" 3] 4 accumulated_trainer)))
    by (vm_compute; reflexivity).
  exact (proj1 (_logging_resets_after_a_trigger (triggering_env false true) _ _ _ _ _ _
                  (or_intror (fun _ => eq_refl)) Hrun)).
Defined.

(** ** The running accumulators of the training loop *)

Lemma length_append (a b : string) :
  String.length (a ++ b) = (String.length a + String.length b)%nat.
Proof. induction a as [| c a IH]; simpl; [reflexivity | now rewrite IH]. Qed.

Lemma append_cancel_r (a b x : string) : (a ++ x = b ++ x)%string -> a = b.
Proof.
  revert b. induction a as [| c a IH]; intros [| c' b] H; simpl in H.
  - reflexivity.
  - apply (f_equal String.length) in H. simpl in H.
    rewrite length_append in H. lia.
  - apply (f_equal String.length) in H. simpl in H.
    rewrite length_append in H. lia.
  - injection H as -> H. f_equal. now apply IH.
Qed.

(** On one loader, different tasks have different identifiers. *)
Lemma loss_identifier_inj (t t' : string) (dataloader : DictDataLoader) :
  loss_identifier t dataloader = loss_identifier t' dataloader -> t = t'.
Proof. unfold loss_identifier. simpl. apply append_cancel_r. Qed.

(** What is held under a key only depends on what [get] finds there. *)
Lemma held_get {V} (z : V) (d d' : Py.dict V) (k : string) :
  Py.get d k = Py.get d' k -> held z d k = held z d' k.
Proof.
  intros E. unfold held, Py.default_get. rewrite E.
  destruct (Py.get d' k); reflexivity.
Qed.

(** One round of the loop of lines 98-111, when it goes through. *)
Lemma update_running_step (dataloader : DictDataLoader)
  (loss_dict : Py.dict Py.float) (count_dict : Py.dict Z)
  (t : string) (rest : list string) (s s' : Trainer) :
  update_running dataloader loss_dict count_dict (t :: rest) s = (Py.Ok tt, s') ->
  exists l c cf,
    Py.get loss_dict t = Some l
    /\ Py.get count_dict t = Some c
    /\ Py.float_of_int c = Py.Ok cf
    /\ update_running dataloader loss_dict count_dict rest
         (with_running_counts
            (with_running_losses s
               (Py.set
                  (snd (Py.default_get zero (running_losses s)
                          (loss_identifier t dataloader)))
                  (loss_identifier t dataloader)
                  (Py.fadd
                     (held zero (running_losses s) (loss_identifier t dataloader))
                     (Py.fmul l cf))))
            (Py.set (snd (Py.default_get 0 (running_counts s) t)) t
               (held 0 (running_counts s) t + c))) = (Py.Ok tt, s').
Proof.
  intros H. cbn [update_running] in H.
  run_bind H l0 s1 H1. rewrite read_running_losses_run in H1.
  injection H1 as <- <-.
  run_bind H l s2 H2. unfold lift in H2.
  destruct (Py.get loss_dict t) as [l' |] eqn:El; [| discriminate].
  injection H2 as <- <-.
  run_bind H c s3 H3. unfold lift in H3.
  destruct (Py.get count_dict t) as [c' |] eqn:Ec; [| discriminate].
  injection H3 as <- <-.
  run_bind H cf s4 H4. unfold lift in H4. injection H4 as H4 <-.
  run_bind H u s5 H5. unfold assign in H5. injection H5 as _ <-.
  run_bind H c0 s6 H6. rewrite read_running_counts_run in H6.
  injection H6 as <- <-.
  run_bind H c1 s7 H7. unfold lift in H7. injection H7 as <- <-.
  run_bind H u' s8 H8. unfold assign in H8. injection H8 as _ <-.
  exists l', c', cf. repeat split; try assumption.
Qed.

(** The rounds for other tasks leave an entry alone. *)
Lemma update_running_other (dataloader : DictDataLoader)
  (loss_dict : Py.dict Py.float) (count_dict : Py.dict Z)
  (task_names : list string) (s s' : Trainer) (t : string) :
  ~ In t task_names ->
  update_running dataloader loss_dict count_dict task_names s = (Py.Ok tt, s') ->
  Py.get (running_losses s') (loss_identifier t dataloader) =
  Py.get (running_losses s) (loss_identifier t dataloader)
  /\ Py.get (running_counts s') t = Py.get (running_counts s) t.
Proof.
  revert s. induction task_names as [| t0 rest IH]; intros s Hnot H.
  - simpl in H. unfold ret in H. injection H as <-. auto.
  - apply update_running_step in H as [l [c [cf [_ [_ [_ H]]]]]].
    apply IH in H; [| intros Hin; apply Hnot; now right].
    destruct H as [Hl Hc]. rewrite Hl, Hc. cbn [running_losses running_counts
      with_running_losses with_running_counts].
    assert (Hne : t0 <> t) by (intros ->; apply Hnot; now left).
    assert (Hid : loss_identifier t0 dataloader <> loss_identifier t dataloader)
      by (intros E; apply Hne; now apply loss_identifier_inj in E).
    rewrite !DictFacts.get_set_other, !DictFacts.default_get_other by assumption.
    auto.
Qed.

(** X21: the loop of lines 98-111 accumulates.  When it goes through over
    task names that are all different, then for each of them the loss
    kept under "task/dataset/split/loss" has grown by the task's loss
    times its count, and the count kept under the bare task name has grown
    by the task's count; a key that was not there counts as 0.0 and 0. *)
Theorem update_running_accumulates (dataloader : DictDataLoader)
  (loss_dict : Py.dict Py.float) (count_dict : Py.dict Z)
  (task_names : list string) (s s' : Trainer) :
  NoDup task_names ->
  update_running dataloader loss_dict count_dict task_names s = (Py.Ok tt, s') ->
  forall t, In t task_names ->
    exists l c cf,
      Py.get loss_dict t = Some l
      /\ Py.get count_dict t = Some c
      /\ Py.float_of_int c = Py.Ok cf
      /\ Py.get (running_losses s') (loss_identifier t dataloader) =
         Some (Py.fadd
                 (held zero (running_losses s) (loss_identifier t dataloader))
                 (Py.fmul l cf))
      /\ Py.get (running_counts s') t = Some (held 0 (running_counts s) t + c).
Proof.
  revert s. induction task_names as [| t0 rest IH]; intros s Hnd H t Hin;
    [destruct Hin |].
  inversion Hnd as [| ? ? Hfresh Hrest]; subst.
  apply update_running_step in H as [l [c [cf [El [Ec [Ecf H]]]]]].
  destruct Hin as [<- | Hin].
  - exists l, c, cf. repeat split; try assumption.
    + rewrite (proj1 (update_running_other _ _ _ _ _ _ _ Hfresh H)).
      apply DictFacts.get_set.
    + rewrite (proj2 (update_running_other _ _ _ _ _ _ _ Hfresh H)).
      apply DictFacts.get_set.
  - destruct (IH _ Hrest H t Hin) as [l' [c' [cf' [El' [Ec' [Ecf' [Hl Hc]]]]]]].
    exists l', c', cf'. repeat split; try assumption.
    + rewrite Hl. f_equal. f_equal. apply held_get.
      cbn [running_losses with_running_losses with_running_counts].
      assert (Hne : t0 <> t) by (intros ->; contradiction).
      assert (Hid : loss_identifier t0 dataloader <> loss_identifier t dataloader)
        by (intros E; apply Hne; now apply loss_identifier_inj in E).
      rewrite DictFacts.get_set_other, DictFacts.default_get_other by assumption.
      reflexivity.
    + rewrite Hc. f_equal. f_equal. apply held_get.
      cbn [running_counts with_running_counts].
      assert (Hne : t0 <> t) by (intros ->; contradiction).
      rewrite DictFacts.get_set_other, DictFacts.default_get_other by assumption.
      reflexivity.
Qed.

(** X22: a task that has a loss but no entry in [count_dict] stops the
    loop with the KeyError of that task, before any loss is added; what
    stays behind is the key of its identifier in [running_losses], put
    there with 0.0 by the read if it was not there. *)
Theorem update_running_without_a_count (dataloader : DictDataLoader)
  (loss_dict : Py.dict Py.float) (count_dict : Py.dict Z)
  (t : string) (rest : list string) (s : Trainer) (l : Py.float) :
  Py.get loss_dict t = Some l ->
  Py.get count_dict t = None ->
  update_running dataloader loss_dict count_dict (t :: rest) s =
  (Py.Raise (Py.KeyError t),
   with_running_losses s
     (snd (Py.default_get zero (running_losses s)
             (loss_identifier t dataloader)))).
Proof.
  intros El Ec. cbn [update_running].
  rewrite (bind_Ok _ _ _ _ _ (read_running_losses_run _ s)).
  unfold bind, lift. rewrite El, Ec. reflexivity.
Qed.

Lemma update_running_accumulates_witness :
  Py.get
    (running_counts
       (snd (update_running (Sample.loader "d" "train" 1)
               [("t", Sample.ratio 2 1)] [("t", 4)] ["t"] accumulated_trainer)))
    "t" = Some 12.
Proof.
  assert (Hnd : NoDup ["t"]) by (constructor; [intros [] | constructor]).
  assert (Hrun : update_running (Sample.loader "d" "train" 1)
                   [("t", Sample.ratio 2 1)] [("t", 4)] ["t"]
                   accumulated_trainer =
                 (Py.Ok tt,
                  snd (update_running (Sample.loader "d" "train" 1)
                         [("t", Sample.ratio 2 1)] [("t", 4)] ["t"]
                         accumulated_trainer)))
    by (vm_compute; reflexivity).
  destruct (update_running_accumulates _ _ _ _ _ _ Hnd Hrun "t"
              (or_introl eq_refl))
    as [l [c [cf [_ [Ec [_ [_ Hc]]]]]]].
  rewrite Hc. injection Ec as <-. reflexivity.
Defined.

Lemma update_running_without_a_count_witness :
  update_running (Sample.loader "d" "train" 1)
    [("t", Sample.ratio 2 1)] [] ["t"] (Sample.trainer Sample.constant_schedule) =
  (Py.Raise (Py.KeyError "t"),
   with_running_losses (Sample.trainer Sample.constant_schedule)
     [("t/d/train/loss", zero)]).
Proof.
  exact (update_running_without_a_count (Sample.loader "d" "train" 1)
           [("t", Sample.ratio 2 1)] [] "t" []
           (Sample.trainer Sample.constant_schedule) (Sample.ratio 2 1)
           eq_refl eq_refl).
Defined.

(** ** One batch *)

Section TrainBatch.
Context {SnorkelClassifier : Type} (env : Collaborators SnorkelClassifier).

(** The update of the rate steps one scheduler at most, and leaves the
    configuration alone. *)
Lemma _update_lr_scheduler_steps_once (step : Z) (s : Trainer) :
  let s' := snd (_update_lr_scheduler env step s) in
  config s' = config s
  /\ (calls s' = calls s
      \/ exists scheduler, calls s' = calls s ++ [scheduler_step scheduler]).
Proof.
  intros s'. split.
  - assert (H : preserves (same_on config) (_update_lr_scheduler env step)).
    { unfold _update_lr_scheduler, step_scheduler, set_lr.
      frame_with side_same. }
    apply H.
  - subst s'.
    destruct (warmup_scheduler s) as [w |] eqn:Ew.
    + destruct (Z.lt_ge_cases step (warmup_steps s)) as [Hlt | Hge].
      * rewrite (_update_lr_scheduler_warmup env step s w Ew Hlt).
        right. exists w. apply step_scheduler_calls.
      * rewrite (_update_lr_scheduler_decay env step s (or_intror Hge)).
        destruct (lr_scheduler s) as [d |] eqn:Ed.
        -- right. exists d. now apply decay_branch_calls.
        -- left. unfold decay_branch. now rewrite Ed.
    + rewrite (_update_lr_scheduler_decay env step s (or_introl Ew)).
      destruct (lr_scheduler s) as [d |] eqn:Ed.
      * right. exists d. now apply decay_branch_calls.
      * left. unfold decay_branch. now rewrite Ed.
Qed.

Lemma update_running_quiet (dataloader : DictDataLoader)
  (loss_dict : Py.dict Py.float) (count_dict : Py.dict Z)
  (task_names : list string) :
  preserves (same_on (fun s => (config s, calls s)))
    (update_running dataloader loss_dict count_dict task_names).
Proof.
  induction task_names as [| t rest IH]; simpl;
    unfold read_running_losses, read_running_counts; frame_with side_same.
Qed.

(** X23: a batch whose [Y_dict] is empty has no first label tensor to take
    the batch size from: the body of the loop raises StopIteration at
    once, before the rate is updated or any call is made, and the trainer
    is left as it was. *)
Theorem batch_without_labels_raises_StopIteration
  (model : SnorkelClassifier) (dataloaders : list DictDataLoader)
  (epoch_num batch_num : Z) (batch : Batch) (dataloader : DictDataLoader)
  (self : Trainer) :
  Y_dict batch = [] ->
  train_batch env model dataloaders epoch_num (batch_num, (batch, dataloader))
    self = (Py.Raise Py.StopIteration, self).
Proof.
  intros H. unfold train_batch, bind, get_self, lift. now rewrite H.
Qed.

(** X24: the order of a batch.  When [calculate_loss] answers a
    [loss_dict] that is not empty and the body of the loop goes through,
    its calls are, in this order: at most one step of a scheduler;
    [zero_grad]; [calculate_loss] on the batch; the backward pass on the
    losses; the clipping of the gradient, only if [grad_clip] is set and
    then with that value; one optimizer step; and then [_logging], from
    [model.eval()] and the update of the log manager with the number of
    labels of the first task, to [model.train()]. *)
Theorem train_batch_order_of_calls
  (model : SnorkelClassifier) (dataloaders : list DictDataLoader)
  (epoch_num batch_num : Z) (batch : Batch) (dataloader : DictDataLoader)
  (self after : Trainer)
  (loss_dict : Py.dict Py.float) (count_dict : Py.dict Z) :
  (forall s, calculate_loss env batch s = (loss_dict, count_dict)) ->
  loss_dict <> [] ->
  train_batch env model dataloaders epoch_num (batch_num, (batch, dataloader))
    self = (Py.Ok tt, after) ->
  exists stepped y others logged,
    calls after =
    calls self ++ stepped
      ++ [zero_grad; model_calculate_loss batch;
          loss_backward (Py.values loss_dict)]
      ++ match Py.if_truthy
                 (optimizer_config.grad_clip
                    (config.optimizer_config (config self))) with
         | Some grad_clip => [clip_grad_norm_ grad_clip]
         | None => []
         end
      ++ [optimizer_step; model_eval; log_manager_update (Z.of_nat y)]
      ++ logged ++ [model_train]
    /\ (stepped = [] \/ exists scheduler, stepped = [scheduler_step scheduler])
    /\ Py.values (Y_dict batch) = y :: others.
Proof.
  intros Hloss Hsome H. unfold train_batch in H. cbv beta iota in H.
  unfold bind at 1, get_self at 1 in H.
  run_bind H batch_size s1 H1. unfold lift in H1.
  destruct (Py.values (Y_dict batch)) as [| y others]; [discriminate |].
  injection H1 as <- <-.
  run_bind H u2 s2 H2.
  destruct (_update_lr_scheduler_steps_once
              (epoch_num * n_batches_per_epoch self + batch_num) self)
    as [C2 E2].
  rewrite H2 in C2, E2. cbn [snd] in C2, E2.
  run_bind H u3 s3 H3. apply call_Ok_inv in H3 as [_ ->].
  run_bind H answer s4 H4. apply call_Ok_inv in H4 as [-> ->].
  rewrite Hloss in H.
  run_bind H u5 s5 H5.
  apply (preserves_run _ _ _ _ _ (update_running_quiet _ _ _ _)) in H5.
  unfold same_on in H5. cbn [config calls with_calls] in H5.
  injection H5 as C5 E5.
  destruct loss_dict as [| kv more]; [contradiction |].
  run_bind H u6 s6 H6. apply call_Ok_inv in H6 as [_ ->].
  unfold bind at 1, get_self at 1 in H.
  cbn [config with_calls] in H. rewrite C5, C2 in H.
  run_bind H u7 s7 H7.
  run_bind H u8 s8 H8. apply call_Ok_inv in H8 as [_ ->].
  run_bind H metric_dict s9 H9.
  apply _logging_calls in H9 as [_ [evaluated [checkpointed E9]]].
  unfold assign in H. injection H as <-.
  cbn [calls with_calls with_metrics] in E9 |- *.
  assert (E7 : calls s7 =
               calls s5 ++ [loss_backward (Py.values (kv :: more))]
                 ++ match Py.if_truthy
                            (optimizer_config.grad_clip
                               (config.optimizer_config (config self))) with
                    | Some grad_clip => [clip_grad_norm_ grad_clip]
                    | None => []
                    end).
  { destruct (Py.if_truthy _) as [grad_clip |].
    - apply call_Ok_inv in H7 as [_ ->]. cbn [calls with_calls].
      now rewrite <- app_assoc.
    - unfold ret in H7. injection H7 as _ <-. reflexivity. }
  destruct E2 as [E2 | [scheduler E2]].
  - exists [], y, others,
      ([log_manager_trigger_evaluation] ++ evaluated
         ++ [log_manager_trigger_checkpointing] ++ checkpointed).
    split; [| split; [now left | reflexivity]].
    rewrite E9, E7, E5, E2. rewrite <- !app_assoc. cbn [app]. reflexivity.
  - exists [scheduler_step scheduler], y, others,
      ([log_manager_trigger_evaluation] ++ evaluated
         ++ [log_manager_trigger_checkpointing] ++ checkpointed).
    split; [| split; [right; now exists scheduler | reflexivity]].
    rewrite E9, E7, E5, E2. rewrite <- !app_assoc. cbn [app]. reflexivity.
Qed.

End TrainBatch.

Lemma batch_without_labels_raises_StopIteration_witness :
  train_batch (Sample.env Sample.keep_rate Sample.loss_two) 5
    [Sample.loader "d" "train" 1] 0
    (0, (Sample.batch [] 4, Sample.loader "d" "train" 1))
    (Sample.trainer Sample.constant_schedule) =
  (Py.Raise Py.StopIteration, Sample.trainer Sample.constant_schedule).
Proof.
  exact (batch_without_labels_raises_StopIteration
           (Sample.env Sample.keep_rate Sample.loss_two) 5
           [Sample.loader "d" "train" 1] 0 0 (Sample.batch [] 4)
           (Sample.loader "d" "train" 1)
           (Sample.trainer Sample.constant_schedule) eq_refl).
Defined.

Lemma train_batch_order_of_calls_witness :
  exists stepped logged,
    calls
      (snd (train_batch (Sample.env Sample.keep_rate Sample.loss_two) 5
              [Sample.loader "d" "train" 1] 0
              (0, (Sample.batch ["t"] 4, Sample.loader "d" "train" 1))
              (Sample.trainer Sample.constant_schedule))) =
    stepped
      ++ [zero_grad; model_calculate_loss (Sample.batch ["t"] 4);
          loss_backward [Sample.ratio 2 1];
          clip_grad_norm_ (Py.Float (Sample.ratio 1 1));
          optimizer_step; model_eval; log_manager_update 4]
      ++ logged ++ [model_train].
Proof.
  assert (Hsome : [("t", Sample.ratio 2 1)] <> []) by discriminate.
  assert (Hrun : train_batch (Sample.env Sample.keep_rate Sample.loss_two) 5
                   [Sample.loader "d" "train" 1] 0
                   (0, (Sample.batch ["t"] 4, Sample.loader "d" "train" 1))
                   (Sample.trainer Sample.constant_schedule) =
                 (Py.Ok tt,
                  snd (train_batch
                         (Sample.env Sample.keep_rate Sample.loss_two) 5
                         [Sample.loader "d" "train" 1] 0
                         (0, (Sample.batch ["t"] 4, Sample.loader "d" "train" 1))
                         (Sample.trainer Sample.constant_schedule))))
    by (vm_compute; reflexivity).
  destruct (train_batch_order_of_calls
              (Sample.env Sample.keep_rate Sample.loss_two) 5
              [Sample.loader "d" "train" 1] 0 0 (Sample.batch ["t"] 4)
              (Sample.loader "d" "train" 1)
              (Sample.trainer Sample.constant_schedule) _
              [("t", Sample.ratio 2 1)] [("t", 4)]
              (fun _ => eq_refl) Hsome Hrun)
    as [stepped [y [others [logged [Hcalls [_ Hy]]]]]].
  injection Hy as <- _.
  exists stepped, logged. rewrite Hcalls. reflexivity.
Defined.

(** ** What the calls of [train_model] owe to the configuration *)

Section Maintain.
Variable Inv : Trainer -> Prop.
Variable R : Trainer -> Trainer -> Prop.
Context {R_preorder : PreOrder R} {R_stable : Stable Inv R}.

Lemma maintains_ret {A} (a : A) : maintains Inv R (ret a).
Proof. intros s _. reflexivity. Qed.

Lemma maintains_raise {A} (e : Py.exn) : maintains Inv R (@raise A e).
Proof. intros s _. reflexivity. Qed.

Lemma maintains_lift {A} (r : Py.result A) : maintains Inv R (lift r).
Proof. intros s _. reflexivity. Qed.

Lemma maintains_get_self : maintains Inv R get_self.
Proof. intros s _. reflexivity. Qed.

Lemma maintains_assign (f : Trainer -> Trainer) :
  (forall s, Inv s -> R s (f s)) -> maintains Inv R (assign f).
Proof. intros H s Hs. exact (H s Hs). Qed.

Lemma maintains_bind {A B} (m : M A) (k : A -> M B) :
  maintains Inv R m -> (forall a, maintains Inv R (k a)) ->
  maintains Inv R (bind m k).
Proof.
  intros Hm Hk s Hs. unfold bind. specialize (Hm s Hs).
  destruct (m s) as [[a | e] s1]; simpl in *; [| exact Hm].
  transitivity s1; [exact Hm |]. apply Hk. exact (stable s s1 Hs Hm).
Qed.

(** What [get_self] hands on satisfies the invariant. *)
Lemma maintains_bind_self {B} (k : Trainer -> M B) :
  (forall self, Inv self -> maintains Inv R (k self)) ->
  maintains Inv R (bind get_self k).
Proof. intros H s Hs. exact (H s Hs s Hs). Qed.

Lemma maintains_for_each {A} (body : A -> M unit) (items : list A) :
  (forall x, maintains Inv R (body x)) -> maintains Inv R (for_each body items).
Proof.
  intros Hbody. induction items as [| x rest IH]; simpl.
  - apply maintains_ret.
  - apply maintains_bind; [apply Hbody | intros _; exact IH].
Qed.

Lemma maintains_call {SnorkelClassifier A}
  (env : Collaborators SnorkelClassifier) (ev : Event) (answer : Trainer -> A) :
  (forall s, Inv s -> R s (with_calls s (calls s ++ [ev]))) ->
  maintains Inv R (call env ev answer).
Proof.
  intros H s Hs. unfold call. destruct (raises env ev s); exact (H s Hs).
Qed.

End Maintain.

Ltac maintain_step side :=
  cbv beta;
  lazymatch goal with
  | |- maintains ?I ?R (ret _) => exact (maintains_ret I R _)
  | |- maintains ?I ?R (raise _) => exact (maintains_raise I R _)
  | |- maintains ?I ?R (lift _) => exact (maintains_lift I R _)
  | |- maintains ?I ?R get_self => exact (maintains_get_self I R)
  | |- maintains ?I ?R (bind get_self ?k) =>
      refine (maintains_bind_self I R k _); intros ? ?
  | |- maintains ?I ?R (bind ?m ?k) =>
      refine (maintains_bind I R m k _ _); [| intros ?]
  | |- maintains ?I ?R (for_each ?body ?items) =>
      refine (maintains_for_each I R body items _); intros ?
  | |- maintains ?I ?R (assign ?f) =>
      refine (maintains_assign I R f _); intros ? ?; side
  | |- maintains ?I ?R (call ?env ?ev ?answer) =>
      refine (maintains_call I R env ev answer _); intros ? ?; side
  | |- maintains _ _ (match ?x with _ => _ end) => destruct x eqn:?
  | |- maintains _ _ _ => solve [eauto with frame]
  end.

Ltac maintain_with side := repeat maintain_step side.

#[local] Instance by_the_policy_preorder (c : config.t)
  (dataloaders : list DictDataLoader) (batches_from : option (list DictDataLoader)) :
  PreOrder (by_the_policy c dataloaders batches_from).
Proof. unfold by_the_policy. typeclasses eauto. Qed.

#[local] Instance by_the_policy_stable (c : config.t)
  (dataloaders : list DictDataLoader) (batches_from : option (list DictDataLoader)) :
  Stable (goes_by c) (by_the_policy c dataloaders batches_from).
Proof.
  intros s s' H [Hg _]. unfold same_on, governed in Hg.
  injection Hg as Hc Hw Hk. unfold goes_by in *. now rewrite Hc, Hw, Hk.
Qed.

(** A call is within the policy by what the invariant says of the
    trainer its arguments were read from. *)
Ltac within_policy_by_invariant :=
  cbn [within_policy];
  repeat match goal with
         | H : goes_by _ _ |- _ => destruct H as (? & ? & ? & ? & ? & ?)
         end;
  first [ exact Logic.I
        | reflexivity
        | congruence
        | repeat split; congruence
        | match goal with
          | H : _ <> None -> ?g |- ?g => apply H; congruence
          end ].

Ltac side_policy :=
  split;
  [ reflexivity
  | first [ apply grows_same; reflexivity
          | eapply grows_one; [reflexivity | within_policy_by_invariant] ] ].

(** A method that makes no call and keeps what governs the trainer is
    within any policy. *)
Lemma maintains_quiet {A} (Inv : Trainer -> Prop) (c : config.t)
  (dataloaders : list DictDataLoader) (batches_from : option (list DictDataLoader))
  (m : M A) :
  preserves (same_on (fun s => (governed s, calls s))) m ->
  maintains Inv (by_the_policy c dataloaders batches_from) m.
Proof.
  intros H s _. specialize (H s). unfold same_on in H.
  split; [exact (f_equal fst H) | apply grows_same; exact (f_equal snd H)].
Qed.

Lemma _reset_losses_quiet :
  preserves (same_on (fun s => (governed s, calls s))) _reset_losses.
Proof. unfold _reset_losses. frame_with side_same. Qed.

Lemma update_running_governed (dataloader : DictDataLoader)
  (loss_dict : Py.dict Py.float) (count_dict : Py.dict Z)
  (task_names : list string) :
  preserves (same_on (fun s => (governed s, calls s)))
    (update_running dataloader loss_dict count_dict task_names).
Proof.
  induction task_names as [| t rest IH]; simpl;
    unfold read_running_losses, read_running_counts; frame_with side_same.
Qed.

Lemma aggregate_task_losses_quiet (identifiers : list string)
  (metric_dict : Metrics) :
  preserves (same_on (fun s => (governed s, calls s)))
    (aggregate_task_losses identifiers metric_dict).
Proof.
  revert metric_dict.
  induction identifiers as [| identifier rest IH]; intros metric_dict; simpl;
    unfold read_running_losses, read_running_counts; frame_with side_same.
Qed.

Lemma _aggregate_losses_quiet :
  preserves (same_on (fun s => (governed s, calls s))) _aggregate_losses.
Proof.
  pose proof aggregate_task_losses_quiet.
  unfold _aggregate_losses. frame_with side_same.
Qed.

Section Policy.
Context {SnorkelClassifier : Type} (env : Collaborators SnorkelClassifier).
Variable c : config.t.
Variable dataloaders : list DictDataLoader.
Variable batches_from : option (list DictDataLoader).

#[local] Abbreviation in_policy :=
  (maintains (goes_by c) (by_the_policy c dataloaders batches_from)).

Lemma _reset_losses_policy : in_policy _reset_losses.
Proof. apply maintains_quiet, _reset_losses_quiet. Qed.

Lemma update_running_policy dataloader loss_dict count_dict task_names :
  in_policy (update_running dataloader loss_dict count_dict task_names).
Proof. apply maintains_quiet, update_running_governed. Qed.

Lemma _aggregate_losses_policy : in_policy _aggregate_losses.
Proof. apply maintains_quiet, _aggregate_losses_quiet. Qed.

Hint Resolve _reset_losses_policy update_running_policy
  _aggregate_losses_policy : frame.

Lemma _set_log_manager_policy : in_policy (_set_log_manager env).
Proof. unfold _set_log_manager, call_. maintain_with side_policy. Qed.

Lemma _set_optimizer_policy model : in_policy (_set_optimizer env model).
Proof. unfold _set_optimizer, call_. maintain_with side_policy. Qed.

Lemma _set_lr_scheduler_policy : in_policy (_set_lr_scheduler env).
Proof.
  unfold _set_lr_scheduler, _set_warmup_scheduler, build_scheduler, set_lr.
  maintain_with side_policy.
Qed.

Lemma _set_batch_scheduler_policy : in_policy (_set_batch_scheduler env).
Proof. unfold _set_batch_scheduler, call_. maintain_with side_policy. Qed.

Lemma _update_lr_scheduler_policy step : in_policy (_update_lr_scheduler env step).
Proof.
  unfold _update_lr_scheduler, step_scheduler, set_lr.
  maintain_with side_policy.
Qed.

Lemma _logging_policy model batch_size :
  in_policy (_logging env model dataloaders batch_size).
Proof.
  unfold _logging, _evaluate, _log_metrics, _checkpoint_model, call_.
  maintain_with side_policy.
Qed.

Hint Resolve _update_lr_scheduler_policy _logging_policy : frame.

Lemma train_batch_policy model epoch_num item :
  in_policy (train_batch env model dataloaders epoch_num item).
Proof.
  destruct item as [batch_num [batch dataloader]].
  unfold train_batch, call_. maintain_with side_policy.
Qed.

End Policy.

Section TrainModelPolicy.
Context {SnorkelClassifier : Type} (env : Collaborators SnorkelClassifier).

(** One step along a bind, from the trainer the run starts at. *)
Lemma bind_at {A B} (R : Trainer -> Trainer -> Prop) {R_preorder : PreOrder R}
  (m : M A) (k : A -> M B) (s : Trainer) :
  R s (snd (m s)) ->
  (forall a s1, m s = (Py.Ok a, s1) -> R s1 (snd (k a s1))) ->
  R s (snd (bind m k s)).
Proof.
  intros Hm Hk. unfold bind.
  destruct (m s) as [[a | e] s1]; simpl in *; [| exact Hm].
  transitivity s1; [exact Hm | exact (Hk a s1 eq_refl)].
Qed.

Lemma grows_from (Q : Event -> Prop) (s0 s s' : Trainer) :
  calls s0 = calls s -> grows Q s0 s' -> grows Q s s'.
Proof. intros E [evs [Hc HQ]]. exists evs. now rewrite <- E. Qed.

(** The writer is built only if logging is on, and is there afterwards
    only if it was built. *)
Lemma _set_log_writer_policy (dataloaders : list DictDataLoader)
  (batches_from : option (list DictDataLoader)) (s : Trainer) :
  grows (within_policy (config s) dataloaders batches_from) s
    (snd (_set_log_writer env s))
  /\ config (snd (_set_log_writer env s)) = config s
  /\ (forall u, fst (_set_log_writer env s) = Py.Ok u ->
      log_writer (snd (_set_log_writer env s)) <> None ->
      config.logging (config s) = true).
Proof.
  unfold _set_log_writer, bind, get_self, call, assign, raise.
  destruct (config.logging (config s)) eqn:El.
  - assert (Hbuilt : forall w,
              w = config.writer (config s) ->
              within_policy (config s) dataloaders batches_from (new_LogWriter w))
      by (intros w ->; split; [exact El | reflexivity]).
    destruct (String.eqb (config.writer (config s)) "json");
      [| destruct (String.eqb (config.writer (config s)) "tensorboard")];
      try destruct (raises env _ s); cbn [fst snd];
      (split;
       [ first [ apply grows_same; reflexivity
               | eapply grows_one; [reflexivity | now apply Hbuilt] ]
       | split; [reflexivity | intros u H; first [discriminate H | reflexivity]] ]).
  - cbn [fst snd]. split; [apply grows_same; reflexivity |].
    split; [reflexivity |]. intros u _ H. now contradiction H.
Qed.

(** The checkpointer is built only if checkpointing is on, and is there
    afterwards only if it was built; of the configuration only
    [checkpoint_dir] may change. *)
Lemma _set_checkpointer_policy (dataloaders : list DictDataLoader)
  (batches_from : option (list DictDataLoader)) (s : Trainer) :
  grows (within_policy (config s) dataloaders batches_from) s
    (snd (_set_checkpointer env s))
  /\ config.set_checkpoint_dir (config (snd (_set_checkpointer env s))) None =
     config.set_checkpoint_dir (config s) None
  /\ log_writer (snd (_set_checkpointer env s)) = log_writer s
  /\ (forall u, fst (_set_checkpointer env s) = Py.Ok u ->
      checkpointer (snd (_set_checkpointer env s)) <> None ->
      config.checkpointing (config s) = true).
Proof.
  unfold _set_checkpointer, call_, call, bind, get_self, assign, ret.
  destruct (config.checkpointing (config s)) eqn:Ec.
  - assert (Hbuilt : forall dir,
              within_policy (config s) dataloaders batches_from
                (new_Checkpointer dir))
      by (intros dir; exact Ec).
    destruct (config.checkpoint_dir (config s));
      [| destruct (log_writer s) eqn:Ew];
      cbn [fst snd config calls log_writer with_config];
      destruct (raises env _ _); cbn [fst snd];
      (split;
       [ eapply grows_one; [reflexivity | apply Hbuilt]
       | split; [reflexivity |];
         split; [first [reflexivity | exact Ew] |];
         intros u H; first [discriminate H | reflexivity] ]).
  - unfold assign. cbn [fst snd]. split; [apply grows_same; reflexivity |].
    split; [reflexivity |]. split; [reflexivity |].
    intros u _ H. now contradiction H.
Qed.

Hint Resolve _set_log_manager_policy _set_optimizer_policy
  _set_lr_scheduler_policy _set_batch_scheduler_policy _reset_losses_policy
  train_batch_policy : frame.

(** Everything [train_model] does once the writer and the checkpointer
    are set. *)
Lemma train_model_rest_policy (c : config.t) (model : SnorkelClassifier)
  (dataloaders train_dataloaders : list DictDataLoader) (n_epochs : Z) :
  maintains (goes_by c) (by_the_policy c dataloaders (Some train_dataloaders))
    (_set_log_manager env ;;
     _set_optimizer env model ;;
     _set_lr_scheduler env ;;
     _set_batch_scheduler env ;;
     call_ env model_train ;;
     assign (fun s => with_metrics s []) ;;
     _reset_losses ;;
     for_each
       (fun epoch_num =>
          batches <- call env (get_batches train_dataloaders)
                       (scheduler_get_batches env train_dataloaders) ;;
          for_each (train_batch env model dataloaders epoch_num)
            (enumerate batches))
       (range n_epochs) ;;
     model <- call env log_manager_close (close env model) ;;
     ret (@None SnorkelClassifier)).
Proof. unfold call_. maintain_with side_policy. Qed.

(** After the writer and the checkpointer are set, the trainer goes by
    the configuration it was started with. *)
Lemma goes_by_after_setting (c : config.t) (s1 s2 : Trainer) :
  config s1 = c ->
  config.set_checkpoint_dir (config s2) None = config.set_checkpoint_dir c None ->
  log_writer s2 = log_writer s1 ->
  (log_writer s1 <> None -> config.logging c = true) ->
  (checkpointer s2 <> None -> config.checkpointing c = true) ->
  goes_by c s2.
Proof.
  intros _ Hview Hw Hlog Hckpt. unfold goes_by. rewrite Hw.
  repeat split; try assumption.
  - exact (f_equal config.valid_split Hview).
  - exact (f_equal config.optimizer_config Hview).
  - exact (f_equal config.batch_scheduler Hview).
  - exact (f_equal config.n_epochs Hview).
Qed.

(** Every call of [train_model], whether it returns or raises, is within
    the policy of the configuration it was started with. *)
Lemma train_model_policy (model : SnorkelClassifier)
  (dataloaders : list DictDataLoader) (self : Trainer) :
  grows
    (within_policy (config self) dataloaders
       (Some (train_dataloaders_of self dataloaders)))
    self (snd (train_model env model dataloaders self)).
Proof.
  pose proof (_check_dataloaders_state dataloaders self) as Hstate.
  unfold train_model.
  destruct (_check_dataloaders dataloaders self) as [[[] | e] s1] eqn:E;
    simpl in Hstate; subst s1.
  - rewrite (bind_Ok _ _ _ _ _ E).
    unfold bind at 1, get_self at 1. unfold bind at 1, assign at 1.
    set (tl := train_dataloaders_of self dataloaders).
    set (s0 := with_n_batches_per_epoch self _).
    apply (grows_from _ s0); [reflexivity |].
    change (config self) with (config s0).
    apply (@bind_at _ _ _ (grows_preorder _)); [apply _set_log_writer_policy |].
    intros u1 s1 E1.
    destruct (_set_log_writer_policy dataloaders (Some tl) s0) as [_ [C1 W1]].
    rewrite E1 in C1, W1. cbn [fst snd] in C1, W1. specialize (W1 u1 eq_refl).
    destruct (_set_checkpointer_policy dataloaders (Some tl) s1)
      as [G2 [V2 [L2 K2]]].
    rewrite C1 in G2, V2, K2.
    apply (@bind_at _ _ _ (grows_preorder _)); [exact G2 |].
    intros u2 s2 E2. rewrite E2 in V2, L2, K2. cbn [fst snd] in V2, L2, K2.
    specialize (K2 u2 eq_refl).
    apply (train_model_rest_policy (config s0) model dataloaders tl).
    now apply goes_by_after_setting with s1.
  - rewrite (bind_Raise _ _ _ _ _ E). apply grows_same. reflexivity.
Qed.

(** X25: batches are only ever asked of the training loaders.  In every
    run of [train_model], to its end or to an exception, each call of the
    batch scheduler's [get_batches] is given exactly the loaders whose
    split equals [train_split]. *)
Theorem train_model_asks_batches_of_training_loaders
  (model : SnorkelClassifier) (dataloaders : list DictDataLoader)
  (self : Trainer) :
  exists evs,
    calls (snd (train_model env model dataloaders self)) = calls self ++ evs
    /\ forall loaders,
         In (get_batches loaders) evs ->
         forall d,
           In d loaders <->
           In d dataloaders
           /\ split (dataset d) = config.train_split (config self).
Proof.
  destruct (train_model_policy model dataloaders self) as [evs [Hcalls Hpolicy]].
  exists evs. split; [exact Hcalls |].
  intros loaders Hin d. rewrite Forall_forall in Hpolicy.
  specialize (Hpolicy _ Hin). cbn [within_policy] in Hpolicy.
  injection Hpolicy as <-. unfold train_dataloaders_of.
  rewrite filter_In, String.eqb_eq. reflexivity.
Qed.

(** X26: what is scored during training goes by substring.  In every
    run of [train_model], to its end or to an exception, each call of
    [model.score] is given exactly the loaders whose split label occurs
    inside [valid_split], equal to it or not: a loader of the test split
    is scored as well when its label is a substring of [valid_split], and
    only then. *)
Theorem train_model_scores_by_substring_of_valid_split
  (model : SnorkelClassifier) (dataloaders : list DictDataLoader)
  (self : Trainer) :
  exists evs,
    calls (snd (train_model env model dataloaders self)) = calls self ++ evs
    /\ forall loaders,
         In (model_score loaders) evs ->
         forall d,
           In d loaders <->
           In d dataloaders
           /\ exists pre post,
                config.valid_split (config self) =
                (pre ++ split (dataset d) ++ post)%string.
Proof.
  destruct (train_model_policy model dataloaders self) as [evs [Hcalls Hpolicy]].
  exists evs. split; [exact Hcalls |].
  intros loaders Hin d. rewrite Forall_forall in Hpolicy.
  specialize (Hpolicy _ Hin). cbn [within_policy] in Hpolicy. subst loaders.
  apply evaluated_loaders_In.
Qed.

(** X27: the gradient is clipped only as configured.  In every run of
    [train_model] each call of [clip_grad_norm_] carries the configured
    [grad_clip], which is then a true value: with [grad_clip] unset or
    zero there is no clipping at all. *)
Theorem train_model_clips_only_as_configured
  (model : SnorkelClassifier) (dataloaders : list DictDataLoader)
  (self : Trainer) :
  exists evs,
    calls (snd (train_model env model dataloaders self)) = calls self ++ evs
    /\ forall max_norm,
         In (clip_grad_norm_ max_norm) evs ->
         optimizer_config.grad_clip (config.optimizer_config (config self)) =
         Some max_norm
         /\ Py.truthy max_norm = true.
Proof.
  destruct (train_model_policy model dataloaders self) as [evs [Hcalls Hpolicy]].
  exists evs. split; [exact Hcalls |].
  intros max_norm Hin. rewrite Forall_forall in Hpolicy.
  specialize (Hpolicy _ Hin). cbn [within_policy] in Hpolicy.
  now apply PyFacts.if_truthy_inv.
Qed.

(** X28: what is switched off is left alone.  In every run of
    [train_model], a log writer is built and a scalar is written only if
    [logging] is on, and a checkpointer is built and a checkpoint is made
    only if [checkpointing] is on. *)
Theorem train_model_leaves_switched_off_collaborators_alone
  (model : SnorkelClassifier) (dataloaders : list DictDataLoader)
  (self : Trainer) :
  exists evs,
    calls (snd (train_model env model dataloaders self)) = calls self ++ evs
    /\ (forall writer, In (new_LogWriter writer) evs ->
                       config.logging (config self) = true)
    /\ (forall metric_name metric_value step,
          In (log_writer_add_scalar metric_name metric_value step) evs ->
          config.logging (config self) = true)
    /\ (forall dir, In (new_Checkpointer dir) evs ->
                    config.checkpointing (config self) = true)
    /\ (forall unit_total metric_dict,
          In (checkpointer_checkpoint unit_total metric_dict) evs ->
          config.checkpointing (config self) = true).
Proof.
  destruct (train_model_policy model dataloaders self) as [evs [Hcalls Hpolicy]].
  exists evs. split; [exact Hcalls |]. rewrite Forall_forall in Hpolicy.
  repeat split; intros; match goal with
                        | H : In _ evs |- _ => apply Hpolicy in H
                        end; cbn [within_policy] in *; tauto.
Qed.

End TrainModelPolicy.
